(** * Funding-rate arbitrage scanner: the opportunity-computation engine

    A shallow embedding of [analyze_data.py]: the pair normaliser
    ([remove_leading_numbers]), the perp-perp computer
    ([create_perp_perp_opportunities_df]), the spot-perp computer
    ([create_spot_perp_opportunites_df]) and the ranking step
    ([filter_and_sort_rates]).

    Modelling conventions.
    - A pandas frame is a list of rows (a record per row) together with
      flags for the optional columns; every column operation of the source
      is row-wise, so a frame transformer is a [map] of a row function.
    - Python floats are modelled as exact rationals [Q].  A missing number
      (NaN) is [None]; every comparison with NaN is false, as in Python.
      Rounding error and infinities are outside the model.
    - A cell of a historical-rate column is a Python object [pyobj]: a list
      of numbers, a missing value, a text, a tuple of numbers, or an object
      that is neither of these and cannot be iterated (a bare number, a
      bool).  Lists holding a non-number, sets and dicts are outside the
      model.
    - [ast.literal_eval] on a text is a parameter [literal_eval] of the
      development: [None] stands for a raised exception.
    - A raised exception that reaches the caller is [Raised].
    - The two venue names passed to the perp-perp computer come from
      [itertools.combinations] over the keys of a dict, hence differ
      ([combinations2_distinct]); statements that need it assume
      [exchange_1 <> exchange_2]. *)

From Stdlib Require Import List String Ascii ZArith QArith Qabs Qround Qminmax.
From Stdlib Require Import Bool Lia Lqa Permutation Sorted.
Import ListNotations.

Local Open Scope string_scope.
Local Open Scope Q_scope.

Set Implicit Arguments.

(** ** Numbers *)

(** [a < b] on numbers, as a boolean. *)
Definition Qlt_bool (a b : Q) : bool := negb (Qle_bool b a).

(** [a < b] on possibly missing numbers: false as soon as one is NaN. *)
Definition nan_lt (a b : option Q) : bool :=
  match a, b with
  | Some x, Some y => Qlt_bool x y
  | _, _ => false
  end.

(** [a > b] on possibly missing day counts. *)
Definition nan_gtZ (a b : option Z) : bool :=
  match a, b with
  | Some x, Some y => (y <? x)%Z
  | _, _ => false
  end.

(** [a - b] on possibly missing numbers: NaN propagates. *)
Definition nan_sub (a b : option Q) : option Q :=
  match a, b with
  | Some x, Some y => Some (x - y)
  | _, _ => None
  end.

(** [df[[a, b]].max(axis=1)]: the row maximum, skipping missing values. *)
Definition nan_max (a b : option Q) : option Q :=
  match a, b with
  | Some x, Some y => Some (Qmax x y)
  | Some x, None => Some x
  | None, Some y => Some y
  | None, None => None
  end.

(** Python's [sum]: starts from [0] and adds from the left. *)
Definition py_sum (l : list Q) : Q := fold_left Qplus l 0.

(** Round to the nearest integer, ties to the even one (numpy's [rint]). *)
Definition rint (q : Q) : Z :=
  let f := Qfloor q in
  match Qcompare (q - inject_Z f) (1 # 2) with
  | Lt => f
  | Gt => (f + 1)%Z
  | Eq => if Z.even f then f else (f + 1)%Z
  end.

(** [Series.round(decimals=2)]. *)
Definition round2 (q : Q) : Q := inject_Z (rint (q * 100)) / 100.

(** [series / d] for an integer [d]: division by zero yields no finite
    number (pandas gives [inf] or NaN, never an exception). *)
Definition series_div (a : Q) (d : Z) : option Q :=
  if (d =? 0)%Z then None else Some (a / inject_Z d).

(** [values[-hours:]]: Python's slice from a possibly negative start. *)
Definition slice_from_neg (values : list Q) (hours : Z) : list Q :=
  let n := Z.of_nat (List.length values) in
  let start := (- hours)%Z in
  let first := if (start <? 0)%Z then Z.max 0 (n + start) else Z.min start n in
  skipn (Z.to_nat first) values.

(** ** Python objects and errors *)

Inductive pyobj : Type :=
| PyList (l : list Q)      (* a list of numbers *)
| PyNaN                    (* a missing value: NaN or None *)
| PyStr (s : string)       (* a text *)
| PyTuple (l : list Q)     (* a tuple of numbers: iterable, not a list *)
| PyOther.                 (* a non-iterable object: a bare number, a bool *)

(** The outcome of a computation that may raise. *)
Inductive result (A : Type) : Type :=
| Ok (a : A)
| Raised.
Arguments Raised {A}.

Definition bind {A B : Type} (m : result A) (k : A -> result B) : result B :=
  match m with
  | Ok a => k a
  | Raised => Raised
  end.

Notation "x <- m ;; k" := (bind m (fun x => k))
  (at level 61, m at next level, right associativity).

(** [series.apply(f)] for an [f] that may raise: the first exception
    aborts the whole column operation. *)
Fixpoint apply_series {A B : Type} (f : A -> result B) (l : list A)
  : result (list B) :=
  match l with
  | [] => Ok []
  | a :: l' =>
      b <- f a ;;
      bs <- apply_series f l' ;;
      Ok (b :: bs)
  end.

(** ** Pair normaliser *)

(** The greedy [0+] tail of the pattern: drops every leading ['0']. *)
Fixpoint strip_zeros (s : string) : string :=
  match s with
  | String "0" s' => strip_zeros s'
  | _ => s
  end.

(** [re.sub(r'^(10+)', '', trading_pair)]. *)
Definition remove_leading_numbers (trading_pair : string) : string :=
  match trading_pair with
  | String "1" (String "0" rest) => strip_zeros rest
  | _ => trading_pair
  end.

(** Does the pattern [^(10+)] match at the start of [s]? *)
Definition has_multiplier (s : string) : bool :=
  match s with
  | String "1" (String "0" _) => true
  | _ => false
  end.

(** A run of [n] zeros. *)
Fixpoint zeros (n : nat) : string :=
  match n with
  | O => ""
  | S n' => String "0" (zeros n')
  end.

(** Does [s] start with the character ['0']? *)
Definition starts_with_zero (s : string) : bool :=
  match s with
  | String "0" _ => true
  | _ => false
  end.

(** ** Data model *)

(** One row of a per-exchange funding file ([funding_rates_<exchange>]).
    The fields are the columns the engine reads. *)
Record funding_row : Type := {
  pair : string;
  rate : option Q;
  historical_rates : pyobj;
  historical_rates_7d : pyobj;
  historical_rates_3d : pyobj;
  mean_daily_amplitude : option Q;
  max_daily_amplitude : option Q;
  amplitude_days : option Z
}.

(** A per-exchange frame.  The columns [rate], [historical_rates_7d] and
    [historical_rates_3d] are optional: the flags say whether the frame has
    them (the corresponding row fields are not read when it has not). *)
Record perp_table : Type := {
  has_rate : bool;
  has_7d : bool;
  has_3d : bool;
  rows : list funding_row
}.

(** One row of the aggregated spot table: columns [pair], [spot_exchange]. *)
Record spot_row : Type := {
  spot_pair : string;
  spot_exchange : string
}.

(** The options of [CONFIG] the engine reads. *)
Record config : Type := {
  funding_historical_days : Z;
  funding_rate_threshold : Q
}.

(** The columns [cumulative_rate_diff_<n>d] of a row, keyed by [n]: the
    name of the main-window column is built from the configuration
    ([f'cumulative_rate_diff_{main_days}d']), so a column is found by its
    number of days.  Assigning to an existing name overwrites it. *)
Definition diff_columns : Type := Z -> option Q.

Definition no_columns : diff_columns := fun _ => None.

Definition col_set (n : Z) (v : Q) (c : diff_columns) : diff_columns :=
  fun k => if (k =? n)%Z then Some v else c k.

Definition col_get (c : diff_columns) (n : Z) : Q :=
  match c n with
  | Some v => v
  | None => 0
  end.

(** The record returned per joined pair by the perp-perp computer: the 22
    columns selected by its [return df[[...]]]. *)
Module PerpPerpOpportunity.
Record t : Type := {
  pair : string;
  APY_historical_average : option Q;
  short_exchange : string;
  long_exchange : string;
  mean_daily_amplitude : option Q;
  max_daily_amplitude : option Q;
  amplitude_days : option Z;
  short_cumulative_rate : Q;
  long_cumulative_rate : Q;
  short_cumulative_rate_7d : Q;
  long_cumulative_rate_7d : Q;
  short_cumulative_rate_3d : Q;
  long_cumulative_rate_3d : Q;
  short_historical_rates : list Q;
  long_historical_rates : list Q;
  short_historical_rates_7d : list Q;
  long_historical_rates_7d : list Q;
  short_historical_rates_3d : list Q;
  long_historical_rates_3d : list Q;
  cumulative_rate_diff_main : Q;    (* column [main_diff_col] *)
  cumulative_rate_diff_7d : Q;
  cumulative_rate_diff_3d : Q
}.
End PerpPerpOpportunity.

(** The record returned per joined row by the spot-perp computer. *)
Module SpotPerpOpportunity.
Record t : Type := {
  pair : string;
  rate : option Q;
  APY_historical_average : option Q;
  perp_exchange : string;
  spot_exchange : string;
  mean_daily_amplitude : option Q;
  max_daily_amplitude : option Q;
  amplitude_days : option Z;
  historical_rates : pyobj;
  cum_sum_main : Q                  (* column [cum_sum_<main_days>d] *)
}.
End SpotPerpOpportunity.

(** [pd.merge(df_1, df_2, on='pair', how='inner')]: every pair of rows
    with the same key, in the order of the left frame. *)
Definition merge_on_pair (df_1 df_2 : list funding_row)
  : list (funding_row * funding_row) :=
  flat_map
    (fun x => map (fun y => (x, y))
                  (filter (fun y => (pair x =? pair y)%string) df_2))
    df_1.

(** [itertools.combinations(keys, 2)]. *)
Fixpoint combinations2 {A : Type} (l : list A) : list (A * A) :=
  match l with
  | [] => []
  | a :: l' => map (fun b => (a, b)) l' ++ combinations2 l'
  end.

(** ** Perp-perp opportunity computer *)

Module PerpPerp.
Section Computer.

Variable CONFIG : config.
Variable literal_eval : string -> option pyobj.

(** The helper of the same name: a list is kept, a text is parsed and
    kept when it is a list, everything else becomes the empty list. *)
Definition coerce_to_list (value : pyobj) : list Q :=
  match value with
  | PyList l => l
  | PyNaN => []
  | PyStr s =>
      match literal_eval s with
      | Some (PyList l) => l
      | Some _ => []
      | None => []
      end
  | _ => []
  end.

Variables exchange_1 exchange_2 : string.
Variables df_1 df_2 : perp_table.

(** A column present in both frames is suffixed [_x]/[_y] by the merge;
    a column present in one frame only keeps its name. *)
Definition has_current : bool := has_rate df_1 && has_rate df_2.
Definition has_7d_xy : bool := has_7d df_1 && has_7d df_2.
Definition has_3d_xy : bool := has_3d df_1 && has_3d df_2.

Section Row.
(** The columns of one joined row: [x] from [df_1], [y] from [df_2]. *)
Variables x y : funding_row.

Definition rate_x : option Q := rate x.
Definition rate_y : option Q := rate y.
Definition mean_daily_amplitude_x := mean_daily_amplitude x.
Definition mean_daily_amplitude_y := mean_daily_amplitude y.
Definition max_daily_amplitude_x := max_daily_amplitude x.
Definition max_daily_amplitude_y := max_daily_amplitude y.
Definition amplitude_days_x := amplitude_days x.
Definition amplitude_days_y := amplitude_days y.

Definition historical_rates_x := coerce_to_list (historical_rates x).
Definition historical_rates_y := coerce_to_list (historical_rates y).
Definition historical_rates_7d_x :=
  coerce_to_list (if has_7d_xy then historical_rates_7d x else PyList []).
Definition historical_rates_7d_y :=
  coerce_to_list (if has_7d_xy then historical_rates_7d y else PyList []).
Definition historical_rates_3d_x :=
  coerce_to_list (if has_3d_xy then historical_rates_3d x else PyList []).
Definition historical_rates_3d_y :=
  coerce_to_list (if has_3d_xy then historical_rates_3d y else PyList []).

Definition sum_x : Q := py_sum historical_rates_x.
Definition sum_y : Q := py_sum historical_rates_y.
Definition cumulative_rate_diff : Q := sum_x - sum_y.
Definition APY_historical_average : option Q :=
  option_map round2
    (series_div (365 * cumulative_rate_diff)
                (funding_historical_days CONFIG)).

Definition short_exchange : string :=
  if has_current
  then (if nan_lt rate_x rate_y then exchange_2 else exchange_1)
  else (if Qlt_bool 0 cumulative_rate_diff then exchange_1 else exchange_2).
Definition long_exchange : string :=
  if has_current
  then (if nan_lt rate_x rate_y then exchange_1 else exchange_2)
  else (if Qlt_bool 0 cumulative_rate_diff then exchange_2 else exchange_1).

(** Columns of the current-rate mode only. *)
Definition short_rate : option Q :=
  if (short_exchange =? exchange_1)%string then rate_x else rate_y.
Definition long_rate : option Q :=
  if (long_exchange =? exchange_1)%string then rate_x else rate_y.
Definition rate_diff : option Q := nan_sub short_rate long_rate.

Definition short_historical_rates :=
  if (short_exchange =? exchange_1)%string
  then historical_rates_x else historical_rates_y.
Definition long_historical_rates :=
  if (long_exchange =? exchange_1)%string
  then historical_rates_x else historical_rates_y.
Definition short_historical_rates_7d :=
  if (short_exchange =? exchange_1)%string
  then historical_rates_7d_x else historical_rates_7d_y.
Definition long_historical_rates_7d :=
  if (long_exchange =? exchange_1)%string
  then historical_rates_7d_x else historical_rates_7d_y.
Definition short_historical_rates_3d :=
  if (short_exchange =? exchange_1)%string
  then historical_rates_3d_x else historical_rates_3d_y.
Definition long_historical_rates_3d :=
  if (long_exchange =? exchange_1)%string
  then historical_rates_3d_x else historical_rates_3d_y.

Definition short_cumulative_rate := py_sum short_historical_rates.
Definition long_cumulative_rate := py_sum long_historical_rates.
Definition short_cumulative_rate_7d := py_sum short_historical_rates_7d.
Definition long_cumulative_rate_7d := py_sum long_historical_rates_7d.
Definition short_cumulative_rate_3d := py_sum short_historical_rates_3d.
Definition long_cumulative_rate_3d := py_sum long_historical_rates_3d.

Definition main_days : Z := funding_historical_days CONFIG.
Definition short_cum_main := short_cumulative_rate.
Definition long_cum_main := long_cumulative_rate.

(** The three assignments to [cumulative_rate_diff_<n>d], in the order
    of the source: main window, then 7 days, then 3 days. *)
Definition cumulative_rate_diff_columns : diff_columns :=
  col_set 3 (short_cumulative_rate_3d - long_cumulative_rate_3d)
    (col_set 7 (short_cumulative_rate_7d - long_cumulative_rate_7d)
       (col_set main_days (short_cum_main - long_cum_main) no_columns)).

(** Amplitude: the row maximum first, then the two overrides. *)
Definition condition_1 : bool := nan_gtZ amplitude_days_x amplitude_days_y.
Definition condition_2 : bool := nan_gtZ amplitude_days_y amplitude_days_x.

Definition mean_daily_amplitude : option Q :=
  let initial := nan_max mean_daily_amplitude_x mean_daily_amplitude_y in
  let after_1 := if condition_1 then mean_daily_amplitude_x else initial in
  if condition_2 then mean_daily_amplitude_y else after_1.
Definition max_daily_amplitude : option Q :=
  let initial := nan_max max_daily_amplitude_x max_daily_amplitude_y in
  let after_1 := if condition_1 then max_daily_amplitude_x else initial in
  if condition_2 then max_daily_amplitude_y else after_1.
Definition amplitude_days : option Z :=
  let initial := amplitude_days_x in
  let after_1 := if condition_1 then amplitude_days_x else initial in
  if condition_2 then amplitude_days_y else after_1.

(** The selection of columns that is returned. *)
Definition opportunity : PerpPerpOpportunity.t :=
  {| PerpPerpOpportunity.pair := pair x;
     PerpPerpOpportunity.APY_historical_average := APY_historical_average;
     PerpPerpOpportunity.short_exchange := short_exchange;
     PerpPerpOpportunity.long_exchange := long_exchange;
     PerpPerpOpportunity.mean_daily_amplitude := mean_daily_amplitude;
     PerpPerpOpportunity.max_daily_amplitude := max_daily_amplitude;
     PerpPerpOpportunity.amplitude_days := amplitude_days;
     PerpPerpOpportunity.short_cumulative_rate := short_cumulative_rate;
     PerpPerpOpportunity.long_cumulative_rate := long_cumulative_rate;
     PerpPerpOpportunity.short_cumulative_rate_7d :=
       short_cumulative_rate_7d;
     PerpPerpOpportunity.long_cumulative_rate_7d :=
       long_cumulative_rate_7d;
     PerpPerpOpportunity.short_cumulative_rate_3d :=
       short_cumulative_rate_3d;
     PerpPerpOpportunity.long_cumulative_rate_3d :=
       long_cumulative_rate_3d;
     PerpPerpOpportunity.short_historical_rates := short_historical_rates;
     PerpPerpOpportunity.long_historical_rates := long_historical_rates;
     PerpPerpOpportunity.short_historical_rates_7d :=
       short_historical_rates_7d;
     PerpPerpOpportunity.long_historical_rates_7d :=
       long_historical_rates_7d;
     PerpPerpOpportunity.short_historical_rates_3d :=
       short_historical_rates_3d;
     PerpPerpOpportunity.long_historical_rates_3d :=
       long_historical_rates_3d;
     PerpPerpOpportunity.cumulative_rate_diff_main :=
       col_get cumulative_rate_diff_columns main_days;
     PerpPerpOpportunity.cumulative_rate_diff_7d :=
       col_get cumulative_rate_diff_columns 7;
     PerpPerpOpportunity.cumulative_rate_diff_3d :=
       col_get cumulative_rate_diff_columns 3 |}.
End Row.

(** The joined frame and the function itself: one record per joined
    row.  (What the row-wise [df.apply] of the source returns on a frame
    without rows depends on the pandas version; an empty join is taken to
    give an empty result.) *)
Definition joined : list (funding_row * funding_row) :=
  merge_on_pair (rows df_1) (rows df_2).

Definition create_perp_perp_opportunities_df : list PerpPerpOpportunity.t :=
  map (fun j => opportunity (fst j) (snd j)) joined.

End Computer.
End PerpPerp.

(** ** Spot-perp opportunity computer *)

Module SpotPerp.
Section Computer.

Variable CONFIG : config.
Variable literal_eval : string -> option pyobj.

(** [pair.str.split(':').str.get(0)]: the text before the first colon. *)
Fixpoint before_colon (s : string) : string :=
  match s with
  | "" => ""
  | String c s' => if (c =? ":")%char then "" else String c (before_colon s')
  end.

(** [fillna('[]')]: a missing value becomes the text of the empty list. *)
Definition fillna_empty_list (v : pyobj) : pyobj :=
  match v with
  | PyNaN => PyStr "[]"
  | _ => v
  end.

(** [ast.literal_eval] applied to a cell: it parses a text and raises
    on every object that is not a text. *)
Definition literal_eval_obj (v : pyobj) : result pyobj :=
  match v with
  | PyStr s =>
      match literal_eval s with
      | Some o => Ok o
      | None => Raised
      end
  | _ => Raised
  end.

(** [lst[-1] if isinstance(lst, list) and len(lst) > 0 else 0]. *)
Definition last_or_zero (lst : pyobj) : Q :=
  match lst with
  | PyList l => last l 0
  | _ => 0
  end.

(** [sum] applied to a cell: it adds up a list or a tuple, returns [0]
    on the empty text and raises on what cannot be iterated or added. *)
Definition sum_obj (v : pyobj) : result Q :=
  match v with
  | PyList l => Ok (py_sum l)
  | PyTuple l => Ok (py_sum l)
  | PyStr "" => Ok 0
  | _ => Raised
  end.

(** The local helper of the same name: any failure gives [0]. *)
Definition sum_last_n_days (values : pyobj) (days : Z) : Q :=
  let hours := (days * 24)%Z in
  match values with
  | PyList l => py_sum (slice_from_neg l hours)
  | PyTuple l => py_sum (slice_from_neg l hours)
  | _ => 0
  end.

Definition with_historical_rates (r : funding_row) (h : pyobj) (q : option Q)
  : funding_row :=
  {| pair := pair r;
     rate := q;
     historical_rates := h;
     historical_rates_7d := historical_rates_7d r;
     historical_rates_3d := historical_rates_3d r;
     mean_daily_amplitude := mean_daily_amplitude r;
     max_daily_amplitude := max_daily_amplitude r;
     amplitude_days := amplitude_days r |}.

(** The branch taken when the frame has no [rate] column: parse the
    historical series and take its last point as the rate. *)
Definition approximate_rate (r : funding_row) : result funding_row :=
  lst <- literal_eval_obj (fillna_empty_list (historical_rates r)) ;;
  Ok (with_historical_rates r lst (Some (last_or_zero lst))).

Definition with_rate_column (perpetual_rates_df : perp_table)
  : result (list funding_row) :=
  if has_rate perpetual_rates_df
  then Ok (rows perpetual_rates_df)
  else apply_series approximate_rate (rows perpetual_rates_df).

(** [rate.abs() > CONFIG['funding_rate_threshold']]. *)
Definition above_threshold (r : funding_row) : bool :=
  match rate r with
  | Some q => Qlt_bool (funding_rate_threshold CONFIG) (Qabs q)
  | None => false
  end.

(** [pd.merge(perpetual_rates_df, spot_pairs_df, on='spot_pair',
    how='inner')]. *)
Definition merge_on_spot_pair (perp : list funding_row) (spot : list spot_row)
  : list (funding_row * spot_row) :=
  flat_map
    (fun r => map (fun s => (r, s))
                  (filter (fun s => (before_colon (pair r) =? spot_pair s)%string)
                          spot))
    perp.

Variable perpetual_exchange : string.

(** The columns computed on one merged row. *)
Definition opportunity (j : funding_row * spot_row)
  : result SpotPerpOpportunity.t :=
  let r := fst j in
  let main_days := funding_historical_days CONFIG in
  lst <- literal_eval_obj (fillna_empty_list (historical_rates r)) ;;
  total <- sum_obj lst ;;
  Ok {| SpotPerpOpportunity.pair := pair r;
        SpotPerpOpportunity.rate := rate r;
        SpotPerpOpportunity.APY_historical_average :=
          option_map round2 (series_div (365 * total) main_days);
        SpotPerpOpportunity.perp_exchange := perpetual_exchange;
        SpotPerpOpportunity.spot_exchange := spot_exchange (snd j);
        SpotPerpOpportunity.mean_daily_amplitude := mean_daily_amplitude r;
        SpotPerpOpportunity.max_daily_amplitude := max_daily_amplitude r;
        SpotPerpOpportunity.amplitude_days := amplitude_days r;
        SpotPerpOpportunity.historical_rates := lst;
        SpotPerpOpportunity.cum_sum_main := sum_last_n_days lst main_days |}.

Definition create_spot_perp_opportunites_df
  (perpetual_rates_df : perp_table) (spot_pairs_df : list spot_row)
  : result (list SpotPerpOpportunity.t) :=
  with_rate <- with_rate_column perpetual_rates_df ;;
  let kept := filter above_threshold with_rate in
  let spot_perp_df := merge_on_spot_pair kept spot_pairs_df in
  apply_series opportunity spot_perp_df.

End Computer.
End SpotPerp.

(** ** Ranking and filtering *)

Module Ranking.

Import SpotPerpOpportunity.

(** [sort_values(by=..., ignore_index=True)], as an insertion sort driven
    by a boolean order.  pandas does not fix the order among equal keys;
    only the order of the keys and the set of rows are reasoned about. *)
Section Sort.
Variable A : Type.
Variable leb : A -> A -> bool.

Fixpoint insert_sorted (a : A) (l : list A) : list A :=
  match l with
  | [] => [a]
  | b :: l' => if leb a b then a :: l else b :: insert_sorted a l'
  end.

Fixpoint sort_values (l : list A) : list A :=
  match l with
  | [] => []
  | a :: l' => insert_sorted a (sort_values l')
  end.
End Sort.

(** Key orders on [rate]; a missing rate sorts last in both. *)
Definition rate_ascending (r s : t) : bool :=
  match rate r, rate s with
  | Some a, Some b => Qle_bool a b
  | _, None => true
  | None, Some _ => false
  end.

Definition rate_descending (r s : t) : bool :=
  match rate r, rate s with
  | Some a, Some b => Qle_bool b a
  | _, None => true
  | None, Some _ => false
  end.

Definition rate_positive (r : t) : bool := nan_lt (Some 0) (rate r).
Definition rate_negative (r : t) : bool := nan_lt (rate r) (Some 0).

(** [df['APY_historical_average'] *= -1] on one row. *)
Definition negate_apy (r : t) : t :=
  {| pair := pair r;
     rate := rate r;
     APY_historical_average := option_map Qopp (APY_historical_average r);
     perp_exchange := perp_exchange r;
     spot_exchange := spot_exchange r;
     mean_daily_amplitude := mean_daily_amplitude r;
     max_daily_amplitude := max_daily_amplitude r;
     amplitude_days := amplitude_days r;
     historical_rates := historical_rates r;
     cum_sum_main := cum_sum_main r |}.

(** [filter_and_sort_rates(df, negative)].  The negative branch updates
    the frame it is given in place, so the function returns the frame as
    the caller sees it afterwards together with the sorted result. *)
Definition filter_and_sort_rates (df : list t) (negative : bool)
  : list t * list t :=
  if negative
  then
    let df' := map negate_apy df in
    let filtered_df := filter rate_negative df' in
    (df', sort_values rate_ascending filtered_df)
  else
    let filtered_df := filter rate_positive df in
    (df, sort_values rate_descending filtered_df).

(** The two calls made by [analyze_data] on the same frame: the positive
    set first, then the negative one. *)
Definition positive_and_negative (final_df : list t) : list t * list t :=
  let (df_after, positive_rates_df) := filter_and_sort_rates final_df false in
  let (_, negative_rates_df) := filter_and_sort_rates df_after true in
  (positive_rates_df, negative_rates_df).

End Ranking.

(** An order-preserving selection: [l] is obtained from [l'] by dropping
    elements. *)
Inductive subsequence {A : Type} : list A -> list A -> Prop :=
| subsequence_nil : subsequence [] []
| subsequence_skip (a : A) (l l' : list A) :
    subsequence l l' -> subsequence l (a :: l')
| subsequence_keep (a : A) (l l' : list A) :
    subsequence l l' -> subsequence (a :: l) (a :: l').

(** ** Loading the saved files and running the two analyses *)

Module Loading.
Section Files.

(** [file_to_df(directory_data, f"funding_rates_{exchange}")] and the
    [pair] column of [file_to_df(directory_data, f"spot_pairs_{exchange}")],
    as functions of the exchange id: a missing or empty file gives a frame
    without rows. *)
Variable perpetual_files : string -> perp_table.
Variable spot_files : string -> list string.

Definition with_pair (r : funding_row) (p : string) : funding_row :=
  {| pair := p;
     rate := rate r;
     historical_rates := historical_rates r;
     historical_rates_7d := historical_rates_7d r;
     historical_rates_3d := historical_rates_3d r;
     mean_daily_amplitude := mean_daily_amplitude r;
     max_daily_amplitude := max_daily_amplitude r;
     amplitude_days := amplitude_days r |}.

(** [df['pair'] = df['pair'].apply(remove_leading_numbers)]. *)
Definition normalize_pairs (df : perp_table) : perp_table :=
  {| has_rate := has_rate df;
     has_7d := has_7d df;
     has_3d := has_3d df;
     rows := map (fun r => with_pair r (remove_leading_numbers (pair r)))
                 (rows df) |}.

(** A Python dict in insertion order: assigning to a key that is present
    replaces its value where it stands, a new key goes to the end. *)
Fixpoint dict_set {V : Type} (k : string) (v : V) (d : list (string * V))
  : list (string * V) :=
  match d with
  | [] => [(k, v)]
  | (k', v') :: d' =>
      if (k' =? k)%string then (k, v) :: d' else (k', v') :: dict_set k v d'
  end.

Fixpoint dict_get {V : Type} (k : string) (d : list (string * V)) : option V :=
  match d with
  | [] => None
  | (k', v') :: d' => if (k' =? k)%string then Some v' else dict_get k d'
  end.

(** [create_perpetual_data_df_from_files]: the dict of the non-empty
    frames, pairs normalised.  (The source returns [False] for an empty
    dict; the caller tests the result for emptiness either way.) *)
Definition create_perpetual_data_df_from_files (perpetual_exchanges : list string)
  : list (string * perp_table) :=
  fold_left
    (fun perpetual_data exchange =>
       let df := perpetual_files exchange in
       match rows df with
       | [] => perpetual_data
       | _ :: _ => dict_set exchange (normalize_pairs df) perpetual_data
       end)
    perpetual_exchanges [].

(** [groupby('pair')]: the distinct keys, sorted. *)
Definition group_keys (keys : list string) : list string :=
  Ranking.sort_values String.leb (nodup string_dec keys).

(** [create_spot_data_df_from_files]: every spot file tagged with its
    exchange, concatenated, then one row per pair with the exchanges
    joined by ['/']. *)
Definition create_spot_data_df_from_files (spot_exchanges : list string)
  : list spot_row :=
  let spot_data :=
    flat_map (fun exchange => map (fun p => (p, exchange)) (spot_files exchange))
             spot_exchanges in
  map (fun k =>
         {| spot_pair := k;
            spot_exchange :=
              String.concat "/"
                (map snd (filter (fun r => (fst r =? k)%string) spot_data)) |})
      (group_keys (map fst spot_data)).

Variable CONFIG : config.
Variable literal_eval : string -> option pyobj.

(** The perp-perp branch of [analyze_data] up to the concatenated frame
    [final_df], before it is ranked and written: nothing is computed with
    fewer than two loaded exchanges. *)
Definition perp_perp_final_df (perpetual_data_df : list (string * perp_table))
  : list PerpPerpOpportunity.t :=
  if (List.length perpetual_data_df <? 2)%nat then []
  else
    flat_map
      (fun combination =>
         let exchange_1 := fst combination in
         let exchange_2 := snd combination in
         match dict_get exchange_1 perpetual_data_df,
               dict_get exchange_2 perpetual_data_df with
         | Some df_1, Some df_2 =>
             PerpPerp.create_perp_perp_opportunities_df CONFIG literal_eval
               exchange_1 exchange_2 df_1 df_2
         | _, _ => []
         end)
      (combinations2 (map fst perpetual_data_df)).

(** The spot-perp branch of [analyze_data], from the saved files to the
    two ranked frames that are written, as it runs once the branch is
    entered.  [Ok None] is a return before anything is computed or
    written: no perpetual data (the [return] that follows the loading) or
    an empty spot table.  Otherwise the first exception of a per-exchange
    computation aborts the run. *)
Definition spot_perp_results (perpetual_exchanges spot_exchanges : list string)
  : result (option (list SpotPerpOpportunity.t * list SpotPerpOpportunity.t)) :=
  let perpetual_data_df :=
    create_perpetual_data_df_from_files perpetual_exchanges in
  match perpetual_data_df with
  | [] => Ok None
  | _ :: _ =>
      let spot_pairs_df := create_spot_data_df_from_files spot_exchanges in
      match spot_pairs_df with
      | [] => Ok None
      | _ :: _ =>
          frames <- apply_series
                      (fun item =>
                         SpotPerp.create_spot_perp_opportunites_df CONFIG
                           literal_eval (fst item) (snd item) spot_pairs_df)
                      perpetual_data_df ;;
          Ok (Some (Ranking.positive_and_negative (List.concat frames)))
      end
  end.

End Files.
End Loading.

(** ** Fetching (fetch_data.py) *)

Module Fetch.

(** One funding event returned by the exchange: a dict whose keys [rate]
    and [timestamp] may be absent. *)
Record funding_event : Type := {
  ev_rate : option Q;
  ev_timestamp : option Z
}.

(** One row appended by [get_historical_funding_rates_for_pairs]. *)
Record historical_row : Type := {
  pair : string;
  historical_rates : list Q;
  historical_rates_7d : list Q;
  historical_rates_3d : list Q
}.

(** One daily candle: the columns [open], [high], [low] that are read. *)
Record candle : Type := {
  open : Q;
  high : Q;
  low : Q
}.

(** One row appended by [get_daily_amplitude]. *)
Record amplitude_row : Type := {
  a_pair : string;
  mean_daily_amplitude : option Q;
  max_daily_amplitude : option Q;
  amplitude_days : Z
}.

Section Fetching.

Variable now_ms : Z.
(** [get_historical_funding_rates(exchange, pair, hours)] and
    [get_ohlc(exchange, pair, ...)] of the exchange layer. *)
Variable get_historical_funding_rates : string -> Z -> result (list funding_event).
Variable get_ohlc : string -> result (list candle).

(** [[e['rate'] for e in events if 'rate' in e]]. *)
Definition full_rates (events : list funding_event) : list Q :=
  flat_map (fun e => match ev_rate e with
                     | Some r => [r]
                     | None => []
                     end)
           events.

(** [e.get('timestamp') and e['timestamp'] >= cutoff]: a missing or zero
    timestamp is falsy. *)
Definition in_window (cutoff : Z) (e : funding_event) : bool :=
  match ev_timestamp e with
  | Some t => negb (t =? 0)%Z && (cutoff <=? t)%Z
  | None => false
  end.

(** [rates_last_hours(window_hours)]: [e['rate']] raises [KeyError] on an
    event of the window that has no rate. *)
Fixpoint rates_since (cutoff : Z) (events : list funding_event)
  : result (list Q) :=
  match events with
  | [] => Ok []
  | e :: events' =>
      if in_window cutoff e
      then match ev_rate e with
           | Some r => rest <- rates_since cutoff events' ;; Ok (r :: rest)
           | None => Raised
           end
      else rates_since cutoff events'
  end.

Definition rates_last_hours (events : list funding_event) (window_hours : Z)
  : result (list Q) :=
  rates_since (now_ms - window_hours * 60 * 60 * 1000)%Z events.

(** The body of the loop for one pair: [Raised] is an exception, which the
    loop reports and skips; [Ok None] is a pair without events. *)
Definition historical_row_of (pair : string) (hours : Z)
  : result (option historical_row) :=
  events <- get_historical_funding_rates pair hours ;;
  match events with
  | [] => Ok None
  | _ :: _ =>
      rates_7d <- rates_last_hours events (7 * 24) ;;
      rates_3d <- rates_last_hours events (3 * 24) ;;
      Ok (Some {| pair := pair;
                  historical_rates := full_rates events;
                  historical_rates_7d := rates_7d;
                  historical_rates_3d := rates_3d |})
  end.

Definition get_historical_funding_rates_for_pairs
           (trading_pairs : list string) (hours : Z) : list historical_row :=
  flat_map (fun pair => match historical_row_of pair hours with
                        | Ok (Some row) => [row]
                        | _ => []
                        end)
           trading_pairs.

(** [100 * (high - low) / open].  A zero open (infinite or NaN in pandas)
    is outside the model. *)
Definition amplitude (c : candle) : Q := 100 * (high c - low c) / open c.

(** [Series.mean()] and [Series.max()]: NaN on an empty column. *)
Definition series_mean (l : list Q) : option Q :=
  match l with
  | [] => None
  | _ :: _ => Some (py_sum l / inject_Z (Z.of_nat (List.length l)))
  end.

Definition series_max (l : list Q) : option Q :=
  match l with
  | [] => None
  | a :: l' => Some (fold_left Qmax l' a)
  end.

Definition get_daily_amplitude (trading_pairs : list string)
  : list amplitude_row :=
  flat_map
    (fun pair =>
       match get_ohlc pair with
       | Raised => []
       | Ok ohlc_data =>
           let amplitudes := map amplitude ohlc_data in
           [{| a_pair := pair;
               mean_daily_amplitude := option_map round2 (series_mean amplitudes);
               max_daily_amplitude := option_map round2 (series_max amplitudes);
               amplitude_days := Z.of_nat (List.length ohlc_data) |}]
       end)
    trading_pairs.

End Fetching.
End Fetch.

(** ** Current rates (fetch_data.py, fetch_current_rates.py) *)

Module CurrentRates.
Section Fetching.

(** [get_funding_rate(exchange, pair)]: a rate, [None], or an exception;
    and the perpetual pairs discovered by [get_all_trading_pairs]. *)
Variable get_funding_rate : string -> result (option Q).
Variable get_all_trading_pairs : list string.

(** The loop of [get_funding_rates_for_pairs], which is also the inner
    loop of [fetch_current_rates]: the rows [{'pair', 'rate'}]. *)
Definition get_funding_rates_for_pairs (trading_pairs : list string)
  : list (string * Q) :=
  flat_map (fun pair => match get_funding_rate pair with
                        | Ok (Some current_rate) => [(pair, current_rate)]
                        | _ => []
                        end)
           trading_pairs.

(** The body of [fetch_current_rates] for one exchange: the frame that is
    written, or [None] when there is no pair to ask for and the exchange
    is skipped. *)
Definition fetch_current_rates_for_exchange (pairs_filter : list string)
  : option (list (string * Q)) :=
  let perp_pairs :=
    match pairs_filter with
    | [] => get_all_trading_pairs
    | _ :: _ => pairs_filter
    end in
  match perp_pairs with
  | [] => None
  | _ :: _ => Some (get_funding_rates_for_pairs perp_pairs)
  end.

End Fetching.
End CurrentRates.

(** ** Run directory and files (utils.py) *)

Module Utils.

(** The options of [CONFIG] read by [utils.py]; [None] is an absent key. *)
Record run_config : Type := {
  use_date_subfolder : option bool;
  date_subfolder : option string;
  date_subfolder_format : option string;
  file_format : string
}.

Section Files.

Variable RUN : run_config.
(** [datetime.datetime.now().strftime(format)]. *)
Variable now_strftime : string -> string.

Definition build_run_directory (base_directory : string) : string :=
  match use_date_subfolder RUN with
  | Some false => base_directory
  | _ =>
      let date_str :=
        match date_subfolder RUN with
        | Some (String c s) => String c s
        | _ =>
            now_strftime
              (match date_subfolder_format RUN with
               | Some f => f
               | None => "%Y%m%d"
               end)
        end in
      base_directory ++ "/" ++ date_str
  end.

Definition build_base_run_directory (base_directory subdirectory : string)
  : string :=
  let base := build_run_directory base_directory in
  match subdirectory with
  | "" => base
  | _ => base ++ "/" ++ subdirectory
  end.

(** The files on disk, by path; a frame written is kept as it was given.
    [read_back] is what the pandas reader makes of the file of a written
    frame: a frame, or an exception other than [FileNotFoundError] (which
    is the only one [file_to_df] catches).  [disk_accepts] tells whether
    [os.makedirs] and the pandas writer succeed for a path. *)
Variable frame_t : Type.
Variable empty_frame : frame_t.
Variable read_back : frame_t -> result frame_t.
Variable disk_accepts : string -> bool.

Definition filesystem : Type := string -> option frame_t.

Definition write_file (fs : filesystem) (path : string) (df : frame_t)
  : filesystem :=
  fun p => if (p =? path)%string then Some df else fs p.

(** [df.to_excel] / [df.to_csv] after [os.makedirs]; [None] when either
    fails (the exception is raised by [os.makedirs], printed and dropped
    for the writer): what is on disk then is not modelled. *)
Definition to_file (fs : filesystem) (path : string) (df : frame_t)
  : option filesystem :=
  if disk_accepts path then Some (write_file fs path df) else None.

Definition df_to_file (fs : filesystem) (df : frame_t)
           (directory filename : string) : option filesystem :=
  if (file_format RUN =? "xlsx")%string
  then to_file fs (directory ++ "/" ++ filename ++ ".xlsx") df
  else if (file_format RUN =? "csv")%string
       then to_file fs (directory ++ "/" ++ filename ++ ".csv") df
       else to_file fs (directory ++ "/" ++ filename ++ ".csv") df.

(** [pd.read_excel] / [pd.read_csv] under [except FileNotFoundError]. *)
Definition read_file (fs : filesystem) (path : string) : result frame_t :=
  match fs path with
  | Some df => read_back df
  | None => Ok empty_frame
  end.

Definition file_to_df (fs : filesystem) (directory filename : string)
  : result frame_t :=
  if (file_format RUN =? "xlsx")%string
  then read_file fs (directory ++ "/" ++ filename ++ ".xlsx")
  else if (file_format RUN =? "csv")%string
       then read_file fs (directory ++ "/" ++ filename ++ ".csv")
       else Ok empty_frame.

End Files.
End Utils.

(** ** Concrete frames

    Small frames on which the engine is run below. *)

(** An excerpt of [ast.literal_eval]: the listed texts evaluate to the
    listed lists; every other text used below is not a Python literal and
    raises. *)
Definition literal_eval_excerpt (s : string) : option pyobj :=
  if (s =? "[]")%string then Some (PyList [])
  else if (s =? "[0.05]")%string then Some (PyList [5 # 100])
  else if (s =? "[0.03]")%string then Some (PyList [3 # 100])
  else if (s =? "[0.5]")%string then Some (PyList [1 # 2])
  else if (s =? "[-0.02, -0.5]")%string then Some (PyList [-(2 # 100); -(1 # 2)])
  else None.

Definition snapshot (p : string) (r : option Q) (h h7 h3 : pyobj)
  : funding_row :=
  {| pair := p;
     rate := r;
     historical_rates := h;
     historical_rates_7d := h7;
     historical_rates_3d := h3;
     mean_daily_amplitude := Some (25 # 10);
     max_daily_amplitude := Some 7;
     amplitude_days := Some 30%Z |}.

Definition frame (with_rate with_windows : bool) (l : list funding_row)
  : perp_table :=
  {| has_rate := with_rate;
     has_7d := with_windows;
     has_3d := with_windows;
     rows := l |}.

Definition config_days (d : Z) : config :=
  {| funding_historical_days := d; funding_rate_threshold := 1 # 100 |}.

(** Venue A and venue B of the worked example: [BTCUSDT], live rates
    [0.0002] and [0.0005], historical sums [0.05] and [0.03]. *)
Definition btc_a : funding_row :=
  snapshot "BTCUSDT" (Some (2 # 10000)) (PyStr "[0.05]") (PyStr "[]") (PyStr "[]").
Definition btc_b : funding_row :=
  snapshot "BTCUSDT" (Some (5 # 10000)) (PyStr "[0.03]") (PyStr "[]") (PyStr "[]").

(** Two venues with no history at all for the pair. *)
Definition eth_a : funding_row := snapshot "ETHUSDT" None PyNaN PyNaN PyNaN.
Definition eth_b : funding_row := snapshot "ETHUSDT" None PyNaN PyNaN PyNaN.

(** The same pair on two venues whose files carry no [rate] column. *)
Definition sol_a : funding_row :=
  snapshot "SOLUSDT" None (PyStr "[0.05]") PyNaN PyNaN.
Definition sol_b : funding_row :=
  snapshot "SOLUSDT" None (PyStr "[0.03]") PyNaN PyNaN.

(** A pair with a long amplitude history on venue A (30 candles, small
    amplitudes) and a short one on venue B (12 candles, larger ones). *)
Definition quiet_a : funding_row :=
  {| pair := "XRPUSDT";
     rate := Some (1 # 1000);
     historical_rates := PyStr "[0.05]";
     historical_rates_7d := PyNaN;
     historical_rates_3d := PyNaN;
     mean_daily_amplitude := Some (15 # 10);
     max_daily_amplitude := Some 4;
     amplitude_days := Some 30%Z |}.
Definition quiet_b : funding_row :=
  {| pair := "XRPUSDT";
     rate := Some (3 # 1000);
     historical_rates := PyStr "[0.03]";
     historical_rates_7d := PyNaN;
     historical_rates_3d := PyNaN;
     mean_daily_amplitude := Some (35 # 10);
     max_daily_amplitude := Some 9;
     amplitude_days := Some 12%Z |}.

(** A perpetual frame with live rates and the aggregated spot table. *)
Definition perp_with_rates : perp_table :=
  frame true true
    [ snapshot "BTC/USDT:USDT" (Some (2 # 100)) (PyStr "[0.05]") PyNaN PyNaN;
      snapshot "ETH/USDT:USDT" (Some (- (5 # 10))) (PyStr "[-0.02, -0.5]")
               PyNaN PyNaN;
      snapshot "DOGE/USDT:USDT" (Some (1 # 1000)) (PyStr "[0.03]") PyNaN PyNaN ].

Definition spot_pairs : list spot_row :=
  [ {| spot_pair := "BTC/USDT"; spot_exchange := "binance/gate" |};
    {| spot_pair := "ETH/USDT"; spot_exchange := "okx" |};
    {| spot_pair := "DOGE/USDT"; spot_exchange := "binance" |} ].

(** One row with a live rate above the threshold whose historical cell is
    malformed: a text cut short, and a bare number instead of a list. *)
Definition perp_truncated_text : perp_table :=
  frame true true
    [ snapshot "BTC/USDT:USDT" (Some (2 # 100)) (PyStr "[0.05") PyNaN PyNaN ].
Definition perp_wrong_type : perp_table :=
  frame true true
    [ snapshot "BTC/USDT:USDT" (Some (2 # 100)) PyOther PyNaN PyNaN ].

(** A frame fetched without live rates: no [rate] column, a well-formed
    historical series whose last point is [0.5]. *)
Definition perp_without_rates : perp_table :=
  frame false true
    [ snapshot "BTC/USDT:USDT" None (PyStr "[0.5]") PyNaN PyNaN ].

(** A frame that has the [rate] column in which the live rate of the row
    is missing, and the same row with a live rate. *)
Definition perp_missing_rate : perp_table :=
  frame true true
    [ snapshot "BTC/USDT:USDT" None (PyStr "[0.5]") PyNaN PyNaN ].
Definition perp_live_rate : perp_table :=
  frame true true
    [ snapshot "BTC/USDT:USDT" (Some (1 # 2)) (PyStr "[0.5]") PyNaN PyNaN ].

(** A pair whose candles could not be fetched on venue A (no amplitude
    statistics) and could on venue B. *)
Definition ada_a : funding_row :=
  {| pair := "ADAUSDT";
     rate := Some (1 # 1000);
     historical_rates := PyStr "[0.05]";
     historical_rates_7d := PyStr "[0.05]";
     historical_rates_3d := PyStr "[0.03]";
     mean_daily_amplitude := None;
     max_daily_amplitude := None;
     amplitude_days := None |}.
Definition ada_b : funding_row :=
  {| pair := "ADAUSDT";
     rate := Some (3 # 1000);
     historical_rates := PyStr "[0.03]";
     historical_rates_7d := PyStr "[0.03]";
     historical_rates_3d := PyStr "[0.03]";
     mean_daily_amplitude := Some (35 # 10);
     max_daily_amplitude := Some 9;
     amplitude_days := Some 30%Z |}.

(** Three spot files, by exchange id, and three perpetual files of which
    one is empty. *)
Definition spot_listing (exchange : string) : list string :=
  if (exchange =? "binance")%string then ["DOGE/USDT"; "BTC/USDT"]
  else if (exchange =? "gate")%string then ["BTC/USDT"]
  else if (exchange =? "okx")%string then ["ETH/USDT"]
  else [].

Definition perpetual_listing (exchange : string) : perp_table :=
  if (exchange =? "binance")%string then frame true false [btc_a; quiet_a]
  else if (exchange =? "gate")%string then frame true false [btc_b; quiet_b]
  else frame true false [].

(** Perpetual files in the symbols of the exchange: one with live rates,
    one fetched without them, none for the other exchanges. *)
Definition perpetual_files_excerpt (exchange : string) : perp_table :=
  if (exchange =? "binance")%string then perp_with_rates
  else if (exchange =? "gate")%string then perp_without_rates
  else frame true false [].

(** What the exchange layer returns for three pairs: events for the
    first (one without a timestamp, one a week and more old, one recent),
    an exception for the second, no event for the third; times are in
    milliseconds and the fetch runs at [1000000000]. *)
Definition fetch_time : Z := 1000000000.

Definition funding_events_of (pair : string) (hours : Z)
  : result (list Fetch.funding_event) :=
  if (pair =? "BTC/USDT:USDT")%string
  then Ok [ {| Fetch.ev_rate := Some (1 # 1000); Fetch.ev_timestamp := None |};
            {| Fetch.ev_rate := Some (2 # 1000);
               Fetch.ev_timestamp := Some 300000000%Z |};
            {| Fetch.ev_rate := Some (3 # 1000);
               Fetch.ev_timestamp := Some 500000000%Z |};
            {| Fetch.ev_rate := Some (4 # 1000);
               Fetch.ev_timestamp := Some 900000000%Z |} ]
  else if (pair =? "ETH/USDT:USDT")%string then Raised
  else Ok [].

(** Daily candles for one pair, none for another, an exception for the
    rest. *)
Definition candles_of (pair : string) : result (list Fetch.candle) :=
  if (pair =? "BTC/USDT:USDT")%string
  then Ok [ {| Fetch.open := 100; Fetch.high := 104; Fetch.low := 99 |};
            {| Fetch.open := 102; Fetch.high := 103; Fetch.low := 101 |};
            {| Fetch.open := 101; Fetch.high := 110; Fetch.low := 100 |} ]
  else if (pair =? "NEW/USDT:USDT")%string then Ok []
  else Raised.

(** * Properties *)

(** ** Pair normaliser *)

Lemma strip_zeros_length (s : string) :
  (String.length (strip_zeros s) <= String.length s)%nat.
Proof.
  induction s as [|c s IH]; simpl; [lia|].
  destruct (Ascii.eqb_spec c "0") as [->|Hc].
  - simpl. lia.
  - destruct c as [[] [] [] [] [] [] [] []]; simpl; try lia; congruence.
Qed.

Lemma strip_zeros_run (n : nat) (rest : string) :
  starts_with_zero rest = false ->
  strip_zeros (zeros n ++ rest) = rest.
Proof.
  intros Hrest. induction n as [|n IH]; simpl; [|exact IH].
  destruct rest as [|c rest]; [reflexivity|].
  destruct c as [[] [] [] [] [] [] [] []]; simpl in *; congruence.
Qed.

Lemma remove_leading_numbers_no_match (s : string) :
  has_multiplier s = false -> remove_leading_numbers s = s.
Proof.
  destruct s as [|c [|d s]]; try reflexivity.
  - destruct c as [[] [] [] [] [] [] [] []]; reflexivity.
  - destruct c as [[] [] [] [] [] [] [] []]; try reflexivity;
      destruct d as [[] [] [] [] [] [] [] []]; simpl; congruence.
Qed.

Lemma remove_leading_numbers_match (s : string) :
  has_multiplier s = true ->
  (String.length (remove_leading_numbers s) < String.length s)%nat.
Proof.
  destruct s as [|c [|d s]]; simpl; try discriminate.
  - destruct c as [[] [] [] [] [] [] [] []]; discriminate.
  - destruct c as [[] [] [] [] [] [] [] []]; try discriminate;
      destruct d as [[] [] [] [] [] [] [] []]; try discriminate.
    intros _. pose proof (strip_zeros_length s). simpl. lia.
Qed.

(** C9 as stated fails: normalising ["1010USDT"] once leaves ["10USDT"],
    which still carries a multiplier, so a second pass changes it again. *)
Lemma C9_idempotence_refuted :
  remove_leading_numbers (remove_leading_numbers "1010USDT")
  <> remove_leading_numbers "1010USDT".
Proof. vm_compute. discriminate. Qed.

(** C9 (amended): [remove_leading_numbers] strips one leading ['1']
    together with the whole run of one or more ['0'] that follows it and
    leaves every other symbol unchanged; a second pass returns the same
    symbol exactly when the first result does not itself start with ['1']
    followed by ['0']. *)
Theorem C9_normalize_once_and_idempotence_condition :
  (forall (n : nat) (rest : string),
      starts_with_zero rest = false ->
      remove_leading_numbers (String "1" (String "0" (zeros n ++ rest))) = rest)
  /\ (forall s : string,
         has_multiplier s = false -> remove_leading_numbers s = s)
  /\ (forall s : string,
         remove_leading_numbers (remove_leading_numbers s)
         = remove_leading_numbers s
         <-> has_multiplier (remove_leading_numbers s) = false).
Proof.
  split; [|split].
  - intros n rest Hrest. simpl. now apply strip_zeros_run.
  - exact remove_leading_numbers_no_match.
  - intros s. split.
    + intros Hfix.
      destruct (has_multiplier (remove_leading_numbers s)) eqn:Hm; [|reflexivity].
      apply remove_leading_numbers_match in Hm. rewrite Hfix in Hm. lia.
    + apply remove_leading_numbers_no_match.
Qed.

Lemma C9_witness :
  remove_leading_numbers "1000PEPEUSDT" = "PEPEUSDT"
  /\ remove_leading_numbers "BTCUSDT" = "BTCUSDT"
  /\ remove_leading_numbers (remove_leading_numbers "10000SATSUSDT")
     = remove_leading_numbers "10000SATSUSDT".
Proof.
  destruct C9_normalize_once_and_idempotence_condition as [Hstrip [Hkeep Hidem]].
  split; [|split].
  - exact (Hstrip 2%nat "PEPEUSDT" eq_refl).
  - exact (Hkeep "BTCUSDT" eq_refl).
  - apply (proj2 (Hidem "10000SATSUSDT")). reflexivity.
Defined.

(** ** Numbers and lists *)

Lemma Qlt_bool_iff (a b : Q) : Qlt_bool a b = true <-> a < b.
Proof.
  unfold Qlt_bool. rewrite negb_true_iff. split.
  - intros H. apply Qnot_le_lt. intros Hle.
    apply Qle_bool_iff in Hle. congruence.
  - intros H. destruct (Qle_bool b a) eqn:E; [|reflexivity].
    apply Qle_bool_iff in E. exfalso. exact (Qlt_not_le _ _ H E).
Qed.

Lemma Qlt_bool_false_iff (a b : Q) : Qlt_bool a b = false <-> b <= a.
Proof.
  unfold Qlt_bool. rewrite negb_false_iff. apply Qle_bool_iff.
Qed.

Lemma Forall2_map_right (A B : Type) (P : A -> B -> Prop) (f : A -> B)
      (l : list A) :
  (forall a, In a l -> P a (f a)) -> Forall2 P l (map f l).
Proof.
  induction l as [|a l IH]; intros H; simpl; constructor.
  - apply H. now left.
  - apply IH. intros b Hb. apply H. now right.
Qed.

(** The floor is the only integer within one unit below a number. *)
Lemma Qfloor_unique (x : Q) (z : Z) :
  inject_Z z <= x -> x < inject_Z (z + 1) -> Qfloor x = z.
Proof.
  intros Hlo Hhi.
  pose proof (Qfloor_le x) as H1. pose proof (Qlt_floor x) as H2.
  assert (Ha : inject_Z z < inject_Z (Qfloor x + 1)) by lra.
  assert (Hb : inject_Z (Qfloor x) < inject_Z (z + 1)) by lra.
  rewrite <- Zlt_Qlt in Ha, Hb. lia.
Qed.

Lemma rint_comp (q q' : Q) : q == q' -> rint q = rint q'.
Proof.
  intros E. unfold rint. rewrite (Qfloor_comp _ _ E). now rewrite E.
Qed.

(** Rounding half to even is symmetric about zero. *)
Lemma rint_opp (q : Q) : rint (- q) = (- rint q)%Z.
Proof.
  unfold rint. set (f := Qfloor q).
  pose proof (Qfloor_le q) as Hlo. pose proof (Qlt_floor q) as Hhi.
  fold f in Hlo, Hhi. rewrite inject_Z_plus in Hhi.
  change (inject_Z 1) with 1 in Hhi.
  destruct (Qeq_dec q (inject_Z f)) as [Hint|Hfrac].
  - assert (Hf : Qfloor (- q) = (- f)%Z).
    { apply Qfloor_unique; rewrite ?inject_Z_plus, ?inject_Z_opp;
        change (inject_Z 1) with 1; lra. }
    rewrite Hf.
    destruct (Qcompare_spec (q - inject_Z f) (1 # 2)) as [H|H|H];
      destruct (Qcompare_spec (- q - inject_Z (- f)) (1 # 2)) as [H'|H'|H'];
      rewrite ?inject_Z_opp in H'; try lra. reflexivity.
  - assert (Hf : Qfloor (- q) = (- f - 1)%Z).
    { apply Qfloor_unique; unfold Z.sub;
        rewrite ?inject_Z_plus, ?inject_Z_opp;
        change (inject_Z 1) with 1; lra. }
    rewrite Hf.
    assert (Hpar : Z.even (- f - 1) = negb (Z.even f)).
    { rewrite Z.even_sub, Z.even_opp. simpl. now destruct (Z.even f). }
    destruct (Qcompare_spec (q - inject_Z f) (1 # 2)) as [H|H|H];
      destruct (Qcompare_spec (- q - inject_Z (- f - 1)) (1 # 2)) as [H'|H'|H'];
      unfold Z.sub in H'; rewrite ?inject_Z_plus, ?inject_Z_opp in H';
      change (inject_Z 1) with 1 in H'; try lra; try lia.
    rewrite Hpar. destruct (Z.even f); simpl; lia.
Qed.

Lemma round2_comp (q q' : Q) : q == q' -> round2 q = round2 q'.
Proof.
  intros E. unfold round2. rewrite (@rint_comp (q * 100) (q' * 100)).
  - reflexivity.
  - now rewrite E.
Qed.

Lemma round2_opp (q : Q) : round2 (- q) == - round2 q.
Proof.
  unfold round2.
  rewrite (@rint_comp (- q * 100) (- (q * 100))) by ring.
  rewrite rint_opp, inject_Z_opp. field.
Qed.

(** Every joined row pairs a row of each frame on the same key. *)
Lemma merge_on_pair_spec (df_1 df_2 : list funding_row) (x y : funding_row) :
  In (x, y) (merge_on_pair df_1 df_2)
  <-> In x df_1 /\ In y df_2 /\ pair x = pair y.
Proof.
  unfold merge_on_pair. rewrite in_flat_map. split.
  - intros [x' [Hx Hin]]. apply in_map_iff in Hin.
    destruct Hin as [y' [Heq Hy]]. inversion Heq; subst.
    apply filter_In in Hy. destruct Hy as [Hy Hk].
    apply String.eqb_eq in Hk. auto.
  - intros [Hx [Hy Hk]]. exists x. split; [exact Hx|].
    apply in_map_iff. exists y. split; [reflexivity|].
    apply filter_In. split; [exact Hy|]. now apply String.eqb_eq.
Qed.

(** Names drawn by [combinations] from distinct keys are distinct. *)
Lemma combinations2_distinct (A : Type) (l : list A) (a b : A) :
  NoDup l -> In (a, b) (combinations2 l) -> a <> b.
Proof.
  induction l as [|c l IH]; simpl; intros Hnd Hin; [contradiction|].
  inversion Hnd as [|? ? Hc Hl]; subst.
  apply in_app_or in Hin. destruct Hin as [Hin|Hin].
  - apply in_map_iff in Hin. destruct Hin as [b' [Heq Hb]].
    inversion Heq; subst. intros ->. contradiction.
  - now apply IH.
Qed.

(** ** Perp-perp: short/long assignment *)

Section ShortLong.

Variable CONFIG : config.
Variable literal_eval : string -> option pyobj.
Variables exchange_1 exchange_2 : string.
Variables df_1 df_2 : perp_table.

Let short_exchange := PerpPerp.short_exchange literal_eval exchange_1 exchange_2 df_1 df_2.
Let long_exchange := PerpPerp.long_exchange literal_eval exchange_1 exchange_2 df_1 df_2.
Let short_rate := PerpPerp.short_rate literal_eval exchange_1 exchange_2 df_1 df_2.
Let long_rate := PerpPerp.long_rate literal_eval exchange_1 exchange_2 df_1 df_2.

(** The live-rate branch on one row: the flip happens exactly when the
    first venue's rate is strictly below the second's. *)
Lemma current_mode_labels (x y : funding_row) (a b : Q) :
  PerpPerp.has_current df_1 df_2 = true ->
  rate x = Some a -> rate y = Some b ->
  (a < b -> short_exchange x y = exchange_2 /\ long_exchange x y = exchange_1)
  /\ (b <= a -> short_exchange x y = exchange_1 /\ long_exchange x y = exchange_2).
Proof.
  intros Hc Hx Hy.
  unfold short_exchange, long_exchange, PerpPerp.short_exchange,
    PerpPerp.long_exchange, PerpPerp.rate_x, PerpPerp.rate_y.
  rewrite Hc, Hx, Hy. simpl. split; intros H.
  - apply Qlt_bool_iff in H. rewrite H. auto.
  - apply Qlt_bool_false_iff in H. rewrite H. auto.
Qed.

(** The fallback branch on one row. *)
Lemma fallback_mode_labels (x y : funding_row) :
  PerpPerp.has_current df_1 df_2 = false ->
  (0 < PerpPerp.cumulative_rate_diff literal_eval x y ->
   short_exchange x y = exchange_1 /\ long_exchange x y = exchange_2)
  /\ (PerpPerp.cumulative_rate_diff literal_eval x y <= 0 ->
      short_exchange x y = exchange_2 /\ long_exchange x y = exchange_1).
Proof.
  intros Hc.
  unfold short_exchange, long_exchange, PerpPerp.short_exchange,
    PerpPerp.long_exchange.
  rewrite Hc. split; intros H.
  - apply Qlt_bool_iff in H. rewrite H. auto.
  - apply Qlt_bool_false_iff in H. rewrite H. auto.
Qed.

(** With two different venue names, the two labels are always the two
    venues, one each. *)
Lemma labels_are_the_two_venues (x y : funding_row) :
  (short_exchange x y = exchange_1 /\ long_exchange x y = exchange_2)
  \/ (short_exchange x y = exchange_2 /\ long_exchange x y = exchange_1).
Proof.
  unfold short_exchange, long_exchange, PerpPerp.short_exchange,
    PerpPerp.long_exchange.
  destruct (PerpPerp.has_current df_1 df_2).
  - destruct (nan_lt _ _); auto.
  - destruct (Qlt_bool _ _); auto.
Qed.

End ShortLong.

(** C1 as stated fails on the worked example: venue A has the strictly
    lower live rate ([0.0002 < 0.0005]), yet the code labels venue B
    short and venue A long, and the short rate exceeds the long rate. *)
Lemma C1_lower_rate_short_refuted :
  let out := PerpPerp.create_perp_perp_opportunities_df (config_days 30)
               literal_eval_excerpt "A" "B"
               (frame true false [btc_a]) (frame true false [btc_b]) in
  (2 # 10000) < (5 # 10000)
  /\ map PerpPerpOpportunity.short_exchange out = ["B"]
  /\ map PerpPerpOpportunity.long_exchange out = ["A"]
  /\ PerpPerp.short_rate literal_eval_excerpt "A" "B"
       (frame true false [btc_a]) (frame true false [btc_b]) btc_a btc_b
     = Some (5 # 10000)
  /\ PerpPerp.long_rate literal_eval_excerpt "A" "B"
       (frame true false [btc_a]) (frame true false [btc_b]) btc_a btc_b
     = Some (2 # 10000)
  /\ ~ (5 # 10000) <= (2 # 10000).
Proof.
  repeat split; try reflexivity.
  intros H. unfold Qle in H. simpl in H. lia.
Qed.

(** C1 (amended): in live-rate mode, for every joined row whose two live
    rates are present, the venue with the strictly higher live rate is
    labelled short and the other long, venue A being short on a tie; the
    two labels are always the two different venues, and
    [short_rate >= long_rate]. *)
Theorem C1_higher_rate_is_short
        (CONFIG : config) (literal_eval : string -> option pyobj)
        (exchange_1 exchange_2 : string) (df_1 df_2 : perp_table) :
  exchange_1 <> exchange_2 ->
  has_rate df_1 = true -> has_rate df_2 = true ->
  Forall2
    (fun j o =>
       forall a b : Q,
         rate (fst j) = Some a -> rate (snd j) = Some b ->
         let short := PerpPerpOpportunity.short_exchange o in
         let long := PerpPerpOpportunity.long_exchange o in
         (a < b -> short = exchange_2 /\ long = exchange_1)
         /\ (b < a -> short = exchange_1 /\ long = exchange_2)
         /\ (a == b -> short = exchange_1 /\ long = exchange_2)
         /\ short <> long
         /\ ((short = exchange_1 /\ long = exchange_2)
             \/ (short = exchange_2 /\ long = exchange_1))
         /\ exists s l : Q,
             PerpPerp.short_rate literal_eval exchange_1 exchange_2
               df_1 df_2 (fst j) (snd j) = Some s
             /\ PerpPerp.long_rate literal_eval exchange_1 exchange_2
                  df_1 df_2 (fst j) (snd j) = Some l
             /\ l <= s)
    (PerpPerp.joined df_1 df_2)
    (PerpPerp.create_perp_perp_opportunities_df CONFIG literal_eval
       exchange_1 exchange_2 df_1 df_2).
Proof.
  intros Hne H1 H2. unfold PerpPerp.create_perp_perp_opportunities_df.
  apply Forall2_map_right. intros [x y] _ a b Hx Hy. simpl in *.
  assert (Hc : PerpPerp.has_current df_1 df_2 = true)
    by (unfold PerpPerp.has_current; now rewrite H1, H2).
  destruct (current_mode_labels literal_eval exchange_1 exchange_2
              df_1 df_2 x y Hc Hx Hy) as [Hlt Hge].
  assert (Hneb : (exchange_2 =? exchange_1)%string = false)
    by (apply String.eqb_neq; congruence).
  split; [exact Hlt|].
  split; [intros H; apply Hge; now apply Qlt_le_weak|].
  split; [intros H; apply Hge; rewrite H; apply Qle_refl|].
  destruct (Qlt_le_dec a b) as [Hab|Hba].
  - destruct (Hlt Hab) as [Hs Hl]. split; [congruence|]. split; [auto|].
    exists b, a. unfold PerpPerp.short_rate, PerpPerp.long_rate,
      PerpPerp.rate_x, PerpPerp.rate_y.
    rewrite Hs, Hl, Hneb, String.eqb_refl.
    repeat split; auto. now apply Qlt_le_weak.
  - destruct (Hge Hba) as [Hs Hl]. split; [congruence|]. split; [auto|].
    exists a, b. unfold PerpPerp.short_rate, PerpPerp.long_rate,
      PerpPerp.rate_x, PerpPerp.rate_y.
    rewrite Hs, Hl, Hneb, String.eqb_refl.
    repeat split; auto.
Qed.

Lemma C1_witness :
  "A" <> "B"
  /\ has_rate (frame true false [btc_a]) = true
  /\ has_rate (frame true false [btc_b]) = true
  /\ Forall2
       (fun j o =>
          forall a b : Q,
            rate (fst j) = Some a -> rate (snd j) = Some b ->
            let short := PerpPerpOpportunity.short_exchange o in
            let long := PerpPerpOpportunity.long_exchange o in
            (a < b -> short = "B" /\ long = "A")
            /\ (b < a -> short = "A" /\ long = "B")
            /\ (a == b -> short = "A" /\ long = "B")
            /\ short <> long
            /\ ((short = "A" /\ long = "B") \/ (short = "B" /\ long = "A"))
            /\ exists s l : Q,
                PerpPerp.short_rate literal_eval_excerpt "A" "B"
                  (frame true false [btc_a]) (frame true false [btc_b])
                  (fst j) (snd j) = Some s
                /\ PerpPerp.long_rate literal_eval_excerpt "A" "B"
                     (frame true false [btc_a]) (frame true false [btc_b])
                     (fst j) (snd j) = Some l
                /\ l <= s)
       (PerpPerp.joined (frame true false [btc_a]) (frame true false [btc_b]))
       (PerpPerp.create_perp_perp_opportunities_df (config_days 30)
          literal_eval_excerpt "A" "B"
          (frame true false [btc_a]) (frame true false [btc_b])).
Proof.
  split; [discriminate|]. split; [reflexivity|]. split; [reflexivity|].
  apply (C1_higher_rate_is_short (config_days 30) literal_eval_excerpt
           (exchange_1 := "A") (exchange_2 := "B")
           (frame true false [btc_a]) (frame true false [btc_b]));
    [discriminate|reflexivity|reflexivity].
Defined.

(** C4 as stated fails in fallback mode: with no [rate] column and a zero
    historical differential, [cumulative_rate_diff > 0] is false and the
    code labels venue B short and venue A long. *)
Lemma C4_fallback_tie_refuted :
  PerpPerp.has_current (frame false false [eth_a]) (frame false false [eth_b])
  = false
  /\ PerpPerp.cumulative_rate_diff literal_eval_excerpt eth_a eth_b == 0
  /\ map PerpPerpOpportunity.short_exchange
       (PerpPerp.create_perp_perp_opportunities_df (config_days 30)
          literal_eval_excerpt "A" "B"
          (frame false false [eth_a]) (frame false false [eth_b])) = ["B"]
  /\ map PerpPerpOpportunity.long_exchange
       (PerpPerp.create_perp_perp_opportunities_df (config_days 30)
          literal_eval_excerpt "A" "B"
          (frame false false [eth_a]) (frame false false [eth_b])) = ["A"]
  /\ "B" <> "A".
Proof.
  repeat split; try reflexivity. discriminate.
Qed.

(** C4 (amended): on an exact tie the two modes differ.  In live-rate mode
    equal live rates leave venue A (the first exchange argument) short and
    venue B long; in fallback mode a historical differential of exactly
    zero labels venue B short and venue A long. *)
Theorem C4_tie_assignment
        (CONFIG : config) (literal_eval : string -> option pyobj)
        (exchange_1 exchange_2 : string) (df_1 df_2 : perp_table) :
  Forall2
    (fun j o =>
       (PerpPerp.has_current df_1 df_2 = true ->
        forall a b : Q,
          rate (fst j) = Some a -> rate (snd j) = Some b -> a == b ->
          PerpPerpOpportunity.short_exchange o = exchange_1
          /\ PerpPerpOpportunity.long_exchange o = exchange_2)
       /\ (PerpPerp.has_current df_1 df_2 = false ->
           PerpPerp.cumulative_rate_diff literal_eval (fst j) (snd j) == 0 ->
           PerpPerpOpportunity.short_exchange o = exchange_2
           /\ PerpPerpOpportunity.long_exchange o = exchange_1))
    (PerpPerp.joined df_1 df_2)
    (PerpPerp.create_perp_perp_opportunities_df CONFIG literal_eval
       exchange_1 exchange_2 df_1 df_2).
Proof.
  unfold PerpPerp.create_perp_perp_opportunities_df.
  apply Forall2_map_right. intros [x y] _. simpl. split.
  - intros Hc a b Hx Hy Hab.
    apply (current_mode_labels literal_eval exchange_1 exchange_2
             df_1 df_2 x y Hc Hx Hy).
    rewrite Hab. apply Qle_refl.
  - intros Hc Hzero.
    apply (fallback_mode_labels literal_eval exchange_1 exchange_2
             df_1 df_2 x y Hc).
    rewrite Hzero. apply Qle_refl.
Qed.

Lemma C4_witness :
  Forall2
    (fun j o =>
       (PerpPerp.has_current (frame false false [eth_a])
          (frame false false [eth_b]) = true ->
        forall a b : Q,
          rate (fst j) = Some a -> rate (snd j) = Some b -> a == b ->
          PerpPerpOpportunity.short_exchange o = "A"
          /\ PerpPerpOpportunity.long_exchange o = "B")
       /\ (PerpPerp.has_current (frame false false [eth_a])
             (frame false false [eth_b]) = false ->
           PerpPerp.cumulative_rate_diff literal_eval_excerpt (fst j) (snd j)
           == 0 ->
           PerpPerpOpportunity.short_exchange o = "B"
           /\ PerpPerpOpportunity.long_exchange o = "A"))
    (PerpPerp.joined (frame false false [eth_a]) (frame false false [eth_b]))
    (PerpPerp.create_perp_perp_opportunities_df (config_days 30)
       literal_eval_excerpt "A" "B"
       (frame false false [eth_a]) (frame false false [eth_b]))
  /\ PerpPerp.has_current (frame false false [eth_a])
       (frame false false [eth_b]) = false
  /\ PerpPerp.cumulative_rate_diff literal_eval_excerpt eth_a eth_b == 0.
Proof.
  split; [|split; reflexivity].
  apply (C4_tie_assignment (config_days 30) literal_eval_excerpt "A" "B"
           (frame false false [eth_a]) (frame false false [eth_b])).
Defined.

(** ** Perp-perp: annualised yield *)

(** C2 as stated fails on the worked example: venue B is the assigned
    short side, the short-minus-long sum is [0.03 - 0.05] and the claimed
    yield is [round(365 * (-0.02) / 3, 2) = -2.43], but the code emits
    [2.43], computed from venue A minus venue B. *)
Lemma C2_short_minus_long_refuted :
  exists o : PerpPerpOpportunity.t,
    PerpPerp.create_perp_perp_opportunities_df (config_days 3)
      literal_eval_excerpt "A" "B"
      (frame true false [btc_a]) (frame true false [btc_b]) = [o]
    /\ PerpPerpOpportunity.short_exchange o = "B"
    /\ PerpPerpOpportunity.APY_historical_average o
       <> option_map round2
            (series_div
               (365 * (py_sum (PerpPerpOpportunity.short_historical_rates o)
                       - py_sum (PerpPerpOpportunity.long_historical_rates o)))
               3)
    /\ (exists apy : Q,
           PerpPerpOpportunity.APY_historical_average o = Some apy
           /\ apy == 243 # 100)
    /\ round2 (365 * (py_sum (PerpPerpOpportunity.short_historical_rates o)
                      - py_sum (PerpPerpOpportunity.long_historical_rates o))
               / 3) == - (243 # 100).
Proof.
  eexists. split; [reflexivity|]. split; [reflexivity|].
  split; [vm_compute; discriminate|].
  split; [eexists; split; reflexivity|reflexivity].
Qed.

(** C2 (amended): for every joined row, [APY_historical_average] is
    [365 * (sum of venue A's main-window rates - sum of venue B's) /
    funding_historical_days], rounded to 2 decimals, whichever venue is
    assigned short; between two different venues it is the
    short-minus-long value of the claim on the rows where venue A is the
    assigned short side, and the opposite of that value on the rows where
    venue B is. *)
Theorem C2_apy_from_venue_a_minus_venue_b
        (CONFIG : config) (literal_eval : string -> option pyobj)
        (exchange_1 exchange_2 : string) (df_1 df_2 : perp_table) :
  Forall2
    (fun j o =>
       let short_minus_long :=
         option_map round2
           (series_div
              (365 * (py_sum (PerpPerpOpportunity.short_historical_rates o)
                      - py_sum (PerpPerpOpportunity.long_historical_rates o)))
              (funding_historical_days CONFIG)) in
       PerpPerpOpportunity.APY_historical_average o
       = option_map round2
           (series_div
              (365 * (py_sum (PerpPerp.coerce_to_list literal_eval
                                (historical_rates (fst j)))
                      - py_sum (PerpPerp.coerce_to_list literal_eval
                                  (historical_rates (snd j)))))
              (funding_historical_days CONFIG))
       /\ (exchange_1 <> exchange_2 ->
           PerpPerpOpportunity.short_exchange o = exchange_1 ->
           PerpPerpOpportunity.APY_historical_average o = short_minus_long)
       /\ (exchange_1 <> exchange_2 ->
           PerpPerpOpportunity.short_exchange o = exchange_2 ->
           forall claimed : Q,
             short_minus_long = Some claimed ->
             exists apy : Q,
               PerpPerpOpportunity.APY_historical_average o = Some apy
               /\ apy == - claimed))
    (PerpPerp.joined df_1 df_2)
    (PerpPerp.create_perp_perp_opportunities_df CONFIG literal_eval
       exchange_1 exchange_2 df_1 df_2).
Proof.
  unfold PerpPerp.create_perp_perp_opportunities_df.
  apply Forall2_map_right. intros [x y] _.
  cbn [fst snd PerpPerp.opportunity
         PerpPerpOpportunity.APY_historical_average
         PerpPerpOpportunity.short_exchange
         PerpPerpOpportunity.short_historical_rates
         PerpPerpOpportunity.long_historical_rates].
  cbv zeta.
  split; [reflexivity|].
  pose proof (labels_are_the_two_venues literal_eval exchange_1 exchange_2
                df_1 df_2 x y) as Hlabels.
  unfold PerpPerp.short_historical_rates, PerpPerp.long_historical_rates.
  split; intros Hne Hshort;
    assert (Hneb : (exchange_2 =? exchange_1)%string = false)
      by (apply String.eqb_neq; congruence).
  - destruct Hlabels as [[Hs Hl]|[Hs Hl]]; [|congruence].
    rewrite Hs, Hl, Hneb, String.eqb_refl. reflexivity.
  - destruct Hlabels as [[Hs Hl]|[Hs Hl]]; [congruence|].
    rewrite Hs, Hl, Hneb, String.eqb_refl.
    unfold PerpPerp.APY_historical_average, PerpPerp.cumulative_rate_diff,
      PerpPerp.sum_x, PerpPerp.sum_y, series_div.
    set (sum_a := py_sum (PerpPerp.historical_rates_x literal_eval x)).
    set (sum_b := py_sum (PerpPerp.historical_rates_y literal_eval y)).
    destruct (funding_historical_days CONFIG =? 0)%Z eqn:Ed;
      simpl; intros claimed Hc; [discriminate|].
    inversion Hc; subst claimed. eexists. split; [reflexivity|].
    apply Z.eqb_neq in Ed.
    assert (Hd : ~ inject_Z (funding_historical_days CONFIG) == 0).
    { intros H. apply Ed. now apply (inject_Z_injective _ 0%Z). }
    rewrite <- round2_opp.
    match goal with
    | |- ?a == ?b => assert (E : a = b)
    end.
    { apply round2_comp. field. exact Hd. }
    rewrite E. reflexivity.
Qed.

Lemma C2_witness :
  Forall2
    (fun j o =>
       let short_minus_long :=
         option_map round2
           (series_div
              (365 * (py_sum (PerpPerpOpportunity.short_historical_rates o)
                      - py_sum (PerpPerpOpportunity.long_historical_rates o)))
              (funding_historical_days (config_days 3))) in
       PerpPerpOpportunity.APY_historical_average o
       = option_map round2
           (series_div
              (365 * (py_sum (PerpPerp.coerce_to_list literal_eval_excerpt
                                (historical_rates (fst j)))
                      - py_sum (PerpPerp.coerce_to_list literal_eval_excerpt
                                  (historical_rates (snd j)))))
              (funding_historical_days (config_days 3)))
       /\ ("A" <> "B" ->
           PerpPerpOpportunity.short_exchange o = "A" ->
           PerpPerpOpportunity.APY_historical_average o = short_minus_long)
       /\ ("A" <> "B" ->
           PerpPerpOpportunity.short_exchange o = "B" ->
           forall claimed : Q,
             short_minus_long = Some claimed ->
             exists apy : Q,
               PerpPerpOpportunity.APY_historical_average o = Some apy
               /\ apy == - claimed))
    (PerpPerp.joined (frame true false [btc_a]) (frame true false [btc_b]))
    (PerpPerp.create_perp_perp_opportunities_df (config_days 3)
       literal_eval_excerpt "A" "B"
       (frame true false [btc_a]) (frame true false [btc_b]))
  /\ "A" <> "B"
  /\ map PerpPerpOpportunity.short_exchange
       (PerpPerp.create_perp_perp_opportunities_df (config_days 3)
          literal_eval_excerpt "A" "B"
          (frame true false [btc_a]) (frame true false [btc_b])) = ["B"].
Proof.
  split; [|split; [discriminate|reflexivity]].
  apply (C2_apy_from_venue_a_minus_venue_b (config_days 3)
           literal_eval_excerpt "A" "B"
           (frame true false [btc_a]) (frame true false [btc_b])).
Defined.

(** ** Perp-perp: window differentials *)

Lemma col_get_set_same (n : Z) (v : Q) (c : diff_columns) :
  col_get (col_set n v c) n = v.
Proof. unfold col_get, col_set. now rewrite Z.eqb_refl. Qed.

Lemma col_get_set_other (n k : Z) (v : Q) (c : diff_columns) :
  k <> n -> col_get (col_set n v c) k = col_get c k.
Proof.
  intros H. unfold col_get, col_set.
  apply Z.eqb_neq in H. now rewrite H.
Qed.

(** The per-side series follow the assigned labels, and the 7-day and
    3-day differentials are always the short sum minus the long sum of
    their window; so is the main-window one unless the configured number
    of days is 7 or 3, in which case its column is the 7-day or 3-day
    column of the same name and holds that window's differential. *)
Lemma window_differentials
      (CONFIG : config) (literal_eval : string -> option pyobj)
      (exchange_1 exchange_2 : string) (df_1 df_2 : perp_table)
      (x y : funding_row) :
  let o := PerpPerp.opportunity CONFIG literal_eval exchange_1 exchange_2
             df_1 df_2 x y in
  PerpPerpOpportunity.cumulative_rate_diff_7d o
  = py_sum (PerpPerpOpportunity.short_historical_rates_7d o)
    - py_sum (PerpPerpOpportunity.long_historical_rates_7d o)
  /\ PerpPerpOpportunity.cumulative_rate_diff_3d o
     = py_sum (PerpPerpOpportunity.short_historical_rates_3d o)
       - py_sum (PerpPerpOpportunity.long_historical_rates_3d o)
  /\ (funding_historical_days CONFIG <> 7%Z ->
      funding_historical_days CONFIG <> 3%Z ->
      PerpPerpOpportunity.cumulative_rate_diff_main o
      = py_sum (PerpPerpOpportunity.short_historical_rates o)
        - py_sum (PerpPerpOpportunity.long_historical_rates o))
  /\ (funding_historical_days CONFIG = 7%Z ->
      PerpPerpOpportunity.cumulative_rate_diff_main o
      = PerpPerpOpportunity.cumulative_rate_diff_7d o)
  /\ (funding_historical_days CONFIG = 3%Z ->
      PerpPerpOpportunity.cumulative_rate_diff_main o
      = PerpPerpOpportunity.cumulative_rate_diff_3d o).
Proof.
  simpl. unfold PerpPerp.cumulative_rate_diff_columns, PerpPerp.main_days.
  split; [|split; [|split; [|split]]].
  - rewrite col_get_set_other by discriminate.
    now rewrite col_get_set_same.
  - now rewrite col_get_set_same.
  - intros H7 H3.
    rewrite !col_get_set_other by assumption.
    now rewrite col_get_set_same.
  - intros ->. reflexivity.
  - intros ->. reflexivity.
Qed.

(** C3, the configuration of the worked example
    ([funding_historical_days = 3], frames without the 7-day and 3-day
    columns): the main-window column is [cumulative_rate_diff_3d], which
    the later 3-day assignment overwrites.  The emitted main-window
    differential is [0], while the short series sums to [0.03] and the
    long one to [0.05]. *)
Theorem C3_main_window_column_overwritten :
  exists o : PerpPerpOpportunity.t,
    PerpPerp.create_perp_perp_opportunities_df (config_days 3)
      literal_eval_excerpt "A" "B"
      (frame true false [btc_a]) (frame true false [btc_b]) = [o]
    /\ PerpPerpOpportunity.short_historical_rates o = [3 # 100]
    /\ PerpPerpOpportunity.long_historical_rates o = [5 # 100]
    /\ PerpPerpOpportunity.cumulative_rate_diff_main o == 0
    /\ py_sum (PerpPerpOpportunity.short_historical_rates o)
       - py_sum (PerpPerpOpportunity.long_historical_rates o) == - (2 # 100)
    /\ ~ PerpPerpOpportunity.cumulative_rate_diff_main o
         == py_sum (PerpPerpOpportunity.short_historical_rates o)
            - py_sum (PerpPerpOpportunity.long_historical_rates o).
Proof.
  eexists. split; [reflexivity|].
  repeat split; try reflexivity.
  intros H. vm_compute in H. discriminate H.
Qed.

(** In fallback mode, between two different venues and with a main window
    that is neither 7 nor 3 days, the main-window differential is the
    absolute value of venue A's sum minus venue B's. *)
Lemma fallback_main_differential
      (CONFIG : config) (literal_eval : string -> option pyobj)
      (exchange_1 exchange_2 : string) (df_1 df_2 : perp_table)
      (x y : funding_row) :
  exchange_1 <> exchange_2 ->
  PerpPerp.has_current df_1 df_2 = false ->
  funding_historical_days CONFIG <> 7%Z ->
  funding_historical_days CONFIG <> 3%Z ->
  let o := PerpPerp.opportunity CONFIG literal_eval exchange_1 exchange_2
             df_1 df_2 x y in
  let sum_a := py_sum (PerpPerp.coerce_to_list literal_eval (historical_rates x)) in
  let sum_b := py_sum (PerpPerp.coerce_to_list literal_eval (historical_rates y)) in
  PerpPerpOpportunity.cumulative_rate_diff_main o == Qabs (sum_a - sum_b)
  /\ 0 <= PerpPerpOpportunity.cumulative_rate_diff_main o
  /\ (0 < PerpPerpOpportunity.cumulative_rate_diff_main o <-> ~ sum_a == sum_b).
Proof.
  intros Hne Hc H7 H3 o sum_a sum_b.
  assert (Hneb : (exchange_2 =? exchange_1)%string = false)
    by (apply String.eqb_neq; congruence).
  destruct (window_differentials CONFIG literal_eval exchange_1 exchange_2
              df_1 df_2 x y) as (_ & _ & Hmain & _).
  specialize (Hmain H7 H3).
  change (PerpPerpOpportunity.cumulative_rate_diff_main o
          = py_sum (PerpPerp.short_historical_rates literal_eval
                      exchange_1 exchange_2 df_1 df_2 x y)
            - py_sum (PerpPerp.long_historical_rates literal_eval
                        exchange_1 exchange_2 df_1 df_2 x y)) in Hmain.
  assert (Habs : PerpPerpOpportunity.cumulative_rate_diff_main o
                 == Qabs (sum_a - sum_b)).
  { rewrite Hmain.
    unfold PerpPerp.short_historical_rates, PerpPerp.long_historical_rates.
    destruct (fallback_mode_labels literal_eval exchange_1 exchange_2
                df_1 df_2 x y Hc) as [Hpos Hneg].
    change (PerpPerp.cumulative_rate_diff literal_eval x y)
      with (sum_a - sum_b) in Hpos, Hneg.
    destruct (Qlt_le_dec 0 (sum_a - sum_b)) as [Hd|Hd].
    - destruct (Hpos Hd) as [-> ->]. rewrite Hneb, String.eqb_refl.
      change (sum_a - sum_b == Qabs (sum_a - sum_b)).
      symmetry. apply Qabs_pos. now apply Qlt_le_weak.
    - destruct (Hneg Hd) as [-> ->]. rewrite Hneb, String.eqb_refl.
      change (sum_b - sum_a == Qabs (sum_a - sum_b)).
      rewrite (Qabs_neg _ Hd). ring. }
  split; [exact Habs|]. split.
  - rewrite Habs. apply Qabs_nonneg.
  - rewrite Habs. split.
    + intros Hpos Heq.
      assert (Hz : sum_a - sum_b == 0) by (rewrite Heq; ring).
      rewrite Hz in Hpos. discriminate Hpos.
    + intros Hdiff.
      destruct (Qlt_le_dec 0 (Qabs (sum_a - sum_b))) as [Hp|Hn]; [exact Hp|].
      exfalso. apply Hdiff.
      apply Qabs_Qle_condition in Hn. destruct Hn as [Hlo Hhi].
      assert (H0 : sum_a - sum_b == 0)
        by (apply Qle_antisym; [exact Hhi|exact Hlo]).
      rewrite <- (Qplus_0_l sum_b). rewrite <- H0. ring.
Qed.

(** C10, a run in fallback mode with [funding_historical_days = 7] on
    frames without the 7-day column: the main-window column is
    [cumulative_rate_diff_7d], overwritten by the 7-day differential.  The
    two main-window sums differ ([0.05] and [0.03]), yet the emitted
    main-window differential is [0], not [0.02]. *)
Theorem C10_fallback_main_window_column_overwritten :
  exists o : PerpPerpOpportunity.t,
    PerpPerp.create_perp_perp_opportunities_df (config_days 7)
      literal_eval_excerpt "A" "B"
      (frame false false [sol_a]) (frame false false [sol_b]) = [o]
    /\ PerpPerp.has_current (frame false false [sol_a])
         (frame false false [sol_b]) = false
    /\ Qabs (PerpPerp.sum_x literal_eval_excerpt sol_a
             - PerpPerp.sum_y literal_eval_excerpt sol_b) == 2 # 100
    /\ PerpPerpOpportunity.cumulative_rate_diff_main o == 0
    /\ ~ PerpPerp.sum_x literal_eval_excerpt sol_a
         == PerpPerp.sum_y literal_eval_excerpt sol_b
    /\ ~ 0 < PerpPerpOpportunity.cumulative_rate_diff_main o.
Proof.
  eexists. split; [reflexivity|].
  repeat split; try reflexivity.
  - intros H. vm_compute in H. discriminate H.
  - intros H. vm_compute in H. discriminate H.
Qed.

(** ** Perp-perp: amplitude reconciliation *)

Lemma nan_gtZ_true (a b : Z) : (b < a)%Z -> nan_gtZ (Some a) (Some b) = true.
Proof. intros H. simpl. now apply Z.ltb_lt. Qed.

Lemma nan_gtZ_false (a b : Z) : (a <= b)%Z -> nan_gtZ (Some a) (Some b) = false.
Proof. intros H. simpl. apply Z.ltb_ge. exact H. Qed.

(** C5: for every joined row, when one venue's [amplitude_days] strictly
    exceeds the other's, the emitted mean, max and day count are that
    venue's values, whatever the other venue's values are; when the two
    day counts are equal, the emitted mean and max are the element-wise
    maximum of the two venues' values. *)
Theorem C5_amplitude_reconciliation
        (CONFIG : config) (literal_eval : string -> option pyobj)
        (exchange_1 exchange_2 : string) (df_1 df_2 : perp_table) :
  Forall2
    (fun j o =>
       forall a b : Z,
         amplitude_days (fst j) = Some a -> amplitude_days (snd j) = Some b ->
         ((b < a)%Z ->
          PerpPerpOpportunity.mean_daily_amplitude o
          = mean_daily_amplitude (fst j)
          /\ PerpPerpOpportunity.max_daily_amplitude o
             = max_daily_amplitude (fst j)
          /\ PerpPerpOpportunity.amplitude_days o = Some a)
         /\ ((a < b)%Z ->
             PerpPerpOpportunity.mean_daily_amplitude o
             = mean_daily_amplitude (snd j)
             /\ PerpPerpOpportunity.max_daily_amplitude o
                = max_daily_amplitude (snd j)
             /\ PerpPerpOpportunity.amplitude_days o = Some b)
         /\ (a = b ->
             PerpPerpOpportunity.mean_daily_amplitude o
             = nan_max (mean_daily_amplitude (fst j))
                       (mean_daily_amplitude (snd j))
             /\ PerpPerpOpportunity.max_daily_amplitude o
                = nan_max (max_daily_amplitude (fst j))
                          (max_daily_amplitude (snd j))
             /\ (forall p q : Q,
                    mean_daily_amplitude (fst j) = Some p ->
                    mean_daily_amplitude (snd j) = Some q ->
                    PerpPerpOpportunity.mean_daily_amplitude o
                    = Some (Qmax p q))
             /\ (forall p q : Q,
                    max_daily_amplitude (fst j) = Some p ->
                    max_daily_amplitude (snd j) = Some q ->
                    PerpPerpOpportunity.max_daily_amplitude o
                    = Some (Qmax p q))))
    (PerpPerp.joined df_1 df_2)
    (PerpPerp.create_perp_perp_opportunities_df CONFIG literal_eval
       exchange_1 exchange_2 df_1 df_2).
Proof.
  unfold PerpPerp.create_perp_perp_opportunities_df.
  apply Forall2_map_right. intros [x y] _ a b Hx Hy. simpl in Hx, Hy.
  cbn [fst snd PerpPerp.opportunity
         PerpPerpOpportunity.mean_daily_amplitude
         PerpPerpOpportunity.max_daily_amplitude
         PerpPerpOpportunity.amplitude_days].
  unfold PerpPerp.mean_daily_amplitude, PerpPerp.max_daily_amplitude,
    PerpPerp.amplitude_days, PerpPerp.condition_1, PerpPerp.condition_2,
    PerpPerp.amplitude_days_x, PerpPerp.amplitude_days_y,
    PerpPerp.mean_daily_amplitude_x, PerpPerp.mean_daily_amplitude_y,
    PerpPerp.max_daily_amplitude_x, PerpPerp.max_daily_amplitude_y.
  rewrite Hx, Hy. cbv zeta.
  split; [|split].
  - intros Hlt.
    rewrite (nan_gtZ_true Hlt), (nan_gtZ_false (a := b) (b := a)) by lia.
    auto.
  - intros Hlt. rewrite (nan_gtZ_true Hlt). auto.
  - intros ->.
    rewrite !(nan_gtZ_false (a := b) (b := b)) by lia.
    repeat split; try reflexivity.
    + intros p q -> ->. reflexivity.
    + intros p q -> ->. reflexivity.
Qed.

Lemma C5_witness :
  Forall2
    (fun j o =>
       forall a b : Z,
         amplitude_days (fst j) = Some a -> amplitude_days (snd j) = Some b ->
         ((b < a)%Z ->
          PerpPerpOpportunity.mean_daily_amplitude o
          = mean_daily_amplitude (fst j)
          /\ PerpPerpOpportunity.max_daily_amplitude o
             = max_daily_amplitude (fst j)
          /\ PerpPerpOpportunity.amplitude_days o = Some a)
         /\ ((a < b)%Z ->
             PerpPerpOpportunity.mean_daily_amplitude o
             = mean_daily_amplitude (snd j)
             /\ PerpPerpOpportunity.max_daily_amplitude o
                = max_daily_amplitude (snd j)
             /\ PerpPerpOpportunity.amplitude_days o = Some b)
         /\ (a = b ->
             PerpPerpOpportunity.mean_daily_amplitude o
             = nan_max (mean_daily_amplitude (fst j))
                       (mean_daily_amplitude (snd j))
             /\ PerpPerpOpportunity.max_daily_amplitude o
                = nan_max (max_daily_amplitude (fst j))
                          (max_daily_amplitude (snd j))
             /\ (forall p q : Q,
                    mean_daily_amplitude (fst j) = Some p ->
                    mean_daily_amplitude (snd j) = Some q ->
                    PerpPerpOpportunity.mean_daily_amplitude o
                    = Some (Qmax p q))
             /\ (forall p q : Q,
                    max_daily_amplitude (fst j) = Some p ->
                    max_daily_amplitude (snd j) = Some q ->
                    PerpPerpOpportunity.max_daily_amplitude o
                    = Some (Qmax p q))))
    (PerpPerp.joined (frame true false [btc_a; quiet_a])
                     (frame true false [btc_b; quiet_b]))
    (PerpPerp.create_perp_perp_opportunities_df (config_days 30)
       literal_eval_excerpt "A" "B"
       (frame true false [btc_a; quiet_a]) (frame true false [btc_b; quiet_b]))
  /\ amplitude_days quiet_a = Some 30%Z
  /\ amplitude_days quiet_b = Some 12%Z
  /\ (12 < 30)%Z
  /\ amplitude_days btc_a = Some 30%Z
  /\ amplitude_days btc_b = Some 30%Z
  /\ mean_daily_amplitude btc_a = Some (25 # 10)
  /\ max_daily_amplitude btc_b = Some 7.
Proof.
  split; [|repeat split].
  apply (C5_amplitude_reconciliation (config_days 30) literal_eval_excerpt
           "A" "B" (frame true false [btc_a; quiet_a])
           (frame true false [btc_b; quiet_b])).
Defined.

(** ** Ranking: the sort *)

Section SortFacts.

Variable A : Type.
Variable leb : A -> A -> bool.
Hypothesis leb_total : forall a b, leb a b = false -> leb b a = true.
Hypothesis leb_trans :
  forall a b c, leb a b = true -> leb b c = true -> leb a c = true.

Let ordered (a b : A) : Prop := leb a b = true.

Lemma insert_sorted_perm (a : A) (l : list A) :
  Permutation (Ranking.insert_sorted leb a l) (a :: l).
Proof.
  induction l as [|b l IH]; simpl; [reflexivity|].
  destruct (leb a b); [reflexivity|].
  rewrite IH. apply perm_swap.
Qed.

Lemma sort_values_perm (l : list A) :
  Permutation (Ranking.sort_values leb l) l.
Proof.
  induction l as [|a l IH]; simpl; [reflexivity|].
  rewrite insert_sorted_perm. now constructor.
Qed.

Lemma insert_sorted_ordered (a : A) (l : list A) :
  StronglySorted ordered l ->
  StronglySorted ordered (Ranking.insert_sorted leb a l).
Proof.
  induction l as [|b l IH]; intros Hs; simpl.
  - repeat constructor.
  - inversion Hs as [|? ? Hl Hb]; subst.
    destruct (leb a b) eqn:E.
    + constructor; [exact Hs|]. constructor; [exact E|].
      eapply Forall_impl; [|exact Hb].
      intros c Hc. exact (leb_trans E Hc).
    + constructor; [now apply IH|].
      eapply Permutation_Forall.
      * symmetry. apply insert_sorted_perm.
      * constructor; [now apply leb_total|exact Hb].
Qed.

Lemma sort_values_ordered (l : list A) :
  StronglySorted ordered (Ranking.sort_values leb l).
Proof.
  induction l as [|a l IH]; simpl; [constructor|].
  now apply insert_sorted_ordered.
Qed.

End SortFacts.

Lemma rate_descending_total (r s : SpotPerpOpportunity.t) :
  Ranking.rate_descending r s = false -> Ranking.rate_descending s r = true.
Proof.
  unfold Ranking.rate_descending.
  destruct (SpotPerpOpportunity.rate r) as [a|],
           (SpotPerpOpportunity.rate s) as [b|]; try easy.
  intros H. apply Qle_bool_iff. apply Qlt_le_weak.
  apply Qnot_le_lt. intros Hle. apply Qle_bool_iff in Hle. congruence.
Qed.

Lemma rate_ascending_total (r s : SpotPerpOpportunity.t) :
  Ranking.rate_ascending r s = false -> Ranking.rate_ascending s r = true.
Proof.
  unfold Ranking.rate_ascending.
  destruct (SpotPerpOpportunity.rate r) as [a|],
           (SpotPerpOpportunity.rate s) as [b|]; try easy.
  intros H. apply Qle_bool_iff. apply Qlt_le_weak.
  apply Qnot_le_lt. intros Hle. apply Qle_bool_iff in Hle. congruence.
Qed.

Lemma rate_descending_trans (r s u : SpotPerpOpportunity.t) :
  Ranking.rate_descending r s = true -> Ranking.rate_descending s u = true ->
  Ranking.rate_descending r u = true.
Proof.
  unfold Ranking.rate_descending.
  destruct (SpotPerpOpportunity.rate r) as [a|],
           (SpotPerpOpportunity.rate s) as [b|],
           (SpotPerpOpportunity.rate u) as [c|]; try easy.
  rewrite !Qle_bool_iff. intros H1 H2. eapply Qle_trans; eauto.
Qed.

Lemma rate_ascending_trans (r s u : SpotPerpOpportunity.t) :
  Ranking.rate_ascending r s = true -> Ranking.rate_ascending s u = true ->
  Ranking.rate_ascending r u = true.
Proof.
  unfold Ranking.rate_ascending.
  destruct (SpotPerpOpportunity.rate r) as [a|],
           (SpotPerpOpportunity.rate s) as [b|],
           (SpotPerpOpportunity.rate u) as [c|]; try easy.
  rewrite !Qle_bool_iff. intros H1 H2. eapply Qle_trans; eauto.
Qed.

(** ** Spot-perp: what a successful run returns *)

Lemma apply_series_Ok (A B : Type) (f : A -> result B) (l : list A)
      (out : list B) :
  apply_series f l = Ok out -> Forall2 (fun a b => f a = Ok b) l out.
Proof.
  revert out. induction l as [|a l IH]; simpl; intros out H.
  - inversion H. constructor.
  - destruct (f a) as [b|] eqn:Ea; simpl in H; [|discriminate].
    destruct (apply_series f l) as [bs|] eqn:El; simpl in H; [|discriminate].
    inversion H; subst. constructor; auto.
Qed.

Lemma apply_series_Raised (A B : Type) (f : A -> result B) (l : list A)
      (a : A) :
  In a l -> f a = Raised -> apply_series f l = Raised.
Proof.
  induction l as [|c l IH]; simpl; intros Hin Ha; [contradiction|].
  destruct Hin as [->|Hin].
  - now rewrite Ha.
  - destruct (f c); [|reflexivity]. simpl. now rewrite (IH Hin Ha).
Qed.

Lemma Forall2_transfer (A B : Type) (P : A -> B -> Prop) (Q : A -> Prop)
      (R : B -> Prop) (l : list A) (out : list B) :
  Forall2 P l out ->
  (forall a, In a l -> Q a) ->
  (forall a b, Q a -> P a b -> R b) ->
  Forall R out.
Proof.
  intros H. induction H as [|a b l out Hab _ IH]; intros HQ HR.
  - constructor.
  - constructor.
    + apply (HR a b); [apply HQ; now left|exact Hab].
    + apply IH; [|exact HR]. intros c Hc. apply HQ. now right.
Qed.

Section SpotPerpFacts.

Variable CONFIG : config.
Variable literal_eval : string -> option pyobj.
Variable perpetual_exchange : string.

Lemma merge_on_spot_pair_left (perp : list funding_row)
      (spot : list spot_row) (j : funding_row * spot_row) :
  In j (SpotPerp.merge_on_spot_pair perp spot) -> In (fst j) perp.
Proof.
  unfold SpotPerp.merge_on_spot_pair. rewrite in_flat_map.
  intros [r [Hr Hin]]. apply in_map_iff in Hin.
  destruct Hin as [s [<- _]]. exact Hr.
Qed.

Lemma merge_on_spot_pair_In (perp : list funding_row)
      (spot : list spot_row) (r : funding_row) (s : spot_row) :
  In r perp -> In s spot ->
  SpotPerp.before_colon (pair r) = spot_pair s ->
  In (r, s) (SpotPerp.merge_on_spot_pair perp spot).
Proof.
  intros Hr Hs Hk. unfold SpotPerp.merge_on_spot_pair.
  apply in_flat_map. exists r. split; [exact Hr|].
  apply in_map_iff. exists s. split; [reflexivity|].
  apply filter_In. split; [exact Hs|]. now apply String.eqb_eq.
Qed.

Lemma opportunity_rate (j : funding_row * spot_row)
      (o : SpotPerpOpportunity.t) :
  SpotPerp.opportunity CONFIG literal_eval perpetual_exchange j = Ok o ->
  SpotPerpOpportunity.rate o = rate (fst j).
Proof.
  unfold SpotPerp.opportunity.
  destruct (SpotPerp.literal_eval_obj literal_eval _) as [lst|];
    simpl; [|discriminate].
  destruct (SpotPerp.sum_obj lst) as [total|]; simpl; [|discriminate].
  intros H. inversion H. reflexivity.
Qed.

Lemma above_threshold_spec (r : funding_row) :
  SpotPerp.above_threshold CONFIG r = true
  <-> exists q : Q,
      rate r = Some q /\ funding_rate_threshold CONFIG < Qabs q.
Proof.
  unfold SpotPerp.above_threshold. destruct (rate r) as [q|].
  - rewrite Qlt_bool_iff. split.
    + intros H. exists q. auto.
    + intros [q' [Hq H]]. inversion Hq; subst. exact H.
  - split; [discriminate|]. intros [q [Hq _]]. discriminate.
Qed.

(** Every row a successful run returns passed the threshold filter. *)
Lemma spot_perp_rows_above_threshold
      (perpetual_rates_df : perp_table) (spot_pairs_df : list spot_row)
      (out : list SpotPerpOpportunity.t) :
  SpotPerp.create_spot_perp_opportunites_df CONFIG literal_eval
    perpetual_exchange perpetual_rates_df spot_pairs_df = Ok out ->
  Forall
    (fun o => exists q : Q,
         SpotPerpOpportunity.rate o = Some q
         /\ funding_rate_threshold CONFIG < Qabs q)
    out.
Proof.
  unfold SpotPerp.create_spot_perp_opportunites_df.
  destruct (SpotPerp.with_rate_column literal_eval perpetual_rates_df)
    as [with_rate|]; simpl; [|discriminate].
  intros H. apply apply_series_Ok in H.
  eapply Forall2_transfer with
    (Q := fun j => SpotPerp.above_threshold CONFIG (fst j) = true);
    [exact H| |].
  - intros j Hj. apply merge_on_spot_pair_left in Hj.
    apply filter_In in Hj. apply Hj.
  - intros j o Hj Ho. apply opportunity_rate in Ho. rewrite Ho.
    now apply above_threshold_spec.
Qed.

End SpotPerpFacts.

(** ** Ranking: filtering by sign *)

Lemma rate_negate_apy (o : SpotPerpOpportunity.t) :
  SpotPerpOpportunity.rate (Ranking.negate_apy o) = SpotPerpOpportunity.rate o.
Proof. reflexivity. Qed.

Lemma Qopp_twice (q : Q) : Qopp (Qopp q) = q.
Proof. destruct q as [n d]. unfold Qopp. simpl. now rewrite Z.opp_involutive. Qed.

Lemma negate_apy_involutive (o : SpotPerpOpportunity.t) :
  Ranking.negate_apy (Ranking.negate_apy o) = o.
Proof.
  destruct o as [p r apy pe se me ma ad h c]. unfold Ranking.negate_apy. simpl.
  destruct apy as [q|]; simpl; [now rewrite Qopp_twice|reflexivity].
Qed.

Lemma rate_positive_spec (o : SpotPerpOpportunity.t) :
  Ranking.rate_positive o = true
  <-> exists q : Q, SpotPerpOpportunity.rate o = Some q /\ 0 < q.
Proof.
  unfold Ranking.rate_positive. destruct (SpotPerpOpportunity.rate o) as [q|]; simpl.
  - rewrite Qlt_bool_iff. split.
    + intros H. exists q. auto.
    + intros [q' [Hq H]]. inversion Hq; subst. exact H.
  - split; [discriminate|]. intros [q [Hq _]]. discriminate.
Qed.

Lemma rate_negative_spec (o : SpotPerpOpportunity.t) :
  Ranking.rate_negative o = true
  <-> exists q : Q, SpotPerpOpportunity.rate o = Some q /\ q < 0.
Proof.
  unfold Ranking.rate_negative. destruct (SpotPerpOpportunity.rate o) as [q|]; simpl.
  - rewrite Qlt_bool_iff. split.
    + intros H. exists q. auto.
    + intros [q' [Hq H]]. inversion Hq; subst. exact H.
  - split; [discriminate|]. intros [q [Hq _]]. discriminate.
Qed.

Lemma rate_sign_exclusive (o : SpotPerpOpportunity.t) :
  Ranking.rate_positive o = true -> Ranking.rate_negative o = true -> False.
Proof.
  rewrite rate_positive_spec, rate_negative_spec.
  intros [q [Hq Hpos]] [q' [Hq' Hneg]]. rewrite Hq in Hq'. inversion Hq'; subst.
  exact (Qlt_irrefl _ (Qlt_trans _ _ _ Hpos Hneg)).
Qed.

Lemma rate_nonzero_spec (o : SpotPerpOpportunity.t) :
  Ranking.rate_positive o || Ranking.rate_negative o = true
  <-> exists q : Q, SpotPerpOpportunity.rate o = Some q /\ ~ q == 0.
Proof.
  rewrite orb_true_iff, rate_positive_spec, rate_negative_spec. split.
  - intros [[q [Hq H]]|[q [Hq H]]]; exists q; split; auto; intros Hz;
      rewrite Hz in H; exact (Qlt_irrefl _ H).
  - intros [q [Hq Hnz]]. destruct (Q_dec q 0) as [[Hlt|Hgt]|Heq].
    + right. exists q. auto.
    + left. exists q. auto.
    + contradiction.
Qed.

Lemma filter_negative_negated (df : list SpotPerpOpportunity.t) :
  filter Ranking.rate_negative (map Ranking.negate_apy df)
  = map Ranking.negate_apy (filter Ranking.rate_negative df).
Proof.
  induction df as [|o df IH]; simpl; [reflexivity|].
  change (Ranking.rate_negative (Ranking.negate_apy o))
    with (Ranking.rate_negative o).
  destruct (Ranking.rate_negative o); simpl; now rewrite IH.
Qed.

Lemma filter_split_perm (A : Type) (P N : A -> bool) (l : list A) :
  (forall a, P a = true -> N a = true -> False) ->
  Permutation (filter P l ++ filter N l) (filter (fun a => P a || N a) l).
Proof.
  intros Hex. induction l as [|a l IH]; simpl; [constructor|].
  destruct (P a) eqn:EP, (N a) eqn:EN; simpl.
  - exfalso. exact (Hex a EP EN).
  - now constructor.
  - rewrite <- IH. symmetry. apply Permutation_middle.
  - exact IH.
Qed.

Lemma StronglySorted_weaken (A : Type) (R S : A -> A -> Prop) (l : list A) :
  (forall a b, R a b -> S a b) -> StronglySorted R l -> StronglySorted S l.
Proof.
  intros HRS H. induction H as [|a l _ IH Hall]; constructor; [exact IH|].
  eapply Forall_impl; [|exact Hall]. intros b. apply HRS.
Qed.

Lemma map_negate_apy_twice (l : list SpotPerpOpportunity.t) :
  map Ranking.negate_apy (map Ranking.negate_apy l) = l.
Proof.
  induction l as [|o l IH]; simpl; [reflexivity|].
  now rewrite negate_apy_involutive, IH.
Qed.

Lemma apy_flip_is_negate_apy (o o' : SpotPerpOpportunity.t) :
  (SpotPerpOpportunity.APY_historical_average o
   = option_map Qopp (SpotPerpOpportunity.APY_historical_average o')
   /\ SpotPerpOpportunity.pair o = SpotPerpOpportunity.pair o'
   /\ SpotPerpOpportunity.rate o = SpotPerpOpportunity.rate o'
   /\ SpotPerpOpportunity.perp_exchange o = SpotPerpOpportunity.perp_exchange o'
   /\ SpotPerpOpportunity.spot_exchange o = SpotPerpOpportunity.spot_exchange o'
   /\ SpotPerpOpportunity.mean_daily_amplitude o
      = SpotPerpOpportunity.mean_daily_amplitude o'
   /\ SpotPerpOpportunity.max_daily_amplitude o
      = SpotPerpOpportunity.max_daily_amplitude o'
   /\ SpotPerpOpportunity.amplitude_days o
      = SpotPerpOpportunity.amplitude_days o'
   /\ SpotPerpOpportunity.historical_rates o
      = SpotPerpOpportunity.historical_rates o'
   /\ SpotPerpOpportunity.cum_sum_main o = SpotPerpOpportunity.cum_sum_main o')
  <-> o = Ranking.negate_apy o'.
Proof.
  split.
  - destruct o, o'. unfold Ranking.negate_apy. simpl.
    intros (-> & -> & -> & -> & -> & -> & -> & -> & -> & ->). reflexivity.
  - intros ->. unfold Ranking.negate_apy. simpl. repeat split.
Qed.

Lemma Forall2_negate_apy (P : SpotPerpOpportunity.t -> SpotPerpOpportunity.t -> Prop)
      (l : list SpotPerpOpportunity.t) :
  (forall o o', o = Ranking.negate_apy o' -> P o o') ->
  Forall2 P l (map Ranking.negate_apy l).
Proof.
  intros HP. induction l as [|o l IH]; simpl; constructor; [|exact IH].
  apply HP. symmetry. apply negate_apy_involutive.
Qed.

(** C6: every row a spot-perp run returns has [abs(rate)] above the
    threshold; [filter_and_sort_rates] without [negative] returns exactly
    the rows with [rate > 0], by descending rate; with [negative] it
    returns exactly the rows with [rate < 0], by ascending rate, each with
    [APY_historical_average] replaced by its opposite and every other
    column as in the input row; no row is in both results, and the
    positive rows together with the input rows of the negative ones are
    the rows with a nonzero rate. *)
Theorem C6_spot_perp_filtering
        (CONFIG : config) (literal_eval : string -> option pyobj) :
  (forall (perpetual_exchange : string) (perpetual_rates_df : perp_table)
          (spot_pairs_df : list spot_row) (out : list SpotPerpOpportunity.t),
      SpotPerp.create_spot_perp_opportunites_df CONFIG literal_eval
        perpetual_exchange perpetual_rates_df spot_pairs_df = Ok out ->
      Forall
        (fun o => exists q : Q,
             SpotPerpOpportunity.rate o = Some q
             /\ funding_rate_threshold CONFIG < Qabs q)
        out)
  /\ (forall df : list SpotPerpOpportunity.t,
         let sign_flipped (o o' : SpotPerpOpportunity.t) : Prop :=
           SpotPerpOpportunity.APY_historical_average o
           = option_map Qopp (SpotPerpOpportunity.APY_historical_average o')
           /\ SpotPerpOpportunity.pair o = SpotPerpOpportunity.pair o'
           /\ SpotPerpOpportunity.rate o = SpotPerpOpportunity.rate o'
           /\ SpotPerpOpportunity.perp_exchange o
              = SpotPerpOpportunity.perp_exchange o'
           /\ SpotPerpOpportunity.spot_exchange o
              = SpotPerpOpportunity.spot_exchange o'
           /\ SpotPerpOpportunity.mean_daily_amplitude o
              = SpotPerpOpportunity.mean_daily_amplitude o'
           /\ SpotPerpOpportunity.max_daily_amplitude o
              = SpotPerpOpportunity.max_daily_amplitude o'
           /\ SpotPerpOpportunity.amplitude_days o
              = SpotPerpOpportunity.amplitude_days o'
           /\ SpotPerpOpportunity.historical_rates o
              = SpotPerpOpportunity.historical_rates o'
           /\ SpotPerpOpportunity.cum_sum_main o
              = SpotPerpOpportunity.cum_sum_main o' in
         let positive := snd (Ranking.filter_and_sort_rates df false) in
         let negative := snd (Ranking.filter_and_sort_rates df true) in
         Ranking.positive_and_negative df = (positive, negative)
         /\ (forall o, In o positive
                       <-> In o df
                           /\ exists q : Q,
                               SpotPerpOpportunity.rate o = Some q /\ 0 < q)
         /\ Permutation positive (filter Ranking.rate_positive df)
         /\ StronglySorted
              (fun r s => forall a b : Q,
                   SpotPerpOpportunity.rate r = Some a ->
                   SpotPerpOpportunity.rate s = Some b -> b <= a)
              positive
         /\ (forall o, In o negative
                       <-> exists o',
                           sign_flipped o o' /\ In o' df
                           /\ exists q : Q,
                               SpotPerpOpportunity.rate o' = Some q /\ q < 0)
         /\ (forall o a,
                In o negative ->
                SpotPerpOpportunity.APY_historical_average o = Some a ->
                exists o',
                  In o' df
                  /\ SpotPerpOpportunity.pair o' = SpotPerpOpportunity.pair o
                  /\ SpotPerpOpportunity.rate o' = SpotPerpOpportunity.rate o
                  /\ SpotPerpOpportunity.APY_historical_average o'
                     = Some (- a))
         /\ (exists originals : list SpotPerpOpportunity.t,
                Forall2 sign_flipped negative originals
                /\ Permutation originals (filter Ranking.rate_negative df)
                /\ Permutation (positive ++ originals)
                     (filter (fun o => Ranking.rate_positive o
                                       || Ranking.rate_negative o) df))
         /\ StronglySorted
              (fun r s => forall a b : Q,
                   SpotPerpOpportunity.rate r = Some a ->
                   SpotPerpOpportunity.rate s = Some b -> a <= b)
              negative
         /\ (forall o, ~ (In o positive /\ In o negative))
         /\ (forall threshold : Q,
                let above o :=
                  exists q : Q,
                    SpotPerpOpportunity.rate o = Some q /\ threshold < Qabs q in
                Forall above df -> Forall above positive /\ Forall above negative)
         /\ (forall o,
                In o (filter Ranking.rate_negative df)
                <-> In o df
                    /\ exists q : Q,
                        SpotPerpOpportunity.rate o = Some q /\ q < 0)
         /\ (forall o,
                In o (filter (fun o => Ranking.rate_positive o
                                       || Ranking.rate_negative o) df)
                <-> In o df
                    /\ exists q : Q,
                        SpotPerpOpportunity.rate o = Some q /\ ~ q == 0)).
Proof.
  split.
  - intros pe df spot out. apply spot_perp_rows_above_threshold.
  - intros df sign_flipped positive negative.
    assert (Hflip : forall o o', sign_flipped o o' <-> o = Ranking.negate_apy o')
      by (intros o o'; apply apy_flip_is_negate_apy).
    assert (Hpos : Permutation positive (filter Ranking.rate_positive df))
      by apply sort_values_perm.
    assert (Hneg : Permutation negative
                     (map Ranking.negate_apy (filter Ranking.rate_negative df))).
    { subst negative. simpl. rewrite filter_negative_negated.
      apply sort_values_perm. }
    assert (Hin_pos : forall o, In o positive
                                <-> In o df /\ Ranking.rate_positive o = true).
    { intros o. rewrite <- filter_In. split; apply Permutation_in;
        [exact Hpos|symmetry; exact Hpos]. }
    assert (Hin_neg : forall o, In o negative
                                <-> exists o', o = Ranking.negate_apy o'
                                               /\ In o' df
                                               /\ Ranking.rate_negative o' = true).
    { intros o. split.
      - intros H. apply (Permutation_in _ Hneg) in H.
        apply in_map_iff in H. destruct H as [o' [<- H]].
        apply filter_In in H. exists o'. tauto.
      - intros [o' [-> [Hdf Hn]]].
        apply (Permutation_in _ (Permutation_sym Hneg)).
        apply in_map. apply filter_In. tauto. }
    assert (Horig : Permutation (map Ranking.negate_apy negative)
                      (filter Ranking.rate_negative df)).
    { rewrite Hneg. rewrite map_negate_apy_twice. reflexivity. }
    split; [reflexivity|].
    split; [intros o; rewrite Hin_pos, rate_positive_spec; reflexivity|].
    split; [exact Hpos|].
    split.
    { eapply StronglySorted_weaken;
        [|apply (@sort_values_ordered _ Ranking.rate_descending
                   rate_descending_total rate_descending_trans)].
      intros r s H a b Hr Hs. unfold Ranking.rate_descending in H.
      rewrite Hr, Hs in H. now apply Qle_bool_iff. }
    split.
    { intros o. rewrite Hin_neg. split.
      - intros [o' [Ho [Hdf Hn]]]. exists o'.
        apply rate_negative_spec in Hn. apply Hflip in Ho. auto.
      - intros [o' [Ho [Hdf Hn]]]. exists o'.
        apply rate_negative_spec in Hn. apply Hflip in Ho. auto. }
    split.
    { intros o a Ho Ha. apply Hin_neg in Ho.
      destruct Ho as [o' [-> [Hdf _]]]. exists o'.
      split; [exact Hdf|]. split; [reflexivity|]. split; [reflexivity|].
      unfold Ranking.negate_apy in Ha. simpl in Ha.
      destruct (SpotPerpOpportunity.APY_historical_average o') as [a'|];
        simpl in Ha; [|discriminate].
      injection Ha as <-. now rewrite Qopp_twice. }
    split.
    { exists (map Ranking.negate_apy negative). split; [|split].
      - apply Forall2_negate_apy. intros o o' Ho. now apply Hflip.
      - exact Horig.
      - rewrite Hpos, Horig.
        apply filter_split_perm. exact rate_sign_exclusive. }
    split.
    { eapply StronglySorted_weaken;
        [|apply (@sort_values_ordered _ Ranking.rate_ascending
                   rate_ascending_total rate_ascending_trans)].
      intros r s H a b Hr Hs. unfold Ranking.rate_ascending in H.
      rewrite Hr, Hs in H. now apply Qle_bool_iff. }
    split.
    { intros o [Hp Hn]. apply Hin_pos in Hp. apply Hin_neg in Hn.
      destruct Hp as [_ Hp]. destruct Hn as [o' [-> [_ Hn]]].
      exact (rate_sign_exclusive o' Hp Hn). }
    split.
    { intros threshold above Hall. rewrite Forall_forall in Hall.
      split; apply Forall_forall; intros o Ho.
      - apply Hin_pos in Ho. now apply Hall.
      - apply Hin_neg in Ho. destruct Ho as [o' [-> [Hdf _]]].
        exact (Hall o' Hdf). }
    split.
    { intros o. rewrite filter_In, rate_negative_spec. reflexivity. }
    intros o. rewrite filter_In, rate_nonzero_spec. reflexivity.
Qed.

Lemma C6_witness :
  exists out : list SpotPerpOpportunity.t,
    SpotPerp.create_spot_perp_opportunites_df (config_days 30)
      literal_eval_excerpt "binance" perp_with_rates spot_pairs = Ok out
    /\ List.length out = 2%nat
    /\ Forall
         (fun o => exists q : Q,
              SpotPerpOpportunity.rate o = Some q
              /\ funding_rate_threshold (config_days 30) < Qabs q)
         out
    /\ map (fun o => (SpotPerpOpportunity.pair o,
                      SpotPerpOpportunity.APY_historical_average o)) out
       = [("BTC/USDT:USDT", Some (61 # 100));
          ("ETH/USDT:USDT", Some (- 633 # 100))]
    /\ map (fun o => (SpotPerpOpportunity.pair o,
                      SpotPerpOpportunity.APY_historical_average o))
           (snd (Ranking.filter_and_sort_rates out true))
       = [("ETH/USDT:USDT", Some (633 # 100))]
    /\ (forall o a,
           In o (snd (Ranking.filter_and_sort_rates out true)) ->
           SpotPerpOpportunity.APY_historical_average o = Some a ->
           exists o',
             In o' out
             /\ SpotPerpOpportunity.pair o' = SpotPerpOpportunity.pair o
             /\ SpotPerpOpportunity.rate o' = SpotPerpOpportunity.rate o
             /\ SpotPerpOpportunity.APY_historical_average o' = Some (- a)).
Proof.
  eexists. split; [vm_compute; reflexivity|]. split; [reflexivity|].
  split; [|split; [|split]].
  - apply (proj1 (C6_spot_perp_filtering (config_days 30) literal_eval_excerpt)
             "binance" perp_with_rates spot_pairs).
    vm_compute. reflexivity.
  - vm_compute. reflexivity.
  - vm_compute. reflexivity.
  - apply (proj2 (C6_spot_perp_filtering (config_days 30)
                    literal_eval_excerpt)).
Defined.

(** ** Spot-perp: malformed series and missing rates *)

(** What [coerce_to_list] does with a cell that is not a well-formed list:
    it never raises and returns the empty list. *)
Lemma coerce_to_list_malformed (literal_eval : string -> option pyobj) :
  PerpPerp.coerce_to_list literal_eval PyNaN = []
  /\ PerpPerp.coerce_to_list literal_eval PyOther = []
  /\ (forall l, PerpPerp.coerce_to_list literal_eval (PyTuple l) = [])
  /\ (forall s, literal_eval s = None ->
                PerpPerp.coerce_to_list literal_eval (PyStr s) = [])
  /\ (forall s v, literal_eval s = Some v ->
                  (forall l, v <> PyList l) ->
                  PerpPerp.coerce_to_list literal_eval (PyStr s) = [])
  /\ (forall l, PerpPerp.coerce_to_list literal_eval (PyList l) = l)
  /\ (forall s l, literal_eval s = Some (PyList l) ->
                  PerpPerp.coerce_to_list literal_eval (PyStr s) = l).
Proof.
  repeat split; try reflexivity.
  - intros s H. simpl. now rewrite H.
  - intros s v H Hv. simpl. rewrite H.
    destruct v; try reflexivity. exfalso. now apply (Hv l).
  - intros s l H. simpl. now rewrite H.
Qed.

Section SpotPerpFailures.

Variable CONFIG : config.
Variable literal_eval : string -> option pyobj.
Variable perpetual_exchange : string.

(** With a [rate] column, one surviving row whose historical cell
    [ast.literal_eval] or [sum] rejects makes the whole run raise. *)
Lemma spot_perp_raises_on_rejected_cell
      (perpetual_rates_df : perp_table) (spot_pairs_df : list spot_row)
      (r : funding_row) (s : spot_row) :
  has_rate perpetual_rates_df = true ->
  In r (rows perpetual_rates_df) ->
  SpotPerp.above_threshold CONFIG r = true ->
  In s spot_pairs_df ->
  SpotPerp.before_colon (pair r) = spot_pair s ->
  (lst <- SpotPerp.literal_eval_obj literal_eval
            (SpotPerp.fillna_empty_list (historical_rates r)) ;;
   SpotPerp.sum_obj lst) = Raised ->
  SpotPerp.create_spot_perp_opportunites_df CONFIG literal_eval
    perpetual_exchange perpetual_rates_df spot_pairs_df = Raised.
Proof.
  intros Hrate Hr Hthr Hs Hkey Hbad.
  unfold SpotPerp.create_spot_perp_opportunites_df,
    SpotPerp.with_rate_column.
  rewrite Hrate. simpl.
  apply apply_series_Raised with (a := (r, s)).
  - apply merge_on_spot_pair_In; [|exact Hs|exact Hkey].
    apply filter_In. auto.
  - unfold SpotPerp.opportunity. simpl.
    destruct (SpotPerp.literal_eval_obj literal_eval _) as [lst|];
      simpl in *; [|reflexivity].
    now rewrite Hbad.
Qed.

(** The approximation is decided per frame: in a frame that has the
    [rate] column, a row whose rate is missing is not approximated and
    does not pass the threshold filter. *)
Lemma missing_rate_in_rate_column_is_dropped
      (perpetual_rates_df : perp_table) (with_rate : list funding_row)
      (r : funding_row) :
  has_rate perpetual_rates_df = true ->
  SpotPerp.with_rate_column literal_eval perpetual_rates_df = Ok with_rate ->
  In r with_rate -> rate r = None ->
  In r (rows perpetual_rates_df)
  /\ ~ In r (filter (SpotPerp.above_threshold CONFIG) with_rate).
Proof.
  unfold SpotPerp.with_rate_column. intros -> H Hin Hnone.
  inversion H; subst. split; [exact Hin|].
  rewrite filter_In. unfold SpotPerp.above_threshold. rewrite Hnone.
  intros [_ Hf]. discriminate Hf.
Qed.

(** The approximation itself: the last point of the parsed series, or
    zero when the series is empty or is not a list. *)
Lemma approximate_rate_spec (r r' : funding_row) :
  SpotPerp.approximate_rate literal_eval r = Ok r' ->
  exists lst : pyobj,
    SpotPerp.literal_eval_obj literal_eval
      (SpotPerp.fillna_empty_list (historical_rates r)) = Ok lst
    /\ historical_rates r' = lst
    /\ rate r' = Some (SpotPerp.last_or_zero lst)
    /\ pair r' = pair r.
Proof.
  unfold SpotPerp.approximate_rate.
  destruct (SpotPerp.literal_eval_obj literal_eval _) as [lst|];
    simpl; [|discriminate].
  intros H. inversion H; subst. exists lst. auto.
Qed.

(** A nonzero approximated rate comes from a parsed list, and parsing a
    parsed list again raises. *)
Lemma approximated_row_is_rejected (r r' : funding_row) (s : spot_row) :
  0 <= funding_rate_threshold CONFIG ->
  SpotPerp.approximate_rate literal_eval r = Ok r' ->
  SpotPerp.above_threshold CONFIG r' = true ->
  SpotPerp.opportunity CONFIG literal_eval perpetual_exchange (r', s)
  = Raised.
Proof.
  intros Hthr Hr Habove.
  apply approximate_rate_spec in Hr.
  destruct Hr as [lst [_ [Hh [Hrate _]]]].
  apply above_threshold_spec in Habove.
  destruct Habove as [q [Hq Hlt]]. rewrite Hrate in Hq.
  inversion Hq; subst q. clear Hq.
  unfold SpotPerp.opportunity. simpl. rewrite Hh.
  destruct lst as [l| | | |]; try reflexivity.
  all: exfalso; simpl in Hlt;
    apply (Qlt_irrefl 0); eapply Qle_lt_trans; [exact Hthr|exact Hlt].
Qed.

(** Without a [rate] column and with a nonnegative threshold, a run
    never returns a row: it returns the empty frame or raises. *)
Lemma spot_perp_without_rate_column_returns_no_row
      (perpetual_rates_df : perp_table) (spot_pairs_df : list spot_row)
      (out : list SpotPerpOpportunity.t) :
  has_rate perpetual_rates_df = false ->
  0 <= funding_rate_threshold CONFIG ->
  SpotPerp.create_spot_perp_opportunites_df CONFIG literal_eval
    perpetual_exchange perpetual_rates_df spot_pairs_df = Ok out ->
  out = [].
Proof.
  intros Hrate Hthr.
  unfold SpotPerp.create_spot_perp_opportunites_df,
    SpotPerp.with_rate_column.
  rewrite Hrate.
  destruct (apply_series (SpotPerp.approximate_rate literal_eval)
              (rows perpetual_rates_df)) as [with_rate|] eqn:Eapp;
    simpl; [|discriminate].
  apply apply_series_Ok in Eapp.
  destruct (SpotPerp.merge_on_spot_pair
              (filter (SpotPerp.above_threshold CONFIG) with_rate)
              spot_pairs_df) as [|[r' s] rest] eqn:Emerge.
  - simpl. intros H. now inversion H.
  - intros H. exfalso.
    assert (Hin : In (r', s)
                     (SpotPerp.merge_on_spot_pair
                        (filter (SpotPerp.above_threshold CONFIG) with_rate)
                        spot_pairs_df))
      by (rewrite Emerge; now left).
    apply merge_on_spot_pair_left in Hin. simpl in Hin.
    apply filter_In in Hin. destruct Hin as [Hin Habove].
    assert (Hsrc : exists r, SpotPerp.approximate_rate literal_eval r = Ok r').
    { clear - Eapp Hin. induction Eapp as [|a b l l' Hab _ IH].
      - contradiction.
      - destruct Hin as [<-|Hin]; [now exists a|now apply IH]. }
    destruct Hsrc as [r Hr].
    simpl in H.
    rewrite (@approximated_row_is_rejected r r' s Hthr Hr Habove) in H.
    discriminate H.
Qed.

End SpotPerpFailures.

(** C7, spot-perp runs on a frame with live rates in which one row above
    the threshold has a malformed historical cell.  A text cut short
    (["[0.05"], which [ast.literal_eval] rejects) and a bare number in
    place of the list both make [create_spot_perp_opportunites_df] raise;
    the perp-perp helper [coerce_to_list] turns the same two cells into
    the empty list. *)
Theorem C7_spot_perp_raises_on_malformed_series :
  SpotPerp.create_spot_perp_opportunites_df (config_days 30)
    literal_eval_excerpt "binance" perp_truncated_text spot_pairs = Raised
  /\ (forall literal_eval : string -> option pyobj,
         SpotPerp.create_spot_perp_opportunites_df (config_days 30)
           literal_eval "binance" perp_wrong_type spot_pairs = Raised)
  /\ PerpPerp.coerce_to_list literal_eval_excerpt (PyStr "[0.05") = []
  /\ PerpPerp.coerce_to_list literal_eval_excerpt PyOther = [].
Proof.
  split; [reflexivity|]. split; [|split; reflexivity].
  intros literal_eval.
  apply spot_perp_raises_on_rejected_cell with
    (r := snapshot "BTC/USDT:USDT" (Some (2 # 100)) PyOther PyNaN PyNaN)
    (s := {| spot_pair := "BTC/USDT"; spot_exchange := "binance/gate" |});
    try reflexivity; simpl; auto.
Qed.

(** A spot-perp run on a frame without a [rate] column: the rate of the
    row is approximated by the last historical point ([0.5]) and passes
    the threshold filter; the historical cell then holds the parsed list,
    on which the second [ast.literal_eval] raises. *)
Example approximated_row_reaches_the_second_parse :
  (exists r' : funding_row,
      SpotPerp.with_rate_column literal_eval_excerpt perp_without_rates
      = Ok [r']
      /\ rate r' = Some (1 # 2)
      /\ historical_rates r' = PyList [1 # 2]
      /\ SpotPerp.above_threshold (config_days 30) r' = true)
  /\ SpotPerp.create_spot_perp_opportunites_df (config_days 30)
       literal_eval_excerpt "binance" perp_without_rates spot_pairs = Raised.
Proof.
  split; [|reflexivity].
  eexists. split; [reflexivity|]. repeat split.
Qed.

Lemma spot_perp_opportunity_fields
      (CONFIG : config) (literal_eval : string -> option pyobj)
      (perpetual_exchange : string) (j : funding_row * spot_row)
      (o : SpotPerpOpportunity.t) :
  SpotPerp.opportunity CONFIG literal_eval perpetual_exchange j = Ok o ->
  exists (lst : pyobj) (total : Q),
    SpotPerp.literal_eval_obj literal_eval
      (SpotPerp.fillna_empty_list (historical_rates (fst j))) = Ok lst
    /\ SpotPerp.sum_obj lst = Ok total
    /\ SpotPerpOpportunity.historical_rates o = lst
    /\ SpotPerpOpportunity.APY_historical_average o
       = option_map round2
           (series_div (365 * total) (funding_historical_days CONFIG))
    /\ SpotPerpOpportunity.cum_sum_main o
       = SpotPerp.sum_last_n_days lst (funding_historical_days CONFIG)
    /\ SpotPerpOpportunity.pair o = pair (fst j)
    /\ SpotPerpOpportunity.spot_exchange o = spot_exchange (snd j).
Proof.
  unfold SpotPerp.opportunity.
  destruct (SpotPerp.literal_eval_obj literal_eval _) as [lst|];
    simpl; [|discriminate].
  destruct (SpotPerp.sum_obj lst) as [total|] eqn:Et; simpl; [|discriminate].
  intros H. inversion H; subst. exists lst, total. simpl. auto 10.
Qed.

Lemma spot_perp_rows_from_opportunity
      (CONFIG : config) (literal_eval : string -> option pyobj)
      (perpetual_exchange : string) (perpetual_rates_df : perp_table)
      (spot_pairs_df : list spot_row) (out : list SpotPerpOpportunity.t) :
  SpotPerp.create_spot_perp_opportunites_df CONFIG literal_eval
    perpetual_exchange perpetual_rates_df spot_pairs_df = Ok out ->
  exists with_rate : list funding_row,
    SpotPerp.with_rate_column literal_eval perpetual_rates_df = Ok with_rate
    /\ Forall2
         (fun j o =>
            SpotPerp.opportunity CONFIG literal_eval perpetual_exchange j
            = Ok o)
         (SpotPerp.merge_on_spot_pair
            (filter (SpotPerp.above_threshold CONFIG) with_rate)
            spot_pairs_df)
         out.
Proof.
  unfold SpotPerp.create_spot_perp_opportunites_df.
  destruct (SpotPerp.with_rate_column literal_eval perpetual_rates_df)
    as [with_rate|]; simpl; [|discriminate].
  intros H. exists with_rate. split; [reflexivity|].
  now apply apply_series_Ok.
Qed.

Lemma filter_nothing (A : Type) (f : A -> bool) (l : list A) :
  (forall a, In a l -> f a = false) -> filter f l = [].
Proof.
  induction l as [|a l IH]; intros H; simpl; [reflexivity|].
  rewrite (H a (or_introl eq_refl)). apply IH. intros b Hb. apply H. now right.
Qed.

(** C8 as stated fails: in a frame that has the [rate] column, a row whose
    live rate is missing is not approximated.  Its series ends with [0.5],
    above the threshold [0.01], and the spot table lists its pair, yet the
    run returns no row; the same row with [0.5] as live rate is returned. *)
Lemma C8_per_row_approximation_refuted :
  map rate (rows perp_missing_rate) = [None]
  /\ map historical_rates (rows perp_missing_rate) = [PyStr "[0.5]"]
  /\ literal_eval_excerpt "[0.5]" = Some (PyList [1 # 2])
  /\ funding_rate_threshold (config_days 30) < Qabs (last [1 # 2] 0)
  /\ In {| spot_pair := "BTC/USDT"; spot_exchange := "binance/gate" |} spot_pairs
  /\ SpotPerp.create_spot_perp_opportunites_df (config_days 30)
       literal_eval_excerpt "binance" perp_missing_rate spot_pairs = Ok []
  /\ (exists o : SpotPerpOpportunity.t,
         SpotPerp.create_spot_perp_opportunites_df (config_days 30)
           literal_eval_excerpt "binance" perp_live_rate spot_pairs = Ok [o]
         /\ SpotPerpOpportunity.rate o = Some (1 # 2)).
Proof.
  split; [reflexivity|]. split; [reflexivity|]. split; [reflexivity|].
  split; [reflexivity|]. split; [now left|]. split; [reflexivity|].
  eexists. split; reflexivity.
Qed.

(** C8 (amended): the approximation is decided per frame, not per row.
    When the perpetual frame has no [rate] column, the rate of every row
    is set to the last element of its parsed historical series, or to
    zero when that series is empty or is not a list, and the threshold
    filter is applied to this approximated rate: a row passes exactly
    when its absolute value is above the threshold, and a frame in which
    no approximated rate passes yields the empty result.  When the frame
    has the [rate] column nothing is approximated: every returned row
    carries the live rate of a row of the frame, above the threshold in
    absolute value, and a frame whose live rates are all missing yields
    the empty result whatever its historical series are. *)
Theorem C8_rate_approximated_per_frame
        (CONFIG : config) (literal_eval : string -> option pyobj) :
  (forall (perpetual_rates_df : perp_table) (with_rate : list funding_row),
      has_rate perpetual_rates_df = false ->
      SpotPerp.with_rate_column literal_eval perpetual_rates_df = Ok with_rate ->
      Forall2
        (fun r r' =>
           pair r' = pair r
           /\ exists (lst : pyobj) (approximated : Q),
               SpotPerp.literal_eval_obj literal_eval
                 (SpotPerp.fillna_empty_list (historical_rates r)) = Ok lst
               /\ (forall l : list Q, lst = PyList l -> approximated = last l 0)
               /\ ((forall l : list Q, lst <> PyList l) -> approximated = 0)
               /\ rate r' = Some approximated
               /\ (SpotPerp.above_threshold CONFIG r' = true
                   <-> funding_rate_threshold CONFIG < Qabs approximated))
        (rows perpetual_rates_df) with_rate)
  /\ (forall (perpetual_exchange : string) (perpetual_rates_df : perp_table)
             (spot_pairs_df : list spot_row) (with_rate : list funding_row),
         has_rate perpetual_rates_df = false ->
         SpotPerp.with_rate_column literal_eval perpetual_rates_df
         = Ok with_rate ->
         (forall (r' : funding_row) (q : Q),
             In r' with_rate -> rate r' = Some q ->
             ~ funding_rate_threshold CONFIG < Qabs q) ->
         SpotPerp.create_spot_perp_opportunites_df CONFIG literal_eval
           perpetual_exchange perpetual_rates_df spot_pairs_df = Ok [])
  /\ (forall perpetual_rates_df : perp_table,
         has_rate perpetual_rates_df = true ->
         SpotPerp.with_rate_column literal_eval perpetual_rates_df
         = Ok (rows perpetual_rates_df))
  /\ (forall (perpetual_exchange : string) (perpetual_rates_df : perp_table)
             (spot_pairs_df : list spot_row)
             (out : list SpotPerpOpportunity.t),
         has_rate perpetual_rates_df = true ->
         SpotPerp.create_spot_perp_opportunites_df CONFIG literal_eval
           perpetual_exchange perpetual_rates_df spot_pairs_df = Ok out ->
         Forall
           (fun o => exists (r : funding_row) (q : Q),
                In r (rows perpetual_rates_df)
                /\ pair r = SpotPerpOpportunity.pair o
                /\ rate r = Some q
                /\ SpotPerpOpportunity.rate o = Some q
                /\ funding_rate_threshold CONFIG < Qabs q)
           out)
  /\ (forall (perpetual_exchange : string) (perpetual_rates_df : perp_table)
             (spot_pairs_df : list spot_row),
         has_rate perpetual_rates_df = true ->
         (forall r : funding_row,
             In r (rows perpetual_rates_df) -> rate r = None) ->
         SpotPerp.create_spot_perp_opportunites_df CONFIG literal_eval
           perpetual_exchange perpetual_rates_df spot_pairs_df = Ok []).
Proof.
  split; [|split; [|split; [|split]]].
  - intros df with_rate Hrate Hwith.
    unfold SpotPerp.with_rate_column in Hwith. rewrite Hrate in Hwith.
    apply apply_series_Ok in Hwith.
    eapply Forall2_impl; [|exact Hwith].
    intros r r' Hr. simpl in Hr.
    apply approximate_rate_spec in Hr.
    destruct Hr as (lst & Hparse & _ & Hq & Hp).
    split; [exact Hp|].
    exists lst, (SpotPerp.last_or_zero lst).
    split; [exact Hparse|]. split; [|split; [|split]].
    + intros l ->. reflexivity.
    + intros Hnot. destruct lst as [l| | | |]; try reflexivity.
      exfalso. now apply (Hnot l).
    + exact Hq.
    + rewrite above_threshold_spec. split.
      * intros [q [Hq' Hlt]]. rewrite Hq in Hq'. now injection Hq' as <-.
      * intros Hlt. eauto.
  - intros pe df spot with_rate Hrate Hwith Hbelow.
    unfold SpotPerp.create_spot_perp_opportunites_df.
    rewrite Hwith. cbn [bind].
    rewrite filter_nothing; [reflexivity|].
    intros r' Hin.
    destruct (SpotPerp.above_threshold CONFIG r') eqn:Ea; [|reflexivity].
    exfalso. apply above_threshold_spec in Ea.
    destruct Ea as [q [Hq Hlt]]. exact (Hbelow r' q Hin Hq Hlt).
  - intros df Hrate. unfold SpotPerp.with_rate_column. now rewrite Hrate.
  - intros pe df spot out Hrate Hout.
    apply spot_perp_rows_from_opportunity in Hout.
    destruct Hout as (with_rate & Hwith & Hout).
    unfold SpotPerp.with_rate_column in Hwith. rewrite Hrate in Hwith.
    injection Hwith as <-.
    eapply Forall2_transfer
      with (Q := fun j => In (fst j)
                            (filter (SpotPerp.above_threshold CONFIG) (rows df)));
      [exact Hout| |].
    + intros j Hj. now apply merge_on_spot_pair_left in Hj.
    + intros [r s] o Hin Ho. simpl in Hin.
      apply filter_In in Hin. destruct Hin as [Hin Habove].
      apply above_threshold_spec in Habove. destruct Habove as [q [Hq Hlt]].
      pose proof (opportunity_rate _ _ _ _ Ho) as Hrate_o.
      apply spot_perp_opportunity_fields in Ho.
      destruct Ho as (_ & _ & _ & _ & _ & _ & _ & Hp & _).
      simpl in Hrate_o, Hp.
      exists r, q. repeat split; auto; congruence.
  - intros pe df spot Hrate Hnone.
    unfold SpotPerp.create_spot_perp_opportunites_df, SpotPerp.with_rate_column.
    rewrite Hrate. cbn [bind].
    rewrite filter_nothing; [reflexivity|].
    intros r Hin. unfold SpotPerp.above_threshold. now rewrite (Hnone r Hin).
Qed.

Lemma C8_witness :
  has_rate perp_without_rates = false
  /\ (exists r' : funding_row,
         SpotPerp.with_rate_column literal_eval_excerpt perp_without_rates
         = Ok [r']
         /\ rate r' = Some (1 # 2)
         /\ SpotPerp.above_threshold (config_days 30) r' = true)
  /\ Forall2
       (fun r r' =>
          pair r' = pair r
          /\ exists (lst : pyobj) (approximated : Q),
              SpotPerp.literal_eval_obj literal_eval_excerpt
                (SpotPerp.fillna_empty_list (historical_rates r)) = Ok lst
              /\ (forall l : list Q, lst = PyList l -> approximated = last l 0)
              /\ ((forall l : list Q, lst <> PyList l) -> approximated = 0)
              /\ rate r' = Some approximated
              /\ (SpotPerp.above_threshold (config_days 30) r' = true
                  <-> funding_rate_threshold (config_days 30)
                      < Qabs approximated))
       (rows perp_without_rates)
       [snapshot "BTC/USDT:USDT" (Some (1 # 2)) (PyList [1 # 2]) PyNaN PyNaN]
  /\ has_rate perp_missing_rate = true
  /\ SpotPerp.create_spot_perp_opportunites_df (config_days 30)
       literal_eval_excerpt "binance" perp_missing_rate spot_pairs = Ok [].
Proof.
  destruct (C8_rate_approximated_per_frame (config_days 30)
              literal_eval_excerpt) as (Happrox & _ & _ & _ & Hdropped).
  split; [reflexivity|]. split; [|split; [|split; [reflexivity|]]].
  - eexists. split; [reflexivity|]. split; reflexivity.
  - apply Happrox; reflexivity.
  - apply Hdropped; [reflexivity|].
    intros r [<-|[]]. reflexivity.
Defined.

(** * Further properties of the engine *)

(** ** Perp-perp: the join and missing values *)

Lemma flat_map_length (A B : Type) (f : A -> list B) (l : list A) :
  List.length (flat_map f l) = list_sum (map (fun a => List.length (f a)) l).
Proof.
  induction l as [|a l IH]; simpl; [reflexivity|].
  now rewrite length_app, IH.
Qed.

(** X1: the perp-perp result has a row for a pair exactly when both frames
    list that pair, and it has one row per combination of a row of the
    first frame with a row of the second frame on the same pair (a pair
    listed twice in a frame is multiplied). *)
Theorem perp_perp_rows_are_the_common_pairs
        (CONFIG : config) (literal_eval : string -> option pyobj)
        (exchange_1 exchange_2 : string) (df_1 df_2 : perp_table) :
  (forall p : string,
      In p (map PerpPerpOpportunity.pair
              (PerpPerp.create_perp_perp_opportunities_df CONFIG literal_eval
                 exchange_1 exchange_2 df_1 df_2))
      <-> exists x y : funding_row,
          In x (rows df_1) /\ In y (rows df_2) /\ pair x = p /\ pair y = p)
  /\ List.length
       (PerpPerp.create_perp_perp_opportunities_df CONFIG literal_eval
          exchange_1 exchange_2 df_1 df_2)
     = list_sum
         (map (fun x =>
                 List.length
                   (filter (fun y => (pair x =? pair y)%string) (rows df_2)))
              (rows df_1)).
Proof.
  unfold PerpPerp.create_perp_perp_opportunities_df, PerpPerp.joined.
  split.
  - intros p. rewrite map_map. rewrite in_map_iff. split.
    + intros [[x y] [Hp Hin]]. simpl in Hp.
      apply merge_on_pair_spec in Hin. destruct Hin as [Hx [Hy Hk]].
      exists x, y. repeat split; auto. congruence.
    + intros [x [y [Hx [Hy [Hpx Hpy]]]]]. exists (x, y). split; [exact Hpx|].
      apply merge_on_pair_spec. repeat split; auto. congruence.
  - rewrite length_map. unfold merge_on_pair. rewrite flat_map_length.
    f_equal. apply map_ext. intros x. now rewrite length_map.
Qed.

(** X2: in live-rate mode a row whose live rate is missing on either side
    keeps the default labels (first venue short, second venue long), and
    between two different venues its [rate_diff] is missing. *)
Theorem live_mode_missing_rate_keeps_default
        (CONFIG : config) (literal_eval : string -> option pyobj)
        (exchange_1 exchange_2 : string) (df_1 df_2 : perp_table) :
  has_rate df_1 = true -> has_rate df_2 = true ->
  Forall2
    (fun j o =>
       rate (fst j) = None \/ rate (snd j) = None ->
       PerpPerpOpportunity.short_exchange o = exchange_1
       /\ PerpPerpOpportunity.long_exchange o = exchange_2
       /\ (exchange_1 <> exchange_2 ->
           PerpPerp.rate_diff literal_eval exchange_1 exchange_2 df_1 df_2
             (fst j) (snd j) = None))
    (PerpPerp.joined df_1 df_2)
    (PerpPerp.create_perp_perp_opportunities_df CONFIG literal_eval
       exchange_1 exchange_2 df_1 df_2).
Proof.
  intros H1 H2. unfold PerpPerp.create_perp_perp_opportunities_df.
  apply Forall2_map_right. intros [x y] _ Hmiss. simpl in *.
  assert (Hlt : nan_lt (rate x) (rate y) = false).
  { destruct Hmiss as [-> | ->]; [reflexivity|].
    destruct (rate x); reflexivity. }
  assert (Hs : PerpPerp.short_exchange literal_eval exchange_1 exchange_2
                 df_1 df_2 x y = exchange_1).
  { unfold PerpPerp.short_exchange, PerpPerp.has_current, PerpPerp.rate_x,
      PerpPerp.rate_y. now rewrite H1, H2, Hlt. }
  assert (Hl : PerpPerp.long_exchange literal_eval exchange_1 exchange_2
                 df_1 df_2 x y = exchange_2).
  { unfold PerpPerp.long_exchange, PerpPerp.has_current, PerpPerp.rate_x,
      PerpPerp.rate_y. now rewrite H1, H2, Hlt. }
  split; [exact Hs|]. split; [exact Hl|]. intros Hne.
  unfold PerpPerp.rate_diff, PerpPerp.short_rate, PerpPerp.long_rate,
    PerpPerp.rate_x, PerpPerp.rate_y.
  rewrite Hs, Hl, String.eqb_refl.
  replace (exchange_2 =? exchange_1)%string with false
    by (symmetry; apply String.eqb_neq; congruence).
  destruct Hmiss as [-> | ->]; [reflexivity|].
  destruct (rate x); reflexivity.
Qed.

Lemma live_mode_missing_rate_keeps_default_witness :
  has_rate (frame true false [eth_a]) = true
  /\ has_rate (frame true false [btc_b; eth_b]) = true
  /\ rate eth_a = None
  /\ Forall2
       (fun j o =>
          rate (fst j) = None \/ rate (snd j) = None ->
          PerpPerpOpportunity.short_exchange o = "A"
          /\ PerpPerpOpportunity.long_exchange o = "B"
          /\ ("A" <> "B" ->
              PerpPerp.rate_diff literal_eval_excerpt "A" "B"
                (frame true false [eth_a]) (frame true false [btc_b; eth_b])
                (fst j) (snd j) = None))
       (PerpPerp.joined (frame true false [eth_a])
                        (frame true false [btc_b; eth_b]))
       (PerpPerp.create_perp_perp_opportunities_df (config_days 30)
          literal_eval_excerpt "A" "B"
          (frame true false [eth_a]) (frame true false [btc_b; eth_b])).
Proof.
  split; [reflexivity|]. split; [reflexivity|]. split; [reflexivity|].
  apply (live_mode_missing_rate_keeps_default (config_days 30)
           literal_eval_excerpt "A" "B"
           (frame true false [eth_a]) (frame true false [btc_b; eth_b]));
    reflexivity.
Defined.

(** X3: when the day count of either venue is missing, neither override of
    the amplitude reconciliation applies: the emitted mean and max are the
    row maxima over the values that are present, and the emitted
    [amplitude_days] is the first venue's, so it is missing whenever the
    first venue's is, even if the second venue has one. *)
Theorem amplitude_with_missing_day_count
        (CONFIG : config) (literal_eval : string -> option pyobj)
        (exchange_1 exchange_2 : string) (df_1 df_2 : perp_table) :
  Forall2
    (fun j o =>
       amplitude_days (fst j) = None \/ amplitude_days (snd j) = None ->
       PerpPerpOpportunity.mean_daily_amplitude o
       = nan_max (mean_daily_amplitude (fst j)) (mean_daily_amplitude (snd j))
       /\ PerpPerpOpportunity.max_daily_amplitude o
          = nan_max (max_daily_amplitude (fst j)) (max_daily_amplitude (snd j))
       /\ PerpPerpOpportunity.amplitude_days o = amplitude_days (fst j)
       /\ (amplitude_days (fst j) = None ->
           PerpPerpOpportunity.amplitude_days o = None))
    (PerpPerp.joined df_1 df_2)
    (PerpPerp.create_perp_perp_opportunities_df CONFIG literal_eval
       exchange_1 exchange_2 df_1 df_2).
Proof.
  unfold PerpPerp.create_perp_perp_opportunities_df.
  apply Forall2_map_right. intros [x y] _ Hmiss.
  cbn [fst snd PerpPerp.opportunity
         PerpPerpOpportunity.mean_daily_amplitude
         PerpPerpOpportunity.max_daily_amplitude
         PerpPerpOpportunity.amplitude_days] in *.
  unfold PerpPerp.mean_daily_amplitude, PerpPerp.max_daily_amplitude,
    PerpPerp.amplitude_days, PerpPerp.condition_1, PerpPerp.condition_2,
    PerpPerp.amplitude_days_x, PerpPerp.amplitude_days_y,
    PerpPerp.mean_daily_amplitude_x, PerpPerp.mean_daily_amplitude_y,
    PerpPerp.max_daily_amplitude_x, PerpPerp.max_daily_amplitude_y.
  cbv zeta.
  assert (H1 : nan_gtZ (amplitude_days x) (amplitude_days y) = false)
    by (destruct Hmiss as [-> | ->];
        [reflexivity|destruct (amplitude_days x); reflexivity]).
  assert (H2 : nan_gtZ (amplitude_days y) (amplitude_days x) = false)
    by (destruct Hmiss as [-> | ->];
        [destruct (amplitude_days y); reflexivity|reflexivity]).
  rewrite H1, H2. repeat split. intros H. exact H.
Qed.

Lemma amplitude_with_missing_day_count_witness :
  amplitude_days ada_a = None
  /\ Forall2
       (fun j o =>
          amplitude_days (fst j) = None \/ amplitude_days (snd j) = None ->
          PerpPerpOpportunity.mean_daily_amplitude o
          = nan_max (mean_daily_amplitude (fst j))
                    (mean_daily_amplitude (snd j))
          /\ PerpPerpOpportunity.max_daily_amplitude o
             = nan_max (max_daily_amplitude (fst j))
                       (max_daily_amplitude (snd j))
          /\ PerpPerpOpportunity.amplitude_days o = amplitude_days (fst j)
          /\ (amplitude_days (fst j) = None ->
              PerpPerpOpportunity.amplitude_days o = None))
       (PerpPerp.joined (frame true true [ada_a]) (frame true true [ada_b]))
       (PerpPerp.create_perp_perp_opportunities_df (config_days 30)
          literal_eval_excerpt "A" "B"
          (frame true true [ada_a]) (frame true true [ada_b]))
  /\ map PerpPerpOpportunity.amplitude_days
       (PerpPerp.create_perp_perp_opportunities_df (config_days 30)
          literal_eval_excerpt "A" "B"
          (frame true true [ada_a]) (frame true true [ada_b])) = [None]
  /\ map PerpPerpOpportunity.mean_daily_amplitude
       (PerpPerp.create_perp_perp_opportunities_df (config_days 30)
          literal_eval_excerpt "A" "B"
          (frame true true [ada_a]) (frame true true [ada_b]))
     = [Some (35 # 10)].
Proof.
  split; [reflexivity|]. split; [|split; reflexivity].
  apply (amplitude_with_missing_day_count (config_days 30)
           literal_eval_excerpt "A" "B"
           (frame true true [ada_a]) (frame true true [ada_b])).
Defined.

(** X4: the 7-day (resp. 3-day) series are read only when both frames have
    the column.  If either frame lacks it, both sides' series of that
    window are emitted empty on every row, also for the frame that has the
    column, and the window's cumulative rates and differential are zero. *)
Theorem window_column_missing_on_one_side
        (CONFIG : config) (literal_eval : string -> option pyobj)
        (exchange_1 exchange_2 : string) (df_1 df_2 : perp_table) :
  (has_7d df_1 = false \/ has_7d df_2 = false ->
   Forall
     (fun o =>
        PerpPerpOpportunity.short_historical_rates_7d o = []
        /\ PerpPerpOpportunity.long_historical_rates_7d o = []
        /\ PerpPerpOpportunity.short_cumulative_rate_7d o = 0
        /\ PerpPerpOpportunity.long_cumulative_rate_7d o = 0
        /\ PerpPerpOpportunity.cumulative_rate_diff_7d o == 0)
     (PerpPerp.create_perp_perp_opportunities_df CONFIG literal_eval
        exchange_1 exchange_2 df_1 df_2))
  /\ (has_3d df_1 = false \/ has_3d df_2 = false ->
      Forall
        (fun o =>
           PerpPerpOpportunity.short_historical_rates_3d o = []
           /\ PerpPerpOpportunity.long_historical_rates_3d o = []
           /\ PerpPerpOpportunity.short_cumulative_rate_3d o = 0
           /\ PerpPerpOpportunity.long_cumulative_rate_3d o = 0
           /\ PerpPerpOpportunity.cumulative_rate_diff_3d o == 0)
        (PerpPerp.create_perp_perp_opportunities_df CONFIG literal_eval
           exchange_1 exchange_2 df_1 df_2)).
Proof.
  unfold PerpPerp.create_perp_perp_opportunities_df.
  split; intros Hmiss; apply Forall_forall; intros o Ho;
    apply in_map_iff in Ho; destruct Ho as [[x y] [<- _]];
    cbn [fst snd PerpPerp.opportunity
           PerpPerpOpportunity.short_historical_rates_7d
           PerpPerpOpportunity.long_historical_rates_7d
           PerpPerpOpportunity.short_cumulative_rate_7d
           PerpPerpOpportunity.long_cumulative_rate_7d
           PerpPerpOpportunity.cumulative_rate_diff_7d
           PerpPerpOpportunity.short_historical_rates_3d
           PerpPerpOpportunity.long_historical_rates_3d
           PerpPerpOpportunity.short_cumulative_rate_3d
           PerpPerpOpportunity.long_cumulative_rate_3d
           PerpPerpOpportunity.cumulative_rate_diff_3d].
  - assert (Hno : PerpPerp.has_7d_xy df_1 df_2 = false).
    { unfold PerpPerp.has_7d_xy. destruct Hmiss as [-> | ->];
        [reflexivity|apply andb_false_r]. }
    assert (Hs : PerpPerp.short_historical_rates_7d literal_eval
                   exchange_1 exchange_2 df_1 df_2 x y = []).
    { unfold PerpPerp.short_historical_rates_7d,
        PerpPerp.historical_rates_7d_x, PerpPerp.historical_rates_7d_y.
      rewrite Hno. now destruct (_ =? _)%string. }
    assert (Hl : PerpPerp.long_historical_rates_7d literal_eval
                   exchange_1 exchange_2 df_1 df_2 x y = []).
    { unfold PerpPerp.long_historical_rates_7d,
        PerpPerp.historical_rates_7d_x, PerpPerp.historical_rates_7d_y.
      rewrite Hno. now destruct (_ =? _)%string. }
    unfold PerpPerp.cumulative_rate_diff_columns.
    rewrite col_get_set_other by discriminate. rewrite col_get_set_same.
    unfold PerpPerp.short_cumulative_rate_7d, PerpPerp.long_cumulative_rate_7d.
    rewrite Hs, Hl. repeat split; reflexivity.
  - assert (Hno : PerpPerp.has_3d_xy df_1 df_2 = false).
    { unfold PerpPerp.has_3d_xy. destruct Hmiss as [-> | ->];
        [reflexivity|apply andb_false_r]. }
    assert (Hs : PerpPerp.short_historical_rates_3d literal_eval
                   exchange_1 exchange_2 df_1 df_2 x y = []).
    { unfold PerpPerp.short_historical_rates_3d,
        PerpPerp.historical_rates_3d_x, PerpPerp.historical_rates_3d_y.
      rewrite Hno. now destruct (_ =? _)%string. }
    assert (Hl : PerpPerp.long_historical_rates_3d literal_eval
                   exchange_1 exchange_2 df_1 df_2 x y = []).
    { unfold PerpPerp.long_historical_rates_3d,
        PerpPerp.historical_rates_3d_x, PerpPerp.historical_rates_3d_y.
      rewrite Hno. now destruct (_ =? _)%string. }
    unfold PerpPerp.cumulative_rate_diff_columns.
    rewrite col_get_set_same.
    unfold PerpPerp.short_cumulative_rate_3d, PerpPerp.long_cumulative_rate_3d.
    rewrite Hs, Hl. repeat split; reflexivity.
Qed.

Lemma window_column_missing_on_one_side_witness :
  has_7d (frame true false [ada_b]) = false
  /\ historical_rates_7d ada_a = PyStr "[0.05]"
  /\ Forall
       (fun o =>
          PerpPerpOpportunity.short_historical_rates_7d o = []
          /\ PerpPerpOpportunity.long_historical_rates_7d o = []
          /\ PerpPerpOpportunity.short_cumulative_rate_7d o = 0
          /\ PerpPerpOpportunity.long_cumulative_rate_7d o = 0
          /\ PerpPerpOpportunity.cumulative_rate_diff_7d o == 0)
       (PerpPerp.create_perp_perp_opportunities_df (config_days 30)
          literal_eval_excerpt "A" "B"
          (frame true true [ada_a]) (frame true false [ada_b]))
  /\ List.length
       (PerpPerp.create_perp_perp_opportunities_df (config_days 30)
          literal_eval_excerpt "A" "B"
          (frame true true [ada_a]) (frame true false [ada_b])) = 1%nat.
Proof.
  split; [reflexivity|]. split; [reflexivity|]. split; [|reflexivity].
  apply (proj1 (window_column_missing_on_one_side (config_days 30)
                  literal_eval_excerpt "A" "B"
                  (frame true true [ada_a]) (frame true false [ada_b]))).
  right. reflexivity.
Defined.

(** X5: in fallback mode, between two different venues, the short side is
    the one with the larger main-window sum: on every row the emitted
    [short_cumulative_rate] is at least the emitted [long_cumulative_rate],
    whatever the configured number of days, and the two are the two
    venues' sums. *)
Theorem fallback_short_side_has_larger_sum
        (CONFIG : config) (literal_eval : string -> option pyobj)
        (exchange_1 exchange_2 : string) (df_1 df_2 : perp_table) :
  exchange_1 <> exchange_2 ->
  has_rate df_1 = false \/ has_rate df_2 = false ->
  Forall2
    (fun j o =>
       let sum_a := py_sum (PerpPerp.coerce_to_list literal_eval
                              (historical_rates (fst j))) in
       let sum_b := py_sum (PerpPerp.coerce_to_list literal_eval
                              (historical_rates (snd j))) in
       PerpPerpOpportunity.long_cumulative_rate o
       <= PerpPerpOpportunity.short_cumulative_rate o
       /\ ((PerpPerpOpportunity.short_cumulative_rate o = sum_a
            /\ PerpPerpOpportunity.long_cumulative_rate o = sum_b)
           \/ (PerpPerpOpportunity.short_cumulative_rate o = sum_b
               /\ PerpPerpOpportunity.long_cumulative_rate o = sum_a)))
    (PerpPerp.joined df_1 df_2)
    (PerpPerp.create_perp_perp_opportunities_df CONFIG literal_eval
       exchange_1 exchange_2 df_1 df_2).
Proof.
  intros Hne Hmiss. unfold PerpPerp.create_perp_perp_opportunities_df.
  apply Forall2_map_right. intros [x y] _.
  cbn [fst snd PerpPerp.opportunity
         PerpPerpOpportunity.short_cumulative_rate
         PerpPerpOpportunity.long_cumulative_rate].
  cbv zeta.
  assert (Hc : PerpPerp.has_current df_1 df_2 = false).
  { unfold PerpPerp.has_current. destruct Hmiss as [-> | ->];
      [reflexivity|apply andb_false_r]. }
  assert (Hneb : (exchange_2 =? exchange_1)%string = false)
    by (apply String.eqb_neq; congruence).
  destruct (fallback_mode_labels literal_eval exchange_1 exchange_2
              df_1 df_2 x y Hc) as [Hpos Hneg].
  unfold PerpPerp.short_cumulative_rate, PerpPerp.long_cumulative_rate,
    PerpPerp.short_historical_rates, PerpPerp.long_historical_rates.
  set (sum_a := py_sum (PerpPerp.coerce_to_list literal_eval (historical_rates x))).
  set (sum_b := py_sum (PerpPerp.coerce_to_list literal_eval (historical_rates y))).
  change (PerpPerp.cumulative_rate_diff literal_eval x y)
    with (sum_a - sum_b) in Hpos, Hneg.
  destruct (Qlt_le_dec 0 (sum_a - sum_b)) as [Hd|Hd].
  - destruct (Hpos Hd) as [-> ->]. rewrite Hneb, String.eqb_refl.
    change (py_sum (PerpPerp.historical_rates_x literal_eval x)) with sum_a.
    change (py_sum (PerpPerp.historical_rates_y literal_eval y)) with sum_b.
    split; [lra|]. left. split; reflexivity.
  - destruct (Hneg Hd) as [-> ->]. rewrite Hneb, String.eqb_refl.
    change (py_sum (PerpPerp.historical_rates_x literal_eval x)) with sum_a.
    change (py_sum (PerpPerp.historical_rates_y literal_eval y)) with sum_b.
    split; [lra|]. right. split; reflexivity.
Qed.

Lemma fallback_short_side_has_larger_sum_witness :
  "A" <> "B"
  /\ has_rate (frame false false [sol_b]) = false
  /\ Forall2
       (fun j o =>
          let sum_a := py_sum (PerpPerp.coerce_to_list literal_eval_excerpt
                                 (historical_rates (fst j))) in
          let sum_b := py_sum (PerpPerp.coerce_to_list literal_eval_excerpt
                                 (historical_rates (snd j))) in
          PerpPerpOpportunity.long_cumulative_rate o
          <= PerpPerpOpportunity.short_cumulative_rate o
          /\ ((PerpPerpOpportunity.short_cumulative_rate o = sum_a
               /\ PerpPerpOpportunity.long_cumulative_rate o = sum_b)
              \/ (PerpPerpOpportunity.short_cumulative_rate o = sum_b
                  /\ PerpPerpOpportunity.long_cumulative_rate o = sum_a)))
       (PerpPerp.joined (frame false false [sol_b]) (frame false false [sol_a]))
       (PerpPerp.create_perp_perp_opportunities_df (config_days 7)
          literal_eval_excerpt "A" "B"
          (frame false false [sol_b]) (frame false false [sol_a])).
Proof.
  split; [discriminate|]. split; [reflexivity|].
  apply (fallback_short_side_has_larger_sum (config_days 7)
           literal_eval_excerpt (exchange_1 := "A") (exchange_2 := "B")
           (frame false false [sol_b]) (frame false false [sol_a]));
    [discriminate|left; reflexivity].
Defined.

(** ** Spot-perp: windowed sum, yield and keys *)

(** How [values[-hours:]] cuts a list: the last [hours] points for a
    positive [hours], the whole list for zero, and the list without its
    first [-hours] points for a negative one. *)
Lemma slice_from_neg_spec (values : list Q) (hours : Z) :
  ((0 < hours)%Z ->
   slice_from_neg values hours
   = skipn (List.length values - Z.to_nat hours) values)
  /\ (hours = 0%Z -> slice_from_neg values hours = values)
  /\ ((hours < 0)%Z ->
      slice_from_neg values hours = skipn (Z.to_nat (- hours)) values).
Proof.
  unfold slice_from_neg. split; [|split]; intros H.
  - replace (- hours <? 0)%Z with true by (symmetry; apply Z.ltb_lt; lia).
    f_equal. lia.
  - subst hours. cbn [Z.opp Z.ltb Z.compare]. rewrite Z.min_l by lia.
    reflexivity.
  - replace (- hours <? 0)%Z with false by (symmetry; apply Z.ltb_ge; lia).
    destruct (Z.le_gt_cases (- hours) (Z.of_nat (List.length values)))
      as [Hle|Hgt].
    + f_equal. lia.
    + rewrite Z.min_r by lia. rewrite Nat2Z.id.
      rewrite skipn_all. symmetry. apply skipn_all2. lia.
Qed.

(** X6: on every row a spot-perp run returns with a list as historical
    series, [cum_sum_<d>d] is the sum of the last [24 * d] points and the
    yield is [365 * sum(series) / d] rounded to 2 decimals; when the
    series has at most [24 * d] points the windowed sum is the sum of the
    whole series, so the yield is [round(365 * cum_sum / d, 2)]; with
    [d = 0] the windowed sum is again the sum of the whole series (not
    zero) and the yield is not a finite number. *)
Theorem spot_perp_windowed_sum_and_yield
        (CONFIG : config) (literal_eval : string -> option pyobj)
        (perpetual_exchange : string) (perpetual_rates_df : perp_table)
        (spot_pairs_df : list spot_row) (out : list SpotPerpOpportunity.t) :
  SpotPerp.create_spot_perp_opportunites_df CONFIG literal_eval
    perpetual_exchange perpetual_rates_df spot_pairs_df = Ok out ->
  Forall
    (fun o =>
       forall l : list Q,
         SpotPerpOpportunity.historical_rates o = PyList l ->
         let days := funding_historical_days CONFIG in
         SpotPerpOpportunity.APY_historical_average o
         = option_map round2 (series_div (365 * py_sum l) days)
         /\ ((0 < days)%Z ->
             SpotPerpOpportunity.cum_sum_main o
             = py_sum (skipn (List.length l - Z.to_nat (days * 24)) l))
         /\ ((0 < days)%Z ->
             (Z.of_nat (List.length l) <= days * 24)%Z ->
             SpotPerpOpportunity.cum_sum_main o = py_sum l
             /\ SpotPerpOpportunity.APY_historical_average o
                = Some (round2 (365 * SpotPerpOpportunity.cum_sum_main o
                                / inject_Z days)))
         /\ (days = 0%Z ->
             SpotPerpOpportunity.cum_sum_main o = py_sum l
             /\ SpotPerpOpportunity.APY_historical_average o = None))
    out.
Proof.
  intros Hrun. apply spot_perp_rows_from_opportunity in Hrun.
  destruct Hrun as [with_rate [_ Hrows]].
  eapply Forall2_transfer with (Q := fun _ => True); [exact Hrows|auto|].
  intros j o _ Ho l Hl days.
  apply spot_perp_opportunity_fields in Ho.
  destruct Ho as (lst & total & _ & Hsum & Hh & Hapy & Hcum & _).
  subst lst. rewrite Hl in Hsum, Hcum. simpl in Hsum.
  injection Hsum as Htotal. subst total.
  rewrite Hapy, Hcum. simpl. fold days.
  destruct (slice_from_neg_spec l (days * 24)) as (Hpos & Hzero & _).
  split; [reflexivity|]. split; [|split].
  - intros Hd. rewrite Hpos by lia. reflexivity.
  - intros Hd Hlen. rewrite Hpos by lia.
    replace (List.length l - Z.to_nat (days * 24))%nat with 0%nat by lia.
    simpl. split; [reflexivity|].
    unfold series_div.
    replace (days =? 0)%Z with false by (symmetry; apply Z.eqb_neq; lia).
    reflexivity.
  - intros Hd. rewrite Hd in *. rewrite Hzero by reflexivity.
    split; reflexivity.
Qed.

Lemma spot_perp_windowed_sum_and_yield_witness :
  exists out : list SpotPerpOpportunity.t,
    SpotPerp.create_spot_perp_opportunites_df (config_days 30)
      literal_eval_excerpt "binance" perp_with_rates spot_pairs = Ok out
    /\ map SpotPerpOpportunity.historical_rates out
       = [PyList [5 # 100]; PyList [- (2 # 100); - (1 # 2)]]
    /\ Forall
         (fun o =>
            forall l : list Q,
              SpotPerpOpportunity.historical_rates o = PyList l ->
              let days := funding_historical_days (config_days 30) in
              SpotPerpOpportunity.APY_historical_average o
              = option_map round2 (series_div (365 * py_sum l) days)
              /\ ((0 < days)%Z ->
                  SpotPerpOpportunity.cum_sum_main o
                  = py_sum (skipn (List.length l - Z.to_nat (days * 24)) l))
              /\ ((0 < days)%Z ->
                  (Z.of_nat (List.length l) <= days * 24)%Z ->
                  SpotPerpOpportunity.cum_sum_main o = py_sum l
                  /\ SpotPerpOpportunity.APY_historical_average o
                     = Some (round2 (365 * SpotPerpOpportunity.cum_sum_main o
                                     / inject_Z days)))
              /\ (days = 0%Z ->
                  SpotPerpOpportunity.cum_sum_main o = py_sum l
                  /\ SpotPerpOpportunity.APY_historical_average o = None))
         out.
Proof.
  eexists. split; [vm_compute; reflexivity|]. split; [reflexivity|].
  apply (@spot_perp_windowed_sum_and_yield (config_days 30)
           literal_eval_excerpt "binance" perp_with_rates spot_pairs).
  vm_compute. reflexivity.
Defined.

Lemma strip_zeros_unfold (c : ascii) (s : string) :
  strip_zeros (String c s)
  = if (c =? "0")%char then strip_zeros s else String c s.
Proof. destruct c as [[] [] [] [] [] [] [] []]; reflexivity. Qed.

Lemma remove_leading_numbers_unfold (c d : ascii) (s : string) :
  remove_leading_numbers (String c (String d s))
  = if ((c =? "1")%char && (d =? "0")%char)%bool
    then strip_zeros s else String c (String d s).
Proof.
  destruct c as [[] [] [] [] [] [] [] []]; try reflexivity.
  destruct d as [[] [] [] [] [] [] [] []]; reflexivity.
Qed.

Lemma has_multiplier_unfold (c d : ascii) (s : string) :
  has_multiplier (String c (String d s))
  = ((c =? "1")%char && (d =? "0")%char)%bool.
Proof.
  destruct c as [[] [] [] [] [] [] [] []]; try reflexivity.
  destruct d as [[] [] [] [] [] [] [] []]; reflexivity.
Qed.

Lemma has_multiplier_single (c : ascii) : has_multiplier (String c "") = false.
Proof. destruct c as [[] [] [] [] [] [] [] []]; reflexivity. Qed.

Lemma before_colon_strip_zeros (s : string) :
  SpotPerp.before_colon (strip_zeros s) = strip_zeros (SpotPerp.before_colon s).
Proof.
  induction s as [|c s IH]; [reflexivity|].
  rewrite strip_zeros_unfold.
  destruct (Ascii.eqb_spec c "0") as [->|Hc].
  - simpl. exact IH.
  - simpl. destruct (c =? ":")%char; [reflexivity|].
    rewrite strip_zeros_unfold.
    now replace (c =? "0")%char with false
      by (symmetry; now apply Ascii.eqb_neq).
Qed.

(** X7: the spot key of a perpetual symbol is the text before its first
    colon: [BASE:QUOTE] gives [BASE], a symbol without a colon is its own
    key, and a key never contains a colon. *)
Theorem before_colon_is_the_text_before_the_first_colon :
  (forall base quote : string,
      ~ In ":"%char (list_ascii_of_string base) ->
      SpotPerp.before_colon (base ++ String ":" quote) = base)
  /\ (forall s : string,
         ~ In ":"%char (list_ascii_of_string s) -> SpotPerp.before_colon s = s)
  /\ (forall s : string,
         ~ In ":"%char (list_ascii_of_string (SpotPerp.before_colon s))).
Proof.
  split; [|split].
  - intros base quote. induction base as [|c base IH]; intros Hno.
    + reflexivity.
    + simpl in *. destruct (Ascii.eqb_spec c ":") as [->|Hc].
      * exfalso. apply Hno. now left.
      * f_equal. apply IH. intros H. apply Hno. now right.
  - intros s. induction s as [|c s IH]; intros Hno; [reflexivity|].
    simpl in *. destruct (Ascii.eqb_spec c ":") as [->|Hc].
    + exfalso. apply Hno. now left.
    + f_equal. apply IH. intros H. apply Hno. now right.
  - intros s. induction s as [|c s IH]; simpl; [tauto|].
    destruct (Ascii.eqb_spec c ":") as [->|Hc]; simpl; [tauto|].
    intros [H|H]; [congruence|contradiction].
Qed.

Lemma before_colon_is_the_text_before_the_first_colon_witness :
  SpotPerp.before_colon ("BTC/USDT" ++ String ":" "USDT") = "BTC/USDT"
  /\ SpotPerp.before_colon "BTCUSDT" = "BTCUSDT".
Proof.
  destruct before_colon_is_the_text_before_the_first_colon as [Hsplit [Hkeep _]].
  split.
  - apply Hsplit. simpl. intros H.
    repeat (destruct H as [H|H]; [discriminate H|]). exact H.
  - apply Hkeep. simpl. intros H.
    repeat (destruct H as [H|H]; [discriminate H|]). exact H.
Defined.

(** X8: normalising a perpetual symbol and taking its spot key commute,
    so the key of a loaded (normalised) symbol is the normalised key of
    the original one; hence a spot pair that itself starts with a
    multiplier ([10], [100], ...) is the key of a loaded symbol only if
    that symbol still starts with a multiplier after normalisation. *)
Theorem spot_key_of_normalised_symbol :
  (forall s : string,
      SpotPerp.before_colon (remove_leading_numbers s)
      = remove_leading_numbers (SpotPerp.before_colon s))
  /\ (forall s : string,
         has_multiplier (SpotPerp.before_colon s) = has_multiplier s)
  /\ (forall original spot : string,
         SpotPerp.before_colon (remove_leading_numbers original) = spot ->
         has_multiplier spot = true ->
         has_multiplier (remove_leading_numbers original) = true).
Proof.
  assert (Hmult : forall s : string,
             has_multiplier (SpotPerp.before_colon s) = has_multiplier s).
  { intros [|c [|d s]].
    - reflexivity.
    - rewrite has_multiplier_single. cbn [SpotPerp.before_colon].
      destruct (c =? ":")%char; [reflexivity|apply has_multiplier_single].
    - rewrite has_multiplier_unfold. cbn [SpotPerp.before_colon].
      destruct (Ascii.eqb_spec c ":") as [->|Hc]; [reflexivity|].
      destruct (Ascii.eqb_spec d ":") as [->|Hd].
      + rewrite has_multiplier_single.
        change (":" =? "0")%char with false. now rewrite andb_false_r.
      + now rewrite has_multiplier_unfold. }
  split; [|split; [exact Hmult|]].
  - intros s.
    destruct (has_multiplier s) eqn:Hm.
    + destruct s as [|c [|d s]]; try discriminate.
      * now rewrite has_multiplier_single in Hm.
      * rewrite has_multiplier_unfold in Hm.
        rewrite remove_leading_numbers_unfold, Hm.
        apply andb_true_iff in Hm. destruct Hm as [Hc Hd].
        apply Ascii.eqb_eq in Hc, Hd. subst c d.
        rewrite before_colon_strip_zeros. reflexivity.
    + rewrite (remove_leading_numbers_no_match _ Hm).
      symmetry. apply remove_leading_numbers_no_match.
      now rewrite Hmult.
  - intros original spot <- H. now rewrite Hmult in H.
Qed.

Lemma spot_key_of_normalised_symbol_witness :
  SpotPerp.before_colon (remove_leading_numbers "1000SATS/USDT:USDT")
  = "SATS/USDT"
  /\ has_multiplier "1000SATS/USDT" = true
  /\ (SpotPerp.before_colon (remove_leading_numbers "10100X:USDT") = "100X" ->
      has_multiplier "100X" = true ->
      has_multiplier (remove_leading_numbers "10100X:USDT") = true).
Proof.
  split; [reflexivity|]. split; [reflexivity|].
  apply (proj2 (proj2 spot_key_of_normalised_symbol) "10100X:USDT" "100X").
Defined.

(** ** Ranking: the frame is updated in place *)

Lemma filter_positive_negated (df : list SpotPerpOpportunity.t) :
  filter Ranking.rate_positive (map Ranking.negate_apy df)
  = map Ranking.negate_apy (filter Ranking.rate_positive df).
Proof.
  induction df as [|o df IH]; simpl; [reflexivity|].
  change (Ranking.rate_positive (Ranking.negate_apy o))
    with (Ranking.rate_positive o).
  destruct (Ranking.rate_positive o); simpl; now rewrite IH.
Qed.

(** X9: [filter_and_sort_rates] with [negative] replaces the yield of
    every row of the frame it is given by its opposite, not only on the
    rows it returns, and the caller keeps the changed frame (same rows,
    same order, every other column untouched); the positive call leaves
    the frame alone.  So the positive rows extracted after a negative
    call carry the opposite of their yield, and a second negative call
    restores the frame and returns the negative rows with their original
    yield. *)
Theorem filter_and_sort_rates_updates_the_frame_in_place
        (df : list SpotPerpOpportunity.t) :
  let sign_flipped (o o' : SpotPerpOpportunity.t) : Prop :=
    SpotPerpOpportunity.APY_historical_average o
    = option_map Qopp (SpotPerpOpportunity.APY_historical_average o')
    /\ SpotPerpOpportunity.pair o = SpotPerpOpportunity.pair o'
    /\ SpotPerpOpportunity.rate o = SpotPerpOpportunity.rate o'
    /\ SpotPerpOpportunity.perp_exchange o
       = SpotPerpOpportunity.perp_exchange o'
    /\ SpotPerpOpportunity.spot_exchange o
       = SpotPerpOpportunity.spot_exchange o'
    /\ SpotPerpOpportunity.mean_daily_amplitude o
       = SpotPerpOpportunity.mean_daily_amplitude o'
    /\ SpotPerpOpportunity.max_daily_amplitude o
       = SpotPerpOpportunity.max_daily_amplitude o'
    /\ SpotPerpOpportunity.amplitude_days o
       = SpotPerpOpportunity.amplitude_days o'
    /\ SpotPerpOpportunity.historical_rates o
       = SpotPerpOpportunity.historical_rates o'
    /\ SpotPerpOpportunity.cum_sum_main o
       = SpotPerpOpportunity.cum_sum_main o' in
  let after_negative := fst (Ranking.filter_and_sort_rates df true) in
  let positive_after := snd (Ranking.filter_and_sort_rates after_negative false) in
  let negative_again := snd (Ranking.filter_and_sort_rates after_negative true) in
  fst (Ranking.filter_and_sort_rates df false) = df
  /\ Forall2 sign_flipped after_negative df
  /\ (forall (o : SpotPerpOpportunity.t) (a : Q),
         In o after_negative ->
         SpotPerpOpportunity.APY_historical_average o = Some a ->
         exists o',
           In o' df
           /\ SpotPerpOpportunity.pair o' = SpotPerpOpportunity.pair o
           /\ SpotPerpOpportunity.rate o' = SpotPerpOpportunity.rate o
           /\ SpotPerpOpportunity.APY_historical_average o' = Some (- a))
  /\ (forall o,
         In o positive_after
         <-> exists o',
             sign_flipped o o' /\ In o' df
             /\ exists q : Q, SpotPerpOpportunity.rate o' = Some q /\ 0 < q)
  /\ List.length positive_after
     = List.length (snd (Ranking.filter_and_sort_rates df false))
  /\ fst (Ranking.filter_and_sort_rates after_negative true) = df
  /\ (forall o,
         In o negative_again
         <-> In o df
             /\ exists q : Q, SpotPerpOpportunity.rate o = Some q /\ q < 0)
  /\ List.length negative_again
     = List.length (snd (Ranking.filter_and_sort_rates df true)).
Proof.
  intros sign_flipped after_negative positive_after negative_again.
  assert (Hflip : forall o o', sign_flipped o o' <-> o = Ranking.negate_apy o')
    by (intros o o'; apply apy_flip_is_negate_apy).
  assert (Hafter : after_negative = map Ranking.negate_apy df) by reflexivity.
  assert (Hpos : Permutation positive_after
                   (map Ranking.negate_apy (filter Ranking.rate_positive df))).
  { subst positive_after. rewrite Hafter. simpl.
    rewrite sort_values_perm, filter_positive_negated. reflexivity. }
  assert (Hneg : Permutation negative_again (filter Ranking.rate_negative df)).
  { subst negative_again. rewrite Hafter. simpl.
    rewrite sort_values_perm, map_negate_apy_twice. reflexivity. }
  split; [reflexivity|].
  split.
  { rewrite Hafter. clear. induction df as [|o df IH]; simpl; constructor.
    - apply apy_flip_is_negate_apy. reflexivity.
    - exact IH. }
  split.
  { intros o a Ho Ha. rewrite Hafter in Ho. apply in_map_iff in Ho.
    destruct Ho as [o' [<- Hdf]]. exists o'.
    split; [exact Hdf|]. split; [reflexivity|]. split; [reflexivity|].
    unfold Ranking.negate_apy in Ha. simpl in Ha.
    destruct (SpotPerpOpportunity.APY_historical_average o') as [a'|];
      simpl in Ha; [|discriminate].
    injection Ha as <-. now rewrite Qopp_twice. }
  split.
  { intros o. split.
    - intros Ho. apply (Permutation_in _ Hpos) in Ho.
      apply in_map_iff in Ho. destruct Ho as [o' [<- Ho]].
      apply filter_In in Ho. destruct Ho as [Hdf Hp].
      apply rate_positive_spec in Hp. exists o'.
      split; [now apply Hflip|]. auto.
    - intros [o' [Ho [Hdf Hp]]]. apply Hflip in Ho. subst o.
      apply (Permutation_in _ (Permutation_sym Hpos)).
      apply in_map. apply filter_In. split; [exact Hdf|].
      now apply rate_positive_spec. }
  split.
  { rewrite (Permutation_length Hpos), length_map.
    symmetry. apply Permutation_length. apply sort_values_perm. }
  split; [rewrite Hafter; apply map_negate_apy_twice|].
  split.
  { intros o. rewrite <- rate_negative_spec, <- filter_In.
    split; apply Permutation_in; [exact Hneg|symmetry; exact Hneg]. }
  rewrite (Permutation_length Hneg).
  symmetry. simpl. rewrite filter_negative_negated.
  rewrite (Permutation_length (sort_values_perm _ _)). now rewrite length_map.
Qed.

(** ** Spot-perp: when a run succeeds *)

Lemma apply_series_all_Ok (A B : Type) (f : A -> result B) (l : list A) :
  (forall a, In a l -> exists b, f a = Ok b) ->
  exists out, apply_series f l = Ok out.
Proof.
  induction l as [|a l IH]; intros H; simpl.
  - now exists [].
  - destruct (H a (or_introl eq_refl)) as [b Hb]. rewrite Hb. simpl.
    destruct IH as [out Hout]; [intros c Hc; apply H; now right|].
    rewrite Hout. simpl. now exists (b :: out).
Qed.

Lemma Forall2_length_eq (A B : Type) (P : A -> B -> Prop)
      (l : list A) (l' : list B) :
  Forall2 P l l' -> List.length l = List.length l'.
Proof. induction 1; simpl; congruence. Qed.

Lemma Forall2_map_eq (A B C : Type) (P : A -> B -> Prop)
      (f : A -> C) (g : B -> C) (l : list A) (l' : list B) :
  Forall2 P l l' -> (forall a b, P a b -> f a = g b) -> map f l = map g l'.
Proof.
  intros H Hfg. induction H as [|a b l l' Hab _ IH]; simpl; [reflexivity|].
  now rewrite (Hfg a b Hab), IH.
Qed.

Lemma flat_map_map_pairs (A B C D : Type) (f : A -> list B)
      (g : A -> B -> C) (h : C -> D) (k : A -> D) (l : list A) :
  (forall a b, h (g a b) = k a) ->
  map h (flat_map (fun a => map (g a) (f a)) l)
  = flat_map (fun a => repeat (k a) (List.length (f a))) l.
Proof.
  intros Hk. induction l as [|a l IH]; simpl; [reflexivity|].
  rewrite map_app, IH. f_equal.
  induction (f a) as [|b bs IHb]; simpl; [reflexivity|].
  now rewrite Hk, IHb.
Qed.

(** X10: on a frame that has the [rate] column and whose historical cells
    are all either missing or a text that evaluates to a list of numbers,
    a spot-perp run does not raise.  It returns a row with a given pair
    and spot exchange exactly when a row of the frame with that pair has
    a live rate above the threshold in absolute value and a row of the
    spot table with that exchange has the text before the colon of the
    pair as its pair; every such frame row is returned once per matching
    spot row, in the order of the frame. *)
Theorem spot_perp_succeeds_on_well_formed_cells
        (CONFIG : config) (literal_eval : string -> option pyobj)
        (perpetual_exchange : string) (perpetual_rates_df : perp_table)
        (spot_pairs_df : list spot_row) :
  has_rate perpetual_rates_df = true ->
  literal_eval "[]" = Some (PyList []) ->
  (forall r : funding_row,
      In r (rows perpetual_rates_df) ->
      historical_rates r = PyNaN
      \/ exists (s : string) (l : list Q),
          historical_rates r = PyStr s /\ literal_eval s = Some (PyList l)) ->
  exists out : list SpotPerpOpportunity.t,
    SpotPerp.create_spot_perp_opportunites_df CONFIG literal_eval
      perpetual_exchange perpetual_rates_df spot_pairs_df = Ok out
    /\ (forall (p e : string),
           In (p, e) (map (fun o => (SpotPerpOpportunity.pair o,
                                     SpotPerpOpportunity.spot_exchange o)) out)
           <-> exists (r : funding_row) (s : spot_row) (q : Q),
               In r (rows perpetual_rates_df) /\ In s spot_pairs_df
               /\ rate r = Some q /\ funding_rate_threshold CONFIG < Qabs q
               /\ spot_pair s = SpotPerp.before_colon (pair r)
               /\ pair r = p /\ spot_exchange s = e)
    /\ map SpotPerpOpportunity.pair out
       = flat_map
           (fun r =>
              repeat (pair r)
                (List.length
                   (filter (fun s => (SpotPerp.before_colon (pair r)
                                      =? spot_pair s)%string)
                           spot_pairs_df)))
           (filter (fun r => match rate r with
                             | Some q =>
                                 Qlt_bool (funding_rate_threshold CONFIG) (Qabs q)
                             | None => false
                             end)
                   (rows perpetual_rates_df))
    /\ Forall (fun o => SpotPerpOpportunity.perp_exchange o = perpetual_exchange)
              out.
Proof.
  intros Hrate Hempty Hcells.
  unfold SpotPerp.create_spot_perp_opportunites_df, SpotPerp.with_rate_column.
  rewrite Hrate. simpl.
  destruct (@apply_series_all_Ok _ _
              (SpotPerp.opportunity CONFIG literal_eval perpetual_exchange)
              (SpotPerp.merge_on_spot_pair
                 (filter (SpotPerp.above_threshold CONFIG)
                         (rows perpetual_rates_df))
                 spot_pairs_df)) as [out Hout].
  - intros [r s] Hin. apply merge_on_spot_pair_left in Hin. simpl in Hin.
    apply filter_In in Hin. destruct Hin as [Hin _].
    unfold SpotPerp.opportunity. simpl.
    destruct (Hcells r Hin) as [Hnan|[t [l [Ht Hl]]]].
    + rewrite Hnan. simpl. rewrite Hempty. simpl. eauto.
    + rewrite Ht. simpl. rewrite Hl. simpl. eauto.
  - exists out. split; [exact Hout|].
    apply apply_series_Ok in Hout.
    assert (Hfields :
              map (fun o => (SpotPerpOpportunity.pair o,
                             SpotPerpOpportunity.spot_exchange o)) out
              = map (fun j => (pair (fst j), spot_exchange (snd j)))
                    (SpotPerp.merge_on_spot_pair
                       (filter (SpotPerp.above_threshold CONFIG)
                               (rows perpetual_rates_df))
                       spot_pairs_df)).
    { symmetry. eapply Forall2_map_eq; [exact Hout|].
      intros j o Ho. apply spot_perp_opportunity_fields in Ho.
      destruct Ho as (_ & _ & _ & _ & _ & _ & _ & Hp & Hs).
      now rewrite Hp, Hs. }
    split; [|split].
    + intros p e. rewrite Hfields, in_map_iff. split.
      * intros [[r s] [Heq Hin]]. simpl in Heq. injection Heq as Hp He.
        unfold SpotPerp.merge_on_spot_pair in Hin.
        apply in_flat_map in Hin. destruct Hin as [r' [Hr Hin]].
        apply in_map_iff in Hin. destruct Hin as [s' [Heq Hs]].
        injection Heq as -> ->.
        apply filter_In in Hr. destruct Hr as [Hr Habove].
        apply filter_In in Hs. destruct Hs as [Hs Hkey].
        apply String.eqb_eq in Hkey.
        apply above_threshold_spec in Habove.
        destruct Habove as [q [Hq Hlt]].
        exists r, s, q. repeat split; auto.
      * intros (r & s & q & Hr & Hs & Hq & Hlt & Hkey & Hp & He).
        exists (r, s). split; [simpl; now rewrite Hp, He|].
        apply merge_on_spot_pair_In; [|exact Hs|now symmetry].
        apply filter_In. split; [exact Hr|].
        apply above_threshold_spec. exists q. auto.
    + transitivity (map fst (map (fun o => (SpotPerpOpportunity.pair o,
                                            SpotPerpOpportunity.spot_exchange o))
                                 out)).
      { rewrite map_map. reflexivity. }
      rewrite Hfields, map_map. unfold SpotPerp.merge_on_spot_pair.
      apply (@flat_map_map_pairs _ _ _ _
               (fun r => filter (fun s => (SpotPerp.before_colon (pair r)
                                           =? spot_pair s)%string)
                                spot_pairs_df)
               (fun r s => (r, s))
               (fun j => fst (pair (fst j), spot_exchange (snd j)))
               (fun r => pair r)).
      reflexivity.
    + clear Hfields.
      induction Hout as [|j o l l' Ho _ IH]; constructor; [|exact IH].
      unfold SpotPerp.opportunity in Ho.
      destruct (SpotPerp.literal_eval_obj literal_eval _) as [lst|];
        simpl in Ho; [|discriminate].
      destruct (SpotPerp.sum_obj lst) as [total|]; simpl in Ho; [|discriminate].
      injection Ho as <-. reflexivity.
Qed.

Lemma spot_perp_succeeds_on_well_formed_cells_witness :
  has_rate perp_with_rates = true
  /\ literal_eval_excerpt "[]" = Some (PyList [])
  /\ exists out : list SpotPerpOpportunity.t,
      SpotPerp.create_spot_perp_opportunites_df (config_days 30)
        literal_eval_excerpt "binance" perp_with_rates spot_pairs = Ok out
      /\ map (fun o => (SpotPerpOpportunity.pair o,
                        SpotPerpOpportunity.spot_exchange o)) out
         = [("BTC/USDT:USDT", "binance/gate"); ("ETH/USDT:USDT", "okx")].
Proof.
  split; [reflexivity|]. split; [reflexivity|].
  destruct (@spot_perp_succeeds_on_well_formed_cells (config_days 30)
              literal_eval_excerpt "binance" perp_with_rates spot_pairs)
    as (out & Hout & _); [reflexivity|reflexivity| |].
  - intros r Hr. right. simpl in Hr.
    destruct Hr as [<-|[<-|[<-|[]]]]; simpl;
      do 2 eexists; split; reflexivity.
  - exists out. split; [exact Hout|].
    vm_compute in Hout. injection Hout as <-. reflexivity.
Defined.

(** ** The spot table and the rows it can match *)

Lemma subsequence_refl (A : Type) (l : list A) : subsequence l l.
Proof.
  induction l; [apply subsequence_nil|now apply subsequence_keep].
Qed.

Lemma subsequence_nil_l (A : Type) (l : list A) : subsequence [] l.
Proof.
  induction l; [apply subsequence_nil|now apply subsequence_skip].
Qed.

Lemma subsequence_trans (A : Type) (l1 l2 l3 : list A) :
  subsequence l1 l2 -> subsequence l2 l3 -> subsequence l1 l3.
Proof.
  intros H12 H23. revert l1 H12.
  induction H23 as [|a l2 l3 _ IH|a l2 l3 _ IH]; intros l1 H12.
  - exact H12.
  - apply subsequence_skip. now apply IH.
  - inversion H12; subst.
    + apply subsequence_skip. now apply IH.
    + apply subsequence_keep. now apply IH.
Qed.

Lemma subsequence_filter (A : Type) (f : A -> bool) (l : list A) :
  subsequence (filter f l) l.
Proof.
  induction l as [|a l IH]; simpl; [apply subsequence_nil|].
  destruct (f a); [apply subsequence_keep|apply subsequence_skip]; exact IH.
Qed.

Lemma subsequence_map (A B : Type) (f : A -> B) (l l' : list A) :
  subsequence l l' -> subsequence (map f l) (map f l').
Proof.
  induction 1; simpl;
    [apply subsequence_nil|now apply subsequence_skip
    |now apply subsequence_keep].
Qed.

Lemma subsequence_app (A : Type) (l1 l1' l2 l2' : list A) :
  subsequence l1 l1' -> subsequence l2 l2' ->
  subsequence (l1 ++ l2) (l1' ++ l2').
Proof.
  induction 1; intros H2; simpl;
    [exact H2|apply subsequence_skip; auto|apply subsequence_keep; auto].
Qed.

Lemma subsequence_length (A : Type) (l l' : list A) :
  subsequence l l' -> (List.length l <= List.length l')%nat.
Proof. induction 1; simpl; lia. Qed.

Lemma subsequence_In (A : Type) (l l' : list A) (a : A) :
  subsequence l l' -> In a l -> In a l'.
Proof.
  induction 1; simpl; intros Hin; auto.
  destruct Hin; auto.
Qed.

Lemma string_leb_trans (s1 s2 s3 : string) :
  String.leb s1 s2 = true -> String.leb s2 s3 = true ->
  String.leb s1 s3 = true.
Proof.
  unfold String.leb. revert s2 s3.
  induction s1 as [|a s1 IH]; intros [|b s2] [|c s3]; simpl; try easy.
  unfold Ascii.compare.
  destruct (N.compare_spec (N_of_ascii a) (N_of_ascii b)) as [Hab|Hab|Hab];
    destruct (N.compare_spec (N_of_ascii b) (N_of_ascii c)) as [Hbc|Hbc|Hbc];
    destruct (N.compare_spec (N_of_ascii a) (N_of_ascii c)) as [Hac|Hac|Hac];
    try easy; try lia; intros H1 H2.
  exact (IH s2 s3 H1 H2).
Qed.

Lemma string_leb_total (s1 s2 : string) :
  String.leb s1 s2 = false -> String.leb s2 s1 = true.
Proof.
  intros H. destruct (String.leb_total s1 s2) as [H'|H']; congruence.
Qed.

Lemma group_keys_spec (keys : list string) :
  NoDup (Loading.group_keys keys)
  /\ (forall k, In k (Loading.group_keys keys) <-> In k keys)
  /\ StronglySorted (fun a b => String.leb a b = true)
       (Loading.group_keys keys).
Proof.
  unfold Loading.group_keys.
  pose proof (sort_values_perm String.leb (nodup string_dec keys)) as Hperm.
  split; [|split].
  - eapply Permutation_NoDup; [symmetry; exact Hperm|apply NoDup_nodup].
  - intros k. rewrite <- (nodup_In string_dec keys k).
    split; apply Permutation_in; [exact Hperm|symmetry; exact Hperm].
  - apply (@sort_values_ordered _ String.leb string_leb_total string_leb_trans).
Qed.

Lemma tagged_rows_of_key (spot_files : string -> list string)
      (exchanges : list string) (k : string) :
  map snd
    (filter (fun r : string * string => (fst r =? k)%string)
       (flat_map (fun exchange => map (fun p => (p, exchange))
                                      (spot_files exchange))
                 exchanges))
  = flat_map
      (fun exchange =>
         map (fun _ => exchange)
             (filter (fun p => (p =? k)%string) (spot_files exchange)))
      exchanges.
Proof.
  induction exchanges as [|ex exchanges IH]; simpl; [reflexivity|].
  rewrite filter_app, map_app, IH. f_equal.
  induction (spot_files ex) as [|p l IHl]; simpl; [reflexivity|].
  destruct (p =? k)%string; simpl; now rewrite IHl.
Qed.

Lemma spot_table_keys_NoDup (spot_files : string -> list string)
      (spot_exchanges : list string) :
  NoDup (map spot_pair
           (Loading.create_spot_data_df_from_files spot_files spot_exchanges)).
Proof.
  unfold Loading.create_spot_data_df_from_files.
  rewrite map_map. simpl. rewrite map_id. apply group_keys_spec.
Qed.

(** X11: the aggregated spot table has exactly one row per pair listed in
    some configured spot file, the rows are in ascending order of the
    pair, and the [spot_exchange] of a row names, joined by ['/'], the
    configured exchanges in their configured order, once for every time
    their file lists the pair. *)
Theorem spot_table_has_one_row_per_listed_pair
        (spot_files : string -> list string) (spot_exchanges : list string) :
  let table :=
    Loading.create_spot_data_df_from_files spot_files spot_exchanges in
  NoDup (map spot_pair table)
  /\ (forall p : string,
         In p (map spot_pair table)
         <-> exists exchange : string,
             In exchange spot_exchanges /\ In p (spot_files exchange))
  /\ StronglySorted (fun a b => String.leb a b = true) (map spot_pair table)
  /\ Forall
       (fun row =>
          spot_exchange row
          = String.concat "/"
              (flat_map
                 (fun exchange =>
                    map (fun _ => exchange)
                        (filter (fun p => (p =? spot_pair row)%string)
                                (spot_files exchange)))
                 spot_exchanges))
       table.
Proof.
  intros table. subst table. unfold Loading.create_spot_data_df_from_files.
  set (spot_data := flat_map _ spot_exchanges).
  destruct (group_keys_spec (map fst spot_data)) as (Hnd & Hin & Hsorted).
  assert (Hkeys : forall l : list string,
             map spot_pair
               (map (fun k =>
                       {| spot_pair := k;
                          spot_exchange :=
                            String.concat "/"
                              (map snd
                                 (filter (fun r : string * string =>
                                            (fst r =? k)%string) spot_data)) |})
                    l) = l).
  { intros l. rewrite map_map. simpl. apply map_id. }
  rewrite Hkeys. split; [exact Hnd|]. split; [|split; [exact Hsorted|]].
  - intros p. rewrite Hin. subst spot_data. rewrite in_map_iff. split.
    + intros [[p' ex] [Hp Hpe]]. simpl in Hp. subst p'.
      apply in_flat_map in Hpe. destruct Hpe as [ex' [Hex Hpe]].
      apply in_map_iff in Hpe. destruct Hpe as [q [Hq Hqin]].
      inversion Hq; subst. eauto.
    + intros [ex [Hex Hp]]. exists (p, ex). split; [reflexivity|].
      apply in_flat_map. exists ex. split; [exact Hex|].
      apply in_map_iff. eauto.
  - apply Forall_forall. intros row Hrow. apply in_map_iff in Hrow.
    destruct Hrow as [k [<- _]]. simpl. f_equal.
    subst spot_data. apply tagged_rows_of_key.
Qed.

Lemma filter_key_at_most_one (spot : list spot_row) (k : string) :
  NoDup (map spot_pair spot) ->
  (List.length (filter (fun s => (k =? spot_pair s)%string) spot) <= 1)%nat.
Proof.
  induction spot as [|s spot IH]; simpl; intros Hnd; [lia|].
  inversion Hnd as [|? ? Hnotin Hnd']; subst.
  destruct (String.eqb_spec k (spot_pair s)) as [Hk|Hk]; [|now apply IH].
  simpl. assert (Hnone : filter (fun s0 => (k =? spot_pair s0)%string) spot = []).
  { destruct (filter _ spot) as [|s' rest] eqn:Ef; [reflexivity|].
    exfalso. assert (Hin : In s' (filter (fun s0 => (k =? spot_pair s0)%string) spot))
      by (rewrite Ef; now left).
    apply filter_In in Hin. destruct Hin as [Hin Heq].
    apply String.eqb_eq in Heq. apply Hnotin. rewrite <- Hk, Heq.
    now apply in_map. }
  rewrite Hnone. simpl. lia.
Qed.

Lemma merge_on_spot_pair_subsequence (perp : list funding_row)
      (spot : list spot_row) :
  NoDup (map spot_pair spot) ->
  subsequence (map (fun j => pair (fst j)) (SpotPerp.merge_on_spot_pair perp spot))
              (map pair perp).
Proof.
  intros Hnd. unfold SpotPerp.merge_on_spot_pair.
  induction perp as [|r perp IH]; simpl; [apply subsequence_nil|].
  rewrite map_app.
  change (pair r :: map pair perp) with ([pair r] ++ map pair perp)%list.
  apply subsequence_app; [|exact IH].
  pose proof (filter_key_at_most_one spot (SpotPerp.before_colon (pair r)) Hnd)
    as Hlen.
  destruct (filter _ spot) as [|s [|s' rest]]; simpl in *.
  - apply subsequence_nil_l.
  - apply subsequence_refl.
  - lia.
Qed.

(** X12: against the aggregated spot table, a spot-perp run that returns
    gives each row of the perpetual frame at most once and keeps the order
    of the frame: the pairs of the result are an order-preserving
    selection of the pairs of the frame. *)
Theorem spot_perp_returns_each_perpetual_row_at_most_once
        (CONFIG : config) (literal_eval : string -> option pyobj)
        (perpetual_exchange : string) (perpetual_rates_df : perp_table)
        (spot_files : string -> list string) (spot_exchanges : list string)
        (out : list SpotPerpOpportunity.t) :
  SpotPerp.create_spot_perp_opportunites_df CONFIG literal_eval
    perpetual_exchange perpetual_rates_df
    (Loading.create_spot_data_df_from_files spot_files spot_exchanges)
  = Ok out ->
  subsequence (map SpotPerpOpportunity.pair out)
              (map pair (rows perpetual_rates_df))
  /\ (List.length out <= List.length (rows perpetual_rates_df))%nat.
Proof.
  intros Hrun.
  assert (Hsub : subsequence (map SpotPerpOpportunity.pair out)
                             (map pair (rows perpetual_rates_df))).
  { apply spot_perp_rows_from_opportunity in Hrun.
    destruct Hrun as [with_rate [Hwith Hrows]].
    assert (Hpairs : map pair with_rate = map pair (rows perpetual_rates_df)).
    { unfold SpotPerp.with_rate_column in Hwith.
      destruct (has_rate perpetual_rates_df).
      - now inversion Hwith.
      - apply apply_series_Ok in Hwith. symmetry.
        eapply Forall2_map_eq; [exact Hwith|].
        intros r r' Hr. apply approximate_rate_spec in Hr.
        destruct Hr as (_ & _ & _ & _ & Hp). now rewrite Hp. }
    rewrite <- Hpairs.
    rewrite <- (@Forall2_map_eq _ _ _ _ (fun j => pair (fst j))
                  SpotPerpOpportunity.pair _ _ Hrows).
    - eapply subsequence_trans.
      + apply merge_on_spot_pair_subsequence.
        apply spot_table_keys_NoDup.
      + apply subsequence_map. apply subsequence_filter.
    - intros j o Ho. apply spot_perp_opportunity_fields in Ho.
      destruct Ho as (_ & _ & _ & _ & _ & _ & _ & Hp & _). now rewrite Hp. }
  split; [exact Hsub|].
  apply subsequence_length in Hsub. now rewrite !length_map in Hsub.
Qed.

Lemma spot_perp_returns_each_perpetual_row_at_most_once_witness :
  exists out : list SpotPerpOpportunity.t,
    SpotPerp.create_spot_perp_opportunites_df (config_days 30)
      literal_eval_excerpt "binance" perp_with_rates
      (Loading.create_spot_data_df_from_files spot_listing
         ["binance"; "gate"; "okx"]) = Ok out
    /\ map (fun o => (SpotPerpOpportunity.pair o,
                      SpotPerpOpportunity.spot_exchange o)) out
       = [("BTC/USDT:USDT", "binance/gate"); ("ETH/USDT:USDT", "okx")]
    /\ subsequence (map SpotPerpOpportunity.pair out)
                   (map pair (rows perp_with_rates))
    /\ (List.length out <= List.length (rows perp_with_rates))%nat.
Proof.
  eexists. split; [vm_compute; reflexivity|]. split; [reflexivity|].
  apply (@spot_perp_returns_each_perpetual_row_at_most_once (config_days 30)
           literal_eval_excerpt "binance" perp_with_rates spot_listing
           ["binance"; "gate"; "okx"]).
  vm_compute. reflexivity.
Defined.

(** ** Loading the perpetual files and pairing the exchanges *)

Lemma dict_set_keys (V : Type) (k : string) (v : V) (d : list (string * V))
      (k' : string) :
  In k' (map fst (Loading.dict_set k v d)) <-> k' = k \/ In k' (map fst d).
Proof.
  induction d as [|[k0 v0] d IH]; simpl.
  - intuition.
  - destruct (String.eqb_spec k0 k) as [->|Hk]; simpl.
    + intuition.
    + rewrite IH. intuition.
Qed.

Lemma dict_set_NoDup (V : Type) (k : string) (v : V) (d : list (string * V)) :
  NoDup (map fst d) -> NoDup (map fst (Loading.dict_set k v d)).
Proof.
  induction d as [|[k0 v0] d IH]; simpl; intros Hnd.
  - constructor; [tauto|constructor].
  - inversion Hnd as [|? ? Hnotin Hnd']; subst.
    destruct (String.eqb_spec k0 k) as [->|Hk]; simpl.
    + now constructor.
    + constructor; [|now apply IH].
      rewrite dict_set_keys. intros [->|H]; contradiction || congruence.
Qed.

Lemma dict_get_set (V : Type) (k : string) (v : V) (d : list (string * V))
      (k' : string) :
  Loading.dict_get k' (Loading.dict_set k v d)
  = if (k =? k')%string then Some v else Loading.dict_get k' d.
Proof.
  induction d as [|[k0 v0] d IH]; simpl.
  - reflexivity.
  - destruct (String.eqb_spec k0 k) as [->|Hk]; simpl.
    + destruct (k =? k')%string; reflexivity.
    + rewrite IH. destruct (String.eqb_spec k0 k') as [->|Hk'].
      * replace (k =? k')%string with false
          by (symmetry; apply String.eqb_neq; congruence).
        reflexivity.
      * reflexivity.
Qed.

Lemma dict_get_In (V : Type) (k : string) (v : V) (d : list (string * V)) :
  Loading.dict_get k d = Some v -> In k (map fst d).
Proof.
  induction d as [|[k0 v0] d IH]; simpl; [discriminate|].
  destruct (String.eqb_spec k0 k) as [->|Hk]; auto.
Qed.

Lemma combinations2_In (A : Type) (l : list A) (a b : A) :
  In (a, b) (combinations2 l) -> In a l /\ In b l.
Proof.
  induction l as [|c l IH]; simpl; [tauto|]. intros Hin.
  apply in_app_or in Hin. destruct Hin as [Hin|Hin].
  - apply in_map_iff in Hin. destruct Hin as [b' [Heq Hb]].
    inversion Heq; subst. auto.
  - destruct (IH Hin). auto.
Qed.

Section LoadedData.

Variable perpetual_files : string -> perp_table.

Let step (perpetual_data : list (string * perp_table)) (exchange : string) :=
  let df := perpetual_files exchange in
  match rows df with
  | [] => perpetual_data
  | _ :: _ =>
      Loading.dict_set exchange (Loading.normalize_pairs df) perpetual_data
  end.

Lemma loaded_keys (exchanges : list string) (d : list (string * perp_table))
      (k : string) :
  In k (map fst (fold_left step exchanges d))
  <-> In k (map fst d)
      \/ (In k exchanges /\ rows (perpetual_files k) <> []).
Proof.
  revert d. induction exchanges as [|ex exchanges IH]; intros d; simpl.
  - tauto.
  - rewrite IH. unfold step.
    destruct (rows (perpetual_files ex)) eqn:Erows.
    + split; [tauto|]. intros [H|[[->|H] Hne]]; auto. congruence.
    + rewrite dict_set_keys. split.
      * intros [[->|H]|[H Hne]]; auto. right. split; [auto|]. congruence.
      * intros [H|[[->|H] Hne]]; auto.
Qed.

Lemma loaded_NoDup (exchanges : list string) (d : list (string * perp_table)) :
  NoDup (map fst d) -> NoDup (map fst (fold_left step exchanges d)).
Proof.
  revert d. induction exchanges as [|ex exchanges IH]; intros d Hnd; simpl.
  - exact Hnd.
  - apply IH. unfold step. destruct (rows (perpetual_files ex));
      [exact Hnd|now apply dict_set_NoDup].
Qed.

Lemma loaded_values (exchanges : list string) (d : list (string * perp_table)) :
  (forall k df, Loading.dict_get k d = Some df ->
                df = Loading.normalize_pairs (perpetual_files k)) ->
  forall k df,
    Loading.dict_get k (fold_left step exchanges d) = Some df ->
    df = Loading.normalize_pairs (perpetual_files k).
Proof.
  revert d. induction exchanges as [|ex exchanges IH]; intros d Hd; simpl.
  - exact Hd.
  - apply IH. intros k df. unfold step.
    destruct (rows (perpetual_files ex)); [apply Hd|].
    rewrite dict_get_set. destruct (String.eqb_spec ex k) as [->|Hk].
    + intros H. now inversion H.
    + apply Hd.
Qed.

End LoadedData.

(** X13: the dict of loaded perpetual frames has one entry per configured
    exchange whose file has rows (an exchange configured twice is loaded
    once), each holding that file with its pairs normalised; the perp-perp
    analysis computes nothing with fewer than two entries, and every row
    it produces labels two different loaded exchanges as short and long:
    an exchange is never paired with itself. *)
Theorem perp_perp_analysis_pairs_distinct_loaded_exchanges
        (CONFIG : config) (literal_eval : string -> option pyobj)
        (perpetual_files : string -> perp_table)
        (perpetual_exchanges : list string) :
  let perpetual_data_df :=
    Loading.create_perpetual_data_df_from_files perpetual_files
      perpetual_exchanges in
  let loaded := map fst perpetual_data_df in
  NoDup loaded
  /\ (forall exchange : string,
         In exchange loaded
         <-> In exchange perpetual_exchanges
             /\ rows (perpetual_files exchange) <> [])
  /\ (forall (exchange : string) (df : perp_table),
         Loading.dict_get exchange perpetual_data_df = Some df ->
         df = Loading.normalize_pairs (perpetual_files exchange))
  /\ ((List.length perpetual_data_df < 2)%nat ->
      Loading.perp_perp_final_df CONFIG literal_eval perpetual_data_df = [])
  /\ Forall
       (fun o =>
          PerpPerpOpportunity.short_exchange o
          <> PerpPerpOpportunity.long_exchange o
          /\ In (PerpPerpOpportunity.short_exchange o) loaded
          /\ In (PerpPerpOpportunity.long_exchange o) loaded)
       (Loading.perp_perp_final_df CONFIG literal_eval perpetual_data_df).
Proof.
  intros perpetual_data_df loaded.
  assert (Hnd : NoDup loaded).
  { apply (loaded_NoDup perpetual_files perpetual_exchanges []). constructor. }
  split; [exact Hnd|]. split; [|split; [|split]].
  - intros exchange. subst loaded perpetual_data_df.
    unfold Loading.create_perpetual_data_df_from_files.
    rewrite (loaded_keys perpetual_files perpetual_exchanges [] exchange).
    simpl. tauto.
  - apply (loaded_values perpetual_files perpetual_exchanges []).
    intros k df H. discriminate H.
  - intros Hlen. unfold Loading.perp_perp_final_df.
    now replace (List.length perpetual_data_df <? 2)%nat with true
      by (symmetry; apply Nat.ltb_lt; exact Hlen).
  - unfold Loading.perp_perp_final_df.
    destruct (List.length perpetual_data_df <? 2)%nat; [constructor|].
    apply Forall_forall. intros o Ho. apply in_flat_map in Ho.
    destruct Ho as [[e1 e2] [Hcomb Ho]]. simpl in Ho.
    pose proof (combinations2_distinct Hnd Hcomb) as Hne.
    apply combinations2_In in Hcomb. destruct Hcomb as [He1 He2].
    destruct (Loading.dict_get e1 perpetual_data_df) as [df_1|];
      [|contradiction].
    destruct (Loading.dict_get e2 perpetual_data_df) as [df_2|];
      [|contradiction].
    unfold PerpPerp.create_perp_perp_opportunities_df in Ho.
    apply in_map_iff in Ho. destruct Ho as [[x y] [<- _]].
    cbn [fst snd PerpPerp.opportunity PerpPerpOpportunity.short_exchange
           PerpPerpOpportunity.long_exchange].
    destruct (labels_are_the_two_venues literal_eval e1 e2 df_1 df_2 x y)
      as [[-> ->]|[-> ->]]; repeat split; auto.
Qed.

(** What the same analysis yields on three configured exchanges of which
    one ([okx]) has no rows on file and one is configured twice. *)
Example perp_perp_analysis_run :
  map fst (Loading.create_perpetual_data_df_from_files perpetual_listing
             ["binance"; "okx"; "gate"; "binance"])
  = ["binance"; "gate"]
  /\ map (fun o => (PerpPerpOpportunity.pair o,
                    PerpPerpOpportunity.short_exchange o,
                    PerpPerpOpportunity.long_exchange o))
       (Loading.perp_perp_final_df (config_days 30) literal_eval_excerpt
          (Loading.create_perpetual_data_df_from_files perpetual_listing
             ["binance"; "okx"; "gate"; "binance"]))
     = [("BTCUSDT", "gate", "binance"); ("XRPUSDT", "gate", "binance")].
Proof. split; reflexivity. Qed.

Lemma perp_perp_analysis_pairs_distinct_loaded_exchanges_witness :
  (List.length (Loading.create_perpetual_data_df_from_files perpetual_listing
                  ["binance"; "okx"]) < 2)%nat
  /\ Loading.perp_perp_final_df (config_days 30) literal_eval_excerpt
       (Loading.create_perpetual_data_df_from_files perpetual_listing
          ["binance"; "okx"]) = []
  /\ Loading.dict_get "binance"
       (Loading.create_perpetual_data_df_from_files perpetual_listing
          ["binance"; "okx"])
     = Some (Loading.normalize_pairs (perpetual_listing "binance")).
Proof.
  destruct (perp_perp_analysis_pairs_distinct_loaded_exchanges
              (config_days 30) literal_eval_excerpt perpetual_listing
              ["binance"; "okx"]) as (_ & _ & Hvalues & Hfew & _).
  assert (Hlen : (List.length
                    (Loading.create_perpetual_data_df_from_files
                       perpetual_listing ["binance"; "okx"]) < 2)%nat)
    by (vm_compute; lia).
  split; [exact Hlen|]. split; [exact (Hfew Hlen)|].
  destruct (Loading.dict_get "binance"
              (Loading.create_perpetual_data_df_from_files perpetual_listing
                 ["binance"; "okx"])) as [df|] eqn:Eget.
  - f_equal. exact (Hvalues "binance" df Eget).
  - vm_compute in Eget. discriminate Eget.
Defined.

(** ** Fetching: historical windows and daily amplitude *)

Section FetchFacts.

Variable now_ms : Z.
Variable get_historical_funding_rates :
  string -> Z -> result (list Fetch.funding_event).
Variable get_ohlc : string -> result (list Fetch.candle).

Lemma in_window_monotone (cutoff cutoff' : Z) (e : Fetch.funding_event) :
  (cutoff' <= cutoff)%Z ->
  Fetch.in_window cutoff e = true -> Fetch.in_window cutoff' e = true.
Proof.
  unfold Fetch.in_window. intros Hle.
  destruct (Fetch.ev_timestamp e) as [t|]; [|easy].
  rewrite !andb_true_iff, !Z.leb_le. intros [H0 H]. split; [exact H0|lia].
Qed.

(** A later cutoff selects an order-preserving part of what an earlier
    cutoff selects. *)
Lemma rates_since_nested (cutoff cutoff' : Z)
      (events : list Fetch.funding_event) (inner outer : list Q) :
  (cutoff' <= cutoff)%Z ->
  Fetch.rates_since cutoff events = Ok inner ->
  Fetch.rates_since cutoff' events = Ok outer ->
  subsequence inner outer.
Proof.
  intros Hle. revert inner outer.
  induction events as [|e events IH]; simpl; intros inner outer Hin Hout.
  - inversion Hin; inversion Hout. apply subsequence_nil.
  - destruct (Fetch.in_window cutoff e) eqn:Ew.
    + rewrite (in_window_monotone e Hle Ew) in Hout.
      destruct (Fetch.ev_rate e) as [r|]; [|discriminate].
      destruct (Fetch.rates_since cutoff events) as [i|]; [|discriminate].
      destruct (Fetch.rates_since cutoff' events) as [o|]; [|discriminate].
      simpl in *. inversion Hin; inversion Hout; subst.
      apply subsequence_keep. now apply IH.
    + destruct (Fetch.in_window cutoff' e).
      * destruct (Fetch.ev_rate e) as [r|]; [|discriminate].
        destruct (Fetch.rates_since cutoff' events) as [o|]; [|discriminate].
        simpl in *. inversion Hout; subst.
        apply subsequence_skip. now apply IH.
      * now apply IH.
Qed.

(** A window is an order-preserving part of the full series. *)
Lemma rates_since_in_full (cutoff : Z) (events : list Fetch.funding_event)
      (inner : list Q) :
  Fetch.rates_since cutoff events = Ok inner ->
  subsequence inner (Fetch.full_rates events).
Proof.
  revert inner. induction events as [|e events IH]; simpl; intros inner Hin.
  - inversion Hin. apply subsequence_nil.
  - unfold Fetch.full_rates in *. simpl.
    destruct (Fetch.in_window cutoff e).
    + destruct (Fetch.ev_rate e) as [r|]; [|discriminate].
      destruct (Fetch.rates_since cutoff events) as [i|]; [|discriminate].
      simpl in *. inversion Hin; subst.
      apply subsequence_keep. now apply IH.
    + destruct (Fetch.ev_rate e) as [r|]; simpl.
      * apply subsequence_skip. now apply IH.
      * now apply IH.
Qed.

(** X14: in every row that [get_historical_funding_rates_for_pairs]
    returns, the 3-day series is an order-preserving part of the 7-day
    series, which is an order-preserving part of the full series; the
    pairs of the rows are an order-preserving selection of the requested
    pairs, and a pair whose request raised, returned no event, or returned
    an event of the 7-day window without a rate has no row. *)
Theorem historical_windows_are_nested
        (trading_pairs : list string) (hours : Z) :
  let data :=
    Fetch.get_historical_funding_rates_for_pairs now_ms
      get_historical_funding_rates trading_pairs hours in
  Forall
    (fun row =>
       subsequence (Fetch.historical_rates_3d row) (Fetch.historical_rates_7d row)
       /\ subsequence (Fetch.historical_rates_7d row) (Fetch.historical_rates row)
       /\ exists events : list Fetch.funding_event,
           get_historical_funding_rates (Fetch.pair row) hours = Ok events
           /\ events <> []
           /\ Fetch.historical_rates row = Fetch.full_rates events
           /\ Fetch.rates_last_hours now_ms events (7 * 24)
              = Ok (Fetch.historical_rates_7d row)
           /\ Fetch.rates_last_hours now_ms events (3 * 24)
              = Ok (Fetch.historical_rates_3d row))
    data
  /\ subsequence (map Fetch.pair data) trading_pairs.
Proof.
  intros data. subst data.
  unfold Fetch.get_historical_funding_rates_for_pairs. split.
  - apply Forall_forall. intros row Hrow. apply in_flat_map in Hrow.
    destruct Hrow as [p [_ Hrow]].
    destruct (Fetch.historical_row_of now_ms get_historical_funding_rates p hours)
      as [[row'|]|] eqn:Erow; try contradiction.
    destruct Hrow as [<-|[]].
    unfold Fetch.historical_row_of in Erow.
    destruct (get_historical_funding_rates p hours) as [events|] eqn:Eev;
      cbn [bind] in Erow; [|discriminate].
    destruct events as [|e events]; [discriminate|].
    destruct (Fetch.rates_last_hours now_ms (e :: events) (7 * 24))
      as [r7|] eqn:E7; cbn [bind] in Erow; [|discriminate].
    destruct (Fetch.rates_last_hours now_ms (e :: events) (3 * 24))
      as [r3|] eqn:E3; cbn [bind] in Erow; [|discriminate].
    injection Erow as Erow. subst row'.
    cbn [Fetch.pair Fetch.historical_rates Fetch.historical_rates_7d
           Fetch.historical_rates_3d].
    split; [|split].
    + unfold Fetch.rates_last_hours in E7, E3.
      eapply rates_since_nested; [|exact E3|exact E7]. lia.
    + exact (@rates_since_in_full _ (e :: events) r7 E7).
    + exists (e :: events). repeat split; auto. discriminate.
  - induction trading_pairs as [|p pairs IH]; simpl; [apply subsequence_nil|].
    destruct (Fetch.historical_row_of now_ms get_historical_funding_rates p hours)
      as [[row|]|] eqn:Erow; simpl.
    + replace (Fetch.pair row) with p; [now apply subsequence_keep|].
      unfold Fetch.historical_row_of in Erow.
      destruct (get_historical_funding_rates p hours) as [[|e events]|];
        cbn [bind] in Erow; try discriminate.
      destruct (Fetch.rates_last_hours now_ms (e :: events) (7 * 24));
        cbn [bind] in Erow; [|discriminate].
      destruct (Fetch.rates_last_hours now_ms (e :: events) (3 * 24));
        cbn [bind] in Erow; [|discriminate].
      inversion Erow. reflexivity.
    + now apply subsequence_skip.
    + now apply subsequence_skip.
Qed.

End FetchFacts.

Example historical_windows_run :
  Fetch.get_historical_funding_rates_for_pairs fetch_time funding_events_of
    ["BTC/USDT:USDT"; "ETH/USDT:USDT"; "ADA/USDT:USDT"] 720
  = [ {| Fetch.pair := "BTC/USDT:USDT";
         Fetch.historical_rates := [1 # 1000; 2 # 1000; 3 # 1000; 4 # 1000];
         Fetch.historical_rates_7d := [3 # 1000; 4 # 1000];
         Fetch.historical_rates_3d := [4 # 1000] |} ].
Proof. reflexivity. Qed.

(** ** Rounding and averages *)

Lemma rint_bounds (q : Q) : (Qfloor q <= rint q <= Qfloor q + 1)%Z.
Proof.
  unfold rint. destruct (Qcompare _ _); [destruct (Z.even _)| |]; lia.
Qed.

(** Rounding half to even never reverses an order. *)
Lemma rint_monotone (q q' : Q) : q <= q' -> (rint q <= rint q')%Z.
Proof.
  intros Hle. pose proof (Qfloor_resp_le _ _ Hle) as Hf.
  destruct (Z.eq_dec (Qfloor q) (Qfloor q')) as [Heq|Hne].
  - unfold rint. rewrite <- Heq.
    destruct (Qcompare_spec (q - inject_Z (Qfloor q)) (1 # 2)) as [H|H|H];
      destruct (Qcompare_spec (q' - inject_Z (Qfloor q)) (1 # 2)) as [H'|H'|H'];
      try lra; try lia; destruct (Z.even (Qfloor q)); lia.
  - pose proof (rint_bounds q). pose proof (rint_bounds q'). lia.
Qed.

Lemma round2_monotone (q q' : Q) : q <= q' -> round2 q <= round2 q'.
Proof.
  intros Hle. unfold round2.
  assert (H : (rint (q * 100) <= rint (q' * 100))%Z)
    by (apply rint_monotone; lra).
  rewrite Zle_Qle in H.
  unfold Qdiv. apply Qmult_le_compat_r; [exact H|]. discriminate.
Qed.

Lemma fold_Qmax_upper (l : list Q) (a : Q) :
  a <= fold_left Qmax l a /\ Forall (fun x => x <= fold_left Qmax l a) l.
Proof.
  revert a. induction l as [|b l IH]; intros a; simpl.
  - split; [lra|constructor].
  - destruct (IH (Qmax a b)) as [H1 H2].
    pose proof (Q.le_max_l a b). pose proof (Q.le_max_r a b).
    split; [lra|]. constructor; [lra|exact H2].
Qed.

Lemma fold_Qplus_bound (l : list Q) (acc M : Q) :
  Forall (fun x => x <= M) l ->
  fold_left Qplus l acc <= acc + inject_Z (Z.of_nat (List.length l)) * M.
Proof.
  revert acc. induction l as [|b l IH]; intros acc H; simpl fold_left.
  - simpl List.length. change (inject_Z (Z.of_nat 0)) with 0. lra.
  - inversion H as [|? ? Hb Hl]; subst. specialize (IH (acc + b) Hl).
    simpl List.length. rewrite Nat2Z.inj_succ. unfold Z.succ.
    rewrite inject_Z_plus. change (inject_Z 1) with 1.
    lra.
Qed.

Lemma fold_Qplus_lower (l : list Q) (acc : Q) :
  Forall (fun x => 0 <= x) l -> acc <= fold_left Qplus l acc.
Proof.
  revert acc. induction l as [|b l IH]; intros acc H; simpl.
  - lra.
  - inversion H as [|? ? Hb Hl]; subst. specialize (IH (acc + b) Hl). lra.
Qed.

(** The mean of a nonempty column is at most its maximum, and it is
    nonnegative when every value is. *)
Lemma series_mean_le_max (a : Q) (l : list Q) :
  exists m M : Q,
    Fetch.series_mean (a :: l) = Some m
    /\ Fetch.series_max (a :: l) = Some M
    /\ m <= M
    /\ (Forall (fun x => 0 <= x) (a :: l) -> 0 <= m).
Proof.
  eexists. eexists. split; [reflexivity|]. split; [reflexivity|].
  set (n := inject_Z (Z.of_nat (List.length (a :: l)))).
  assert (Hn : 0 < n).
  { subst n. rewrite <- (Zlt_Qlt 0). simpl List.length. lia. }
  split.
  - apply Qle_shift_div_r; [exact Hn|].
    destruct (fold_Qmax_upper l a) as [Ha Hl].
    assert (Hall : Forall (fun x => x <= fold_left Qmax l a) (a :: l))
      by (constructor; assumption).
    pose proof (@fold_Qplus_bound (a :: l) 0 (fold_left Qmax l a) Hall) as Hb.
    fold n in Hb. unfold py_sum. lra.
  - intros Hpos. apply Qle_shift_div_l; [exact Hn|].
    pose proof (@fold_Qplus_lower (a :: l) 0 Hpos) as Hb.
    unfold py_sum. lra.
Qed.

Section AmplitudeFacts.

Variable get_ohlc : string -> result (list Fetch.candle).


End AmplitudeFacts.


(** ** Run directory and files *)

Lemma string_app_inv_head (a b c : string) :
  (a ++ b = a ++ c)%string -> b = c.
Proof.
  induction a as [|x a IH]; simpl; intros H; [exact H|].
  injection H as H. now apply IH.
Qed.

Lemma string_app_length (a b : string) :
  String.length (a ++ b) = (String.length a + String.length b)%nat.
Proof.
  induction a as [|x a IH]; simpl; [reflexivity|]. now rewrite IH.
Qed.

Lemma string_app_inv_tail (a b t : string) :
  (a ++ t = b ++ t)%string -> a = b.
Proof.
  revert b. induction a as [|x a IH]; intros [|y b] H; simpl in H.
  - reflexivity.
  - exfalso. apply (f_equal String.length) in H. simpl in H.
    rewrite string_app_length in H. lia.
  - exfalso. apply (f_equal String.length) in H. simpl in H.
    rewrite string_app_length in H. lia.
  - injection H as Hx H. subst y. f_equal. now apply IH.
Qed.

(** X16: the run directory used when saving and the one used when loading
    are the same exactly when the date subfolder is switched off, or is
    set by hand, or the clock formats to the same date at both times.
    With [xlsx] or [csv] as file format and a write that succeeded,
    [file_to_df] then gets what the pandas reader makes of the saved
    frame; when the two directories differ (a run that loads on another
    day) the saved file is not the one read, and [file_to_df] returns what
    it would have returned without the save. *)
Theorem saved_frame_is_loaded_back
        (RUN : Utils.run_config) (clock_at_save clock_at_load : string -> string)
        (frame_t : Type) (empty_frame : frame_t)
        (read_back : frame_t -> result frame_t)
        (disk_accepts : string -> bool)
        (fs fs' : Utils.filesystem frame_t) (df : frame_t)
        (base_directory filename : string) :
  let saved_in := Utils.build_run_directory RUN clock_at_save base_directory in
  let loaded_from := Utils.build_run_directory RUN clock_at_load base_directory in
  let date_format := match Utils.date_subfolder_format RUN with
                     | Some f => f
                     | None => "%Y%m%d"
                     end in
  (saved_in = loaded_from
   <-> (Utils.use_date_subfolder RUN = Some false
        \/ (exists c s, Utils.date_subfolder RUN = Some (String c s))
        \/ clock_at_save date_format = clock_at_load date_format))
  /\ (Utils.file_format RUN = "xlsx" \/ Utils.file_format RUN = "csv" ->
      Utils.df_to_file RUN disk_accepts fs df (saved_in ++ "/data") filename
      = Some fs' ->
      (saved_in = loaded_from ->
       Utils.file_to_df RUN empty_frame read_back fs'
         (loaded_from ++ "/data") filename
       = read_back df)
      /\ (saved_in <> loaded_from ->
          Utils.file_to_df RUN empty_frame read_back fs'
            (loaded_from ++ "/data") filename
          = Utils.file_to_df RUN empty_frame read_back fs
              (loaded_from ++ "/data") filename))
  /\ Utils.build_base_run_directory RUN clock_at_save base_directory "data"
     = saved_in ++ "/data"
  /\ Utils.build_base_run_directory RUN clock_at_save base_directory ""
     = saved_in.
Proof.
  intros saved_in loaded_from date_format.
  split; [|split; [|split; reflexivity]].
  - subst saved_in loaded_from date_format. unfold Utils.build_run_directory.
    split.
    + intros Heq.
      destruct (Utils.use_date_subfolder RUN) as [[]|];
        destruct (Utils.date_subfolder RUN) as [[|c s]|];
        try (left; reflexivity);
        try (right; left; exists c, s; reflexivity);
        right; right;
        apply string_app_inv_head in Heq;
        apply (string_app_inv_head "/") in Heq; exact Heq.
    + intros [Hoff|[[c [s Hset]]|Hclock]].
      * now rewrite Hoff.
      * rewrite Hset. reflexivity.
      * destruct (Utils.use_date_subfolder RUN) as [[]|];
          destruct (Utils.date_subfolder RUN) as [[|c s]|];
          try reflexivity; now rewrite Hclock.
  - intros Hfmt Hsave.
    assert (Hpath : exists ext : string,
               (forall d : string,
                   Utils.df_to_file RUN disk_accepts fs df d filename
                   = Utils.to_file disk_accepts fs
                       (d ++ "/" ++ filename ++ ext) df)
               /\ (forall (fs0 : Utils.filesystem frame_t) (d : string),
                      Utils.file_to_df RUN empty_frame read_back fs0 d filename
                      = Utils.read_file empty_frame read_back fs0
                          (d ++ "/" ++ filename ++ ext))).
    { unfold Utils.df_to_file, Utils.file_to_df.
      destruct Hfmt as [Hf|Hf]; rewrite Hf;
        [exists ".xlsx"|exists ".csv"]; split; reflexivity. }
    destruct Hpath as (ext & Hw & Hr).
    rewrite Hw in Hsave. unfold Utils.to_file in Hsave.
    destruct (disk_accepts _); [|discriminate].
    injection Hsave as <-. rewrite !Hr.
    unfold Utils.read_file, Utils.write_file.
    split.
    + intros <-. now rewrite String.eqb_refl.
    + intros Hdiff.
      match goal with
      | |- context [String.eqb ?p ?q] =>
          destruct (String.eqb_spec p q) as [Hp|Hp]; [|reflexivity]
      end.
      exfalso. apply Hdiff. symmetry.
      apply string_app_inv_tail in Hp.
      apply string_app_inv_tail in Hp. exact Hp.
Qed.

Lemma saved_frame_is_loaded_back_witness :
  let RUN := {| Utils.use_date_subfolder := None;
                Utils.date_subfolder := Some "20240910";
                Utils.date_subfolder_format := None;
                Utils.file_format := "csv" |} in
  Utils.file_to_df RUN (@nil nat) (fun df => Ok df)
    (Utils.write_file (fun _ => None)
       "funding_data/20240910/data/funding_rates_binance.csv" [1%nat; 2%nat])
    (Utils.build_run_directory RUN (fun _ => "20240911") "funding_data"
     ++ "/data")
    "funding_rates_binance"
  = Ok [1%nat; 2%nat].
Proof.
  intros RUN.
  destruct (@saved_frame_is_loaded_back RUN (fun _ => "20240910")
              (fun _ => "20240911") (list nat) (@nil nat) (fun df => Ok df)
              (fun _ => true) (fun _ => None)
              (Utils.write_file (fun _ => None)
                 "funding_data/20240910/data/funding_rates_binance.csv"
                 [1%nat; 2%nat])
              [1%nat; 2%nat] "funding_data"
              "funding_rates_binance") as (Hdir & Hload & _).
  apply Hload.
  - right; reflexivity.
  - reflexivity.
  - apply Hdir. right. left. exists "2"%char, "0240910". reflexivity.
Defined.

(** X17: with a [file_format] other than [xlsx] and [csv], a write by
    [df_to_file] that succeeds puts the frame in a [.csv] file, but
    [file_to_df] reads no file at all and returns the empty frame: what
    was saved under such a format is not loaded back. *)
Theorem unsupported_format_is_saved_but_not_loaded
        (RUN : Utils.run_config) (frame_t : Type) (empty_frame : frame_t)
        (read_back : frame_t -> result frame_t)
        (disk_accepts : string -> bool)
        (fs fs' : Utils.filesystem frame_t)
        (df : frame_t) (directory filename : string) :
  Utils.file_format RUN <> "xlsx" -> Utils.file_format RUN <> "csv" ->
  Utils.df_to_file RUN disk_accepts fs df directory filename = Some fs' ->
  fs' (directory ++ "/" ++ filename ++ ".csv") = Some df
  /\ (forall fs'' : Utils.filesystem frame_t,
         Utils.file_to_df RUN empty_frame read_back fs'' directory filename
         = Ok empty_frame).
Proof.
  intros Hx Hc. apply String.eqb_neq in Hx, Hc.
  unfold Utils.df_to_file, Utils.file_to_df, Utils.to_file, Utils.write_file.
  rewrite Hx, Hc. intros Hsave. split; [|reflexivity].
  destruct (disk_accepts _); [|discriminate].
  injection Hsave as <-. now rewrite String.eqb_refl.
Qed.

Lemma unsupported_format_is_saved_but_not_loaded_witness :
  let RUN := {| Utils.use_date_subfolder := Some false;
                Utils.date_subfolder := None;
                Utils.date_subfolder_format := None;
                Utils.file_format := "json" |} in
  Utils.write_file (fun _ => None)
    "funding_data/data/funding_rates_binance.csv" [1%nat]
    ("funding_data/data" ++ "/" ++ "funding_rates_binance" ++ ".csv")
  = Some [1%nat]
  /\ (forall fs'' : Utils.filesystem (list nat),
         Utils.file_to_df RUN (@nil nat) (fun df => Ok df) fs''
           "funding_data/data" "funding_rates_binance" = Ok []).
Proof.
  intros RUN.
  apply (@unsupported_format_is_saved_but_not_loaded RUN (list nat) (@nil nat)
           (fun df => Ok df) (fun _ => true) (fun _ => None)
           (Utils.write_file (fun _ => None)
              "funding_data/data/funding_rates_binance.csv" [1%nat])
           [1%nat] "funding_data/data" "funding_rates_binance");
    [discriminate|discriminate|reflexivity].
Defined.

(** ** The two analyses as a whole *)

Lemma subsequence_NoDup (A : Type) (l l' : list A) :
  subsequence l l' -> NoDup l' -> NoDup l.
Proof.
  induction 1 as [|a l l' Hs IH|a l l' Hs IH]; intros Hnd.
  - constructor.
  - inversion Hnd; subst. now apply IH.
  - inversion Hnd as [|? ? Hnotin Hnd']; subst. constructor; [|now apply IH].
    intros Hin. apply Hnotin. eapply subsequence_In; eauto.
Qed.

Lemma filter_pair_at_most_one (df : list funding_row) (k : string) :
  NoDup (map pair df) ->
  (List.length (filter (fun y => (k =? pair y)%string) df) <= 1)%nat.
Proof.
  induction df as [|y df IH]; simpl; intros Hnd; [lia|].
  inversion Hnd as [|? ? Hnotin Hnd']; subst.
  destruct (String.eqb_spec k (pair y)) as [Hk|Hk]; [|now apply IH].
  simpl.
  assert (Hnone : filter (fun y0 => (k =? pair y0)%string) df = []).
  { destruct (filter _ df) as [|y' rest] eqn:Ef; [reflexivity|].
    exfalso.
    assert (Hin : In y' (filter (fun y0 => (k =? pair y0)%string) df))
      by (rewrite Ef; now left).
    apply filter_In in Hin. destruct Hin as [Hin Heq].
    apply String.eqb_eq in Heq. apply Hnotin. rewrite <- Hk, Heq.
    now apply in_map. }
  rewrite Hnone. simpl. lia.
Qed.

(** X18: when no pair is listed twice in the second frame, the perp-perp
    result gives each row of the first frame at most once and in the
    order of the first frame; when no pair is listed twice in either
    frame, no pair occurs twice in the result. *)
Theorem perp_perp_one_row_per_pair
        (CONFIG : config) (literal_eval : string -> option pyobj)
        (exchange_1 exchange_2 : string) (df_1 df_2 : perp_table) :
  NoDup (map pair (rows df_2)) ->
  subsequence
    (map PerpPerpOpportunity.pair
       (PerpPerp.create_perp_perp_opportunities_df CONFIG literal_eval
          exchange_1 exchange_2 df_1 df_2))
    (map pair (rows df_1))
  /\ (NoDup (map pair (rows df_1)) ->
      NoDup (map PerpPerpOpportunity.pair
               (PerpPerp.create_perp_perp_opportunities_df CONFIG literal_eval
                  exchange_1 exchange_2 df_1 df_2))).
Proof.
  intros Hnd2.
  assert (Hsub : subsequence
                   (map PerpPerpOpportunity.pair
                      (PerpPerp.create_perp_perp_opportunities_df CONFIG
                         literal_eval exchange_1 exchange_2 df_1 df_2))
                   (map pair (rows df_1))).
  { unfold PerpPerp.create_perp_perp_opportunities_df, PerpPerp.joined,
      merge_on_pair.
    rewrite map_map. cbn [PerpPerp.opportunity PerpPerpOpportunity.pair].
    induction (rows df_1) as [|x l IH]; simpl; [apply subsequence_nil|].
    rewrite map_app.
    change (pair x :: map pair l) with ([pair x] ++ map pair l)%list.
    apply subsequence_app; [|exact IH].
    pose proof (filter_pair_at_most_one (rows df_2) (pair x) Hnd2) as Hlen.
    destruct (filter _ (rows df_2)) as [|y [|y' rest]]; simpl in *.
    - apply subsequence_nil_l.
    - apply subsequence_refl.
    - lia. }
  split; [exact Hsub|]. intros Hnd1. exact (subsequence_NoDup Hsub Hnd1).
Qed.

Lemma perp_perp_one_row_per_pair_witness :
  NoDup (map pair (rows (frame true false [btc_b; quiet_b])))
  /\ NoDup (map pair (rows (frame true false [btc_a; ada_a; quiet_a])))
  /\ subsequence
       (map PerpPerpOpportunity.pair
          (PerpPerp.create_perp_perp_opportunities_df (config_days 30)
             literal_eval_excerpt "A" "B"
             (frame true false [btc_a; ada_a; quiet_a])
             (frame true false [btc_b; quiet_b])))
       (map pair (rows (frame true false [btc_a; ada_a; quiet_a])))
  /\ NoDup (map PerpPerpOpportunity.pair
              (PerpPerp.create_perp_perp_opportunities_df (config_days 30)
                 literal_eval_excerpt "A" "B"
                 (frame true false [btc_a; ada_a; quiet_a])
                 (frame true false [btc_b; quiet_b])))
  /\ map PerpPerpOpportunity.pair
       (PerpPerp.create_perp_perp_opportunities_df (config_days 30)
          literal_eval_excerpt "A" "B"
          (frame true false [btc_a; ada_a; quiet_a])
          (frame true false [btc_b; quiet_b]))
     = ["BTCUSDT"; "XRPUSDT"].
Proof.
  assert (Hnd2 : NoDup (map pair (rows (frame true false [btc_b; quiet_b])))).
  { simpl. repeat constructor; simpl; intuition discriminate. }
  assert (Hnd1 : NoDup (map pair
                          (rows (frame true false [btc_a; ada_a; quiet_a])))).
  { simpl. repeat constructor; simpl; intuition discriminate. }
  destruct (perp_perp_one_row_per_pair (config_days 30) literal_eval_excerpt
              "A" "B" (frame true false [btc_a; ada_a; quiet_a])
              (frame true false [btc_b; quiet_b]) Hnd2) as [Hsub Hnd].
  split; [exact Hnd2|]. split; [exact Hnd1|]. split; [exact Hsub|].
  split; [exact (Hnd Hnd1)|reflexivity].
Defined.

(** X19: the live rates are read only when both frames have the [rate]
    column.  If either frame lacks it, the record returned for a joined
    row does not depend on the rate cells at all: replacing the rate of
    either row by any value leaves the record unchanged. *)
Theorem rates_are_ignored_unless_both_frames_have_them
        (CONFIG : config) (literal_eval : string -> option pyobj)
        (exchange_1 exchange_2 : string) (df_1 df_2 : perp_table)
        (x y : funding_row) (rate_a rate_b : option Q) :
  has_rate df_1 = false \/ has_rate df_2 = false ->
  PerpPerp.opportunity CONFIG literal_eval exchange_1 exchange_2 df_1 df_2
    (SpotPerp.with_historical_rates x (historical_rates x) rate_a)
    (SpotPerp.with_historical_rates y (historical_rates y) rate_b)
  = PerpPerp.opportunity CONFIG literal_eval exchange_1 exchange_2 df_1 df_2
      x y.
Proof.
  intros Hmiss.
  assert (Hc : PerpPerp.has_current df_1 df_2 = false).
  { unfold PerpPerp.has_current. destruct Hmiss as [-> | ->];
      [reflexivity|apply andb_false_r]. }
  unfold PerpPerp.opportunity, PerpPerp.APY_historical_average,
    PerpPerp.mean_daily_amplitude, PerpPerp.max_daily_amplitude,
    PerpPerp.amplitude_days, PerpPerp.cumulative_rate_diff_columns,
    PerpPerp.short_cum_main, PerpPerp.long_cum_main,
    PerpPerp.short_cumulative_rate, PerpPerp.long_cumulative_rate,
    PerpPerp.short_cumulative_rate_7d, PerpPerp.long_cumulative_rate_7d,
    PerpPerp.short_cumulative_rate_3d, PerpPerp.long_cumulative_rate_3d,
    PerpPerp.short_historical_rates, PerpPerp.long_historical_rates,
    PerpPerp.short_historical_rates_7d, PerpPerp.long_historical_rates_7d,
    PerpPerp.short_historical_rates_3d, PerpPerp.long_historical_rates_3d,
    PerpPerp.short_exchange, PerpPerp.long_exchange.
  rewrite Hc. reflexivity.
Qed.

Lemma rates_are_ignored_unless_both_frames_have_them_witness :
  has_rate (frame false false [sol_b]) = false
  /\ PerpPerp.opportunity (config_days 30) literal_eval_excerpt "A" "B"
       (frame true false [btc_a]) (frame false false [sol_b])
       (SpotPerp.with_historical_rates btc_a (historical_rates btc_a)
          (Some (9 # 10)))
       (SpotPerp.with_historical_rates sol_b (historical_rates sol_b) None)
     = PerpPerp.opportunity (config_days 30) literal_eval_excerpt "A" "B"
         (frame true false [btc_a]) (frame false false [sol_b]) btc_a sol_b.
Proof.
  split; [reflexivity|].
  apply (rates_are_ignored_unless_both_frames_have_them (config_days 30)
           literal_eval_excerpt "A" "B"
           (frame true false [btc_a]) (frame false false [sol_b])
           btc_a sol_b (Some (9 # 10)) None).
  right. reflexivity.
Defined.

Lemma Forall_concat_frames (A : Type) (P : A -> Prop) (frames : list (list A)) :
  Forall (Forall P) frames -> Forall P (List.concat frames).
Proof.
  induction 1 as [|frame frames Hf _ IH]; simpl; [constructor|].
  apply Forall_app. auto.
Qed.

Lemma loaded_nothing (perpetual_files : string -> perp_table)
      (perpetual_exchanges : list string) :
  Loading.create_perpetual_data_df_from_files perpetual_files
    perpetual_exchanges = []
  <-> (forall exchange : string,
          In exchange perpetual_exchanges ->
          rows (perpetual_files exchange) = []).
Proof.
  assert (Hkeys : forall k,
             In k (map fst (Loading.create_perpetual_data_df_from_files
                              perpetual_files perpetual_exchanges))
             <-> In k perpetual_exchanges
                 /\ rows (perpetual_files k) <> []).
  { intros k. unfold Loading.create_perpetual_data_df_from_files.
    rewrite (loaded_keys perpetual_files perpetual_exchanges [] k).
    simpl. tauto. }
  split.
  - intros Hnil exchange Hin.
    destruct (rows (perpetual_files exchange)) as [|r l] eqn:Erows;
      [reflexivity|].
    exfalso. specialize (Hkeys exchange). rewrite Hnil in Hkeys.
    apply (proj2 Hkeys). split; [exact Hin|]. now rewrite Erows.
  - intros Hall.
    destruct (Loading.create_perpetual_data_df_from_files perpetual_files
                perpetual_exchanges) as [|[k df] d]; [reflexivity|].
    exfalso. specialize (Hkeys k).
    destruct (proj1 Hkeys (or_introl eq_refl)) as [Hin Hne].
    apply Hne. now apply Hall.
Qed.

Lemma spot_table_empty (spot_files : string -> list string)
      (spot_exchanges : list string) :
  Loading.create_spot_data_df_from_files spot_files spot_exchanges = []
  <-> (forall exchange : string,
          In exchange spot_exchanges -> spot_files exchange = []).
Proof.
  unfold Loading.create_spot_data_df_from_files.
  set (spot_data := flat_map _ spot_exchanges).
  assert (Hdata : spot_data = []
                  <-> forall exchange, In exchange spot_exchanges ->
                                       spot_files exchange = []).
  { subst spot_data. induction spot_exchanges as [|e l IH]; simpl.
    - split; [intros _ ? []|reflexivity].
    - split.
      + intros H. apply app_eq_nil in H. destruct H as [He Hl].
        intros exchange [<-|Hin].
        * now destruct (spot_files e).
        * now apply IH.
      + intros H. rewrite (H e (or_introl eq_refl)). simpl.
        apply IH. intros exchange Hin. apply H. now right. }
  rewrite <- Hdata.
  destruct (group_keys_spec (map fst spot_data)) as (_ & Hmem & _).
  split.
  - intros Hnil. apply map_eq_nil in Hnil.
    destruct spot_data as [|[k e] rest]; [reflexivity|].
    exfalso. specialize (Hmem k). rewrite Hnil in Hmem.
    apply (proj2 Hmem). now left.
  - intros ->. reflexivity.
Qed.

(** X20: the spot-perp analysis returns before it computes or writes
    anything exactly when no configured perpetual file has rows or no
    configured spot file has rows, whatever the per-exchange computations
    would have done.  Otherwise it raises as soon as the computation of
    one loaded exchange raises, and when it returns two frames every
    positive row has a rate above both zero and the threshold and every
    negative row has a rate below zero whose opposite is above the
    threshold. *)
Theorem spot_perp_analysis_results
        (CONFIG : config) (literal_eval : string -> option pyobj)
        (perpetual_files : string -> perp_table)
        (spot_files : string -> list string)
        (perpetual_exchanges spot_exchanges : list string) :
  let perpetual_data_df :=
    Loading.create_perpetual_data_df_from_files perpetual_files
      perpetual_exchanges in
  let spot_pairs_df :=
    Loading.create_spot_data_df_from_files spot_files spot_exchanges in
  let results :=
    Loading.spot_perp_results perpetual_files spot_files CONFIG literal_eval
      perpetual_exchanges spot_exchanges in
  (results = Ok None
   <-> (forall exchange : string,
           In exchange perpetual_exchanges ->
           rows (perpetual_files exchange) = [])
       \/ (forall exchange : string,
              In exchange spot_exchanges -> spot_files exchange = []))
  /\ ((exists exchange : string,
          In exchange perpetual_exchanges
          /\ rows (perpetual_files exchange) <> []) ->
      (exists exchange : string,
          In exchange spot_exchanges /\ spot_files exchange <> []) ->
      forall item : string * perp_table,
        In item perpetual_data_df ->
        SpotPerp.create_spot_perp_opportunites_df CONFIG literal_eval
          (fst item) (snd item) spot_pairs_df = Raised ->
        results = Raised)
  /\ (forall positive_rates_df negative_rates_df : list SpotPerpOpportunity.t,
         results = Ok (Some (positive_rates_df, negative_rates_df)) ->
         Forall
           (fun o => exists q : Q,
                SpotPerpOpportunity.rate o = Some q
                /\ 0 < q /\ funding_rate_threshold CONFIG < q)
           positive_rates_df
         /\ Forall
              (fun o => exists q : Q,
                   SpotPerpOpportunity.rate o = Some q
                   /\ q < 0 /\ funding_rate_threshold CONFIG < - q)
              negative_rates_df).
Proof.
  intros perpetual_data_df spot_pairs_df results.
  pose proof (loaded_nothing perpetual_files perpetual_exchanges) as Hperp.
  pose proof (spot_table_empty spot_files spot_exchanges) as Hspot.
  fold perpetual_data_df in Hperp. fold spot_pairs_df in Hspot.
  subst results. unfold Loading.spot_perp_results.
  fold perpetual_data_df. fold spot_pairs_df.
  split; [|split].
  - rewrite <- Hperp, <- Hspot.
    destruct perpetual_data_df as [|item d]; [split; auto|].
    destruct spot_pairs_df as [|s l].
    + split; auto.
    + split.
      * destruct (apply_series _ (item :: d)); cbn [bind]; discriminate.
      * intros [H|H]; discriminate H.
  - intros [e [He Hne]] [e' [He' Hne']] item Hin Hraised.
    destruct perpetual_data_df as [|item0 d] eqn:Ed.
    { exfalso. apply Hne. now apply (proj1 Hperp eq_refl). }
    destruct spot_pairs_df as [|s l] eqn:Es.
    { exfalso. apply Hne'. now apply (proj1 Hspot eq_refl). }
    now rewrite (apply_series_Raised _ _ item Hin Hraised).
  - intros pos neg.
    destruct perpetual_data_df as [|item0 d]; [discriminate|].
    destruct spot_pairs_df as [|s l]; [discriminate|].
    destruct (apply_series _ (item0 :: d)) as [frames|] eqn:Eframes;
      cbn [bind]; [|discriminate].
    intros Hres. apply apply_series_Ok in Eframes.
    assert (Habove : Forall
                       (fun o => exists q : Q,
                            SpotPerpOpportunity.rate o = Some q
                            /\ funding_rate_threshold CONFIG < Qabs q)
                       (List.concat frames)).
    { apply Forall_concat_frames.
      eapply Forall2_transfer with (Q := fun _ => True);
        [exact Eframes|auto|].
      intros item frame _ Hrun.
      exact (spot_perp_rows_above_threshold _ _ _ _ _ Hrun). }
    rewrite Forall_forall in Habove.
    unfold Ranking.positive_and_negative in Hres.
    cbn [Ranking.filter_and_sort_rates] in Hres.
    injection Hres as Hpos Hneg. subst pos neg.
    split; apply Forall_forall; intros o Ho.
    + apply (Permutation_in _ (sort_values_perm _ _)) in Ho.
      apply filter_In in Ho. destruct Ho as [Hin Hsign].
      apply rate_positive_spec in Hsign. destruct Hsign as [q [Hq Hq0]].
      destruct (Habove o Hin) as [q' [Hq' Hthr]].
      rewrite Hq in Hq'. injection Hq' as <-.
      exists q. repeat split; auto.
      rewrite Qabs_pos in Hthr by lra. exact Hthr.
    + apply (Permutation_in _ (sort_values_perm _ _)) in Ho.
      rewrite filter_negative_negated in Ho.
      apply in_map_iff in Ho. destruct Ho as [o' [<- Ho]].
      apply filter_In in Ho. destruct Ho as [Hin Hsign].
      apply rate_negative_spec in Hsign. destruct Hsign as [q [Hq Hq0]].
      destruct (Habove o' Hin) as [q' [Hq' Hthr]].
      rewrite Hq in Hq'. injection Hq' as <-.
      exists q. rewrite rate_negate_apy. repeat split; auto.
      rewrite Qabs_neg in Hthr by lra. exact Hthr.
Qed.

Lemma spot_perp_analysis_results_witness :
  (exists positive_rates_df negative_rates_df : list SpotPerpOpportunity.t,
      Loading.spot_perp_results perpetual_files_excerpt spot_listing
        (config_days 30) literal_eval_excerpt
        ["binance"; "bybit"] ["binance"; "gate"; "okx"]
      = Ok (Some (positive_rates_df, negative_rates_df))
      /\ map SpotPerpOpportunity.pair positive_rates_df = ["BTC/USDT:USDT"]
      /\ map SpotPerpOpportunity.pair negative_rates_df = ["ETH/USDT:USDT"]
      /\ Forall
           (fun o => exists q : Q,
                SpotPerpOpportunity.rate o = Some q
                /\ 0 < q /\ funding_rate_threshold (config_days 30) < q)
           positive_rates_df
      /\ Forall
           (fun o => exists q : Q,
                SpotPerpOpportunity.rate o = Some q
                /\ q < 0 /\ funding_rate_threshold (config_days 30) < - q)
           negative_rates_df)
  /\ Loading.spot_perp_results perpetual_files_excerpt spot_listing
       (config_days 30) literal_eval_excerpt
       ["binance"; "gate"] ["binance"; "gate"; "okx"] = Raised
  /\ Loading.spot_perp_results perpetual_files_excerpt spot_listing
       (config_days 30) literal_eval_excerpt
       ["binance"; "gate"] ["kraken"] = Ok None.
Proof.
  destruct (spot_perp_analysis_results (config_days 30) literal_eval_excerpt
              perpetual_files_excerpt spot_listing
              ["binance"; "bybit"] ["binance"; "gate"; "okx"])
    as (_ & _ & Hok).
  destruct (spot_perp_analysis_results (config_days 30) literal_eval_excerpt
              perpetual_files_excerpt spot_listing
              ["binance"; "gate"] ["binance"; "gate"; "okx"])
    as (_ & Hraise & _).
  destruct (spot_perp_analysis_results (config_days 30) literal_eval_excerpt
              perpetual_files_excerpt spot_listing
              ["binance"; "gate"] ["kraken"])
    as (Hnone & _ & _).
  split; [|split].
  - eexists. eexists. split; [vm_compute; reflexivity|].
    split; [reflexivity|]. split; [reflexivity|].
    split; [eapply Hok|eapply Hok]; vm_compute; reflexivity.
  - apply Hraise
      with (item := ("gate", Loading.normalize_pairs perp_without_rates)).
    + exists "binance". split; [now left|]. vm_compute. discriminate.
    + exists "binance". split; [now left|]. vm_compute. discriminate.
    + vm_compute. right. left. reflexivity.
    + vm_compute. reflexivity.
  - apply Hnone. right. intros exchange [<-|[]]. reflexivity.
Defined.

(** ** Fetching: current rates *)

(** X21: [get_funding_rates_for_pairs] returns a row exactly for the
    requested pairs whose request returned a rate, with that rate and in
    the order requested: a pair whose request raises or returns no rate is
    skipped without stopping the others.  [fetch_current_rates] asks for
    the pairs of a non-empty filter only, falls back to the discovered
    pairs otherwise, and skips the exchange when there is no pair. *)
Theorem current_rates_rows
        (get_funding_rate : string -> result (option Q))
        (get_all_trading_pairs : list string) :
  (forall (trading_pairs : list string) (pair : string) (current_rate : Q),
      In (pair, current_rate)
         (CurrentRates.get_funding_rates_for_pairs get_funding_rate trading_pairs)
      <-> In pair trading_pairs
          /\ get_funding_rate pair = Ok (Some current_rate))
  /\ (forall trading_pairs : list string,
         subsequence
           (map fst (CurrentRates.get_funding_rates_for_pairs get_funding_rate
                       trading_pairs))
           trading_pairs)
  /\ (forall (p : string) (pairs_filter : list string),
         CurrentRates.fetch_current_rates_for_exchange get_funding_rate
           get_all_trading_pairs (p :: pairs_filter)
         = Some (CurrentRates.get_funding_rates_for_pairs get_funding_rate
                   (p :: pairs_filter)))
  /\ (CurrentRates.fetch_current_rates_for_exchange get_funding_rate
        get_all_trading_pairs [] = None
      <-> get_all_trading_pairs = []).
Proof.
  unfold CurrentRates.get_funding_rates_for_pairs,
    CurrentRates.fetch_current_rates_for_exchange.
  split; [|split; [|split]].
  - intros trading_pairs pair current_rate. rewrite in_flat_map. split.
    + intros [p [Hp Hin]].
      destruct (get_funding_rate p) as [[r|]|] eqn:Ep; try contradiction.
      destruct Hin as [Heq|[]]. inversion Heq; subst. auto.
    + intros [Hp Hr]. exists pair. split; [exact Hp|].
      rewrite Hr. now left.
  - intros trading_pairs.
    induction trading_pairs as [|p pairs IH]; simpl; [apply subsequence_nil|].
    destruct (get_funding_rate p) as [[r|]|]; simpl.
    + now apply subsequence_keep.
    + now apply subsequence_skip.
    + now apply subsequence_skip.
  - reflexivity.
  - destruct get_all_trading_pairs; split; intros H; try reflexivity;
      discriminate.
Qed.
